(** * Phantom Banking: the wallet ledger of the REST server and of the
      enterprise services, as a shallow embedding

    Sources embedded here:
    - [config.py]: the fee table and the amount validation ([Config]);
    - [api_server.py]: the sqlite3 handlers [create_wallet],
      [merchant_topup_wallet], [customer_send_payment], [customer_topup],
      [deactivate_wallet] and [activate_wallet] ([Api]), the read-only
      handlers ([ApiViews]) and [customer_send_payment] on binary64
      amounts ([Api64]);
    - [fnb-phantom-banking/comprehensive_phantom_banking.py]:
      [PhantomWallet.check_limits], [PaymentProcessor.process_payment] and
      [WalletService.create_wallet] ([Enterprise]),
      [WalletService.upgrade_to_fnb_account],
      [FNBIntegrationService.create_account] and [USSDPayment.post]
      ([EnterpriseApi]).

    Conventions of the embedding.
    - Money.  The [REAL] / [Float] columns hold pula amounts.  In [Config],
      [Api] and [Enterprise] an amount is an exact integer number of thebe
      (1/100 pula), so [2.50] is [250]; rounding is outside these modules.
      The balance test of [customer_send_payment] compares the balance with
      a rounded sum: for it the handler is embedded once more on binary64
      numbers ([Float64], [Api64]), with the arithmetic of Python's [float]
      and of SQLite's [REAL].
    - Tables are lists of rows in insertion order: [fetchone()] is the first
      matching row, [UPDATE ... WHERE] rewrites every matching row.
    - Values drawn at random by the source (the [uuid4] parts of the
      identifiers, the PIN, the USSD draws) and the clock are arguments.
    - A handler works on its connection and the changes reach the database
      at [conn.commit()] only; every exit before it leaves the database as it
      was ([conn.close()] in the [finally] clause discards the changes).
    - Columns that no handler embedded here reads ([metadata], the e-mail and
      KYC fields, the text of a notification, SMS printing) are left out. *)

From Stdlib Require Import ZArith List String Ascii Bool Lia.
From Stdlib Require SpecFloat.
Import ListNotations.

Open Scope string_scope.
Open Scope Z_scope.

(** ** Python values shared by the modules *)

(** The result of an operation that either answers or fails. *)
Inductive Result (E A : Type) : Type :=
| Ok (a : A)
| Err (e : E).

Arguments Ok {E A} a.
Arguments Err {E A} e.

Definition bind {E A B : Type} (r : Result E A) (k : A -> Result E B) : Result E B :=
  match r with
  | Ok a => k a
  | Err e => Err e
  end.

Notation "x <- r ;; k" := (bind r (fun x => k))
  (at level 61, r at next level, right associativity).
Notation "' p <- r ;; k" := (bind r (fun p => k))
  (at level 61, p pattern, r at next level, right associativity).

(** [if cond: return error] *)
Definition reject_if {E : Type} (cond : bool) (e : E) : Result E unit :=
  if cond then Err e else Ok tt.

(** [value or fail]: a missing value ends the handler. *)
Definition or_fail {E A : Type} (o : option A) (e : E) : Result E A :=
  match o with
  | Some a => Ok a
  | None => Err e
  end.

(** Truth value of an optional string: [None] and [""] are falsy. *)
Definition truthy (o : option string) : option string :=
  match o with
  | Some EmptyString => None
  | Some s => Some s
  | None => None
  end.

(** Python's [a or b] on optional strings: the first truthy operand, else
    the last operand. *)
Definition py_or (a b : option string) : option string :=
  match truthy a with
  | Some s => Some s
  | None => b
  end.

(** [d.get(key, default)] on a dict literal. *)
Fixpoint dict_get {V : Type} (d : list (string * V)) (key : string) (default : V) : V :=
  match d with
  | [] => default
  | (k, v) :: rest => if String.eqb k key then v else dict_get rest key default
  end.

(** [s.replace(pat, "")]: every occurrence of [pat], left to right, without
    overlap.  [skip] counts the characters of a match still to be dropped. *)
Fixpoint remove_all_from (pat : string) (skip : nat) (s : string) : string :=
  match s with
  | EmptyString => EmptyString
  | String c rest =>
      match skip with
      | S k => remove_all_from pat k rest
      | O =>
          if String.prefix pat s
          then remove_all_from pat (Nat.pred (String.length pat)) rest
          else String c (remove_all_from pat 0 rest)
      end
  end.

Definition remove_all (pat s : string) : string :=
  match pat with
  | EmptyString => s
  | _ => remove_all_from pat 0 s
  end.

(** Equality of an SQL column with a bound parameter that may be [NULL]:
    [col = NULL] matches no row. *)
Definition sql_eq (col : string) (param : option string) : bool :=
  match param with
  | Some p => String.eqb col p
  | None => false
  end.

(** [UPDATE t SET ... WHERE p]. *)
Definition update_where {R : Type} (p : R -> bool) (f : R -> R) (rows : list R) : list R :=
  map (fun r => if p r then f r else r) rows.

(** A wall-clock reading: the calendar date and the second of the day. *)
Record datetime : Type := mkDatetime {
  year : Z;
  month : Z;
  day : Z;
  second_of_day : Z
}.

(** ** config.py *)
Module Config.

(** [Config.FEE_STRUCTURE], in thebe. *)
Definition FEE_STRUCTURE : list (string * Z) :=
  [ ("phantom_wallet", 0);
    ("orange_money", 250);
    ("myzaka", 300);
    ("ussd", 150);
    ("qr_code", 0);
    ("bank_transfer", 500);
    ("eft", 500) ].

(** [get_fee(channel)] *)
Definition get_fee (channel : string) : Z :=
  dict_get FEE_STRUCTURE channel 0.

(** [TRANSACTION_LIMITS] of a configuration class. *)
Record TransactionLimits : Type := mkLimits {
  daily_limit : Z;
  monthly_limit : Z;
  single_transaction : Z;
  minimum_transaction : Z
}.

(** [Config.TRANSACTION_LIMITS] *)
Definition base_limits : TransactionLimits :=
  mkLimits 1000000 5000000 500000 100.

(** [DevelopmentConfig.TRANSACTION_LIMITS], which [HackathonConfig], the
    default configuration, inherits. *)
Definition development_limits : TransactionLimits :=
  mkLimits 100000 500000 50000 1.

Inductive AmountRejected : Type :=
| BelowMinimum (minimum : Z)
| ExceedsSingleTransaction (limit : Z).

(** [validate_transaction_amount(amount)] under the limits [limits] of the
    current configuration. *)
Definition validate_transaction_amount (limits : TransactionLimits) (amount : Z)
  : Result AmountRejected unit :=
  if amount <? minimum_transaction limits
  then Err (BelowMinimum (minimum_transaction limits))
  else if amount >? single_transaction limits
  then Err (ExceedsSingleTransaction (single_transaction limits))
  else Ok tt.

End Config.

(** ** api_server.py over the schema of database.py *)
Module Api.

(** *** Tables *)

(** A row of [wallets]. *)
Record Wallet : Type := mkWallet {
  wallet_id : string;
  business_id : string;
  customer_name : string;
  customer_phone : string;
  balance : Z;
  daily_limit : Z;
  ussd_code : string;
  customer_pin : option string;
  status : string;
  created_at : datetime;
  last_activity : datetime
}.

(** A row of [merchants]. *)
Record Merchant : Type := mkMerchant {
  id : string;
  business_name : string;
  merchant_phone : string;
  merchant_balance : Z;
  merchant_status : string
}.

(** A row of [transactions]. *)
Record Transaction : Type := mkTransaction {
  transaction_id : string;
  txn_wallet_id : string;
  from_wallet : option string;
  to_wallet : option string;
  amount : Z;
  fee : Z;
  channel : string;
  txn_status : string;
  description : string;
  external_reference : option string;
  txn_created_at : datetime
}.

(** A row of [notifications], without its text. *)
Record Notification : Type := mkNotification {
  user_id : option string;
  user_type : string;
  notif_type : string
}.

Record DB : Type := mkDB {
  wallets : list Wallet;
  merchants : list Merchant;
  transactions : list Transaction;
  notifications : list Notification
}.

(** *** Requests and answers *)

(** The request headers the handlers read. *)
Record Headers : Type := mkHeaders {
  Authorization : option string;
  User_Type : option string;
  Customer_Phone : option string
}.

(** The dict built by [get_current_user]: it has these two keys only. *)
Record User : Type := mkUser {
  u_user_id : string;
  u_user_type : string
}.

(** The failure answers of the handlers. *)
Inductive ApiError : Type :=
| MerchantAuthRequired
| CustomerAuthRequired
| MissingField (field : string)
| AmountMustBePositive
| PhoneRequired
| WalletNotFound
| WalletNotFoundOrInactive
| CustomerWalletNotFound
| Unauthorized
| AlreadyHasWallet
| InsufficientBalance (available required : Z)
| InternalError.

(** The HTTP status sent with each failure. *)
Definition http_status (e : ApiError) : Z :=
  match e with
  | MerchantAuthRequired | CustomerAuthRequired => 401
  | MissingField _ | AmountMustBePositive | PhoneRequired => 400
  | InsufficientBalance _ _ => 400
  | WalletNotFound | WalletNotFoundOrInactive | CustomerWalletNotFound => 404
  | Unauthorized => 403
  | AlreadyHasWallet => 409
  | InternalError => 500
  end.

Definition Response (A : Type) : Type := Result ApiError A.

(** [conn.commit()] at the end of the [try] block, [conn.close()] without
    commit on every other exit. *)
Definition commit {A : Type} (db : DB) (r : Response (A * DB)) : Response A * DB :=
  match r with
  | Ok (a, db') => (Ok a, db')
  | Err e => (Err e, db)
  end.

(** *** Helpers of the module *)

(** [generate_wallet_id()], [hex] being [uuid.uuid4().hex[:8]]. *)
Definition generate_wallet_id (hex : string) : string :=
  ("pw_bw_2025_" ++ hex)%string.

(** [generate_transaction_id()] *)
Definition generate_transaction_id (hex : string) : string :=
  ("txn_bw_2025_" ++ hex)%string.

(** [get_current_user()] *)
Definition get_current_user (h : Headers) : option User :=
  let user_type := match User_Type h with Some t => t | None => "merchant" end in
  match truthy (Authorization h) with
  | Some auth_header =>
      if String.prefix "Bearer " auth_header
      then Some (mkUser (remove_all "Bearer " auth_header) user_type)
      else None
  | None => None
  end.

(** [if not user or user['user_type'] != kind: return ..., 401] *)
Definition require_user (kind : string) (e : ApiError) (h : Headers) : Response User :=
  match get_current_user h with
  | Some user => if String.eqb (u_user_type user) kind then Ok user else Err e
  | None => Err e
  end.

(** [db.add_notification(user_id, user_type, message, notif_type)]: its own
    connection, committed at once; a [NULL] [user_id] violates the column's
    [NOT NULL] and the row is not added. *)
Definition add_notification (db : DB) (uid : option string) (utype ntype : string) : DB :=
  match uid with
  | Some _ =>
      mkDB (wallets db) (merchants db) (transactions db)
           (notifications db ++ [mkNotification uid utype ntype])%list
  | None => db
  end.

Definition is_active (w : Wallet) : bool := String.eqb (status w) "active".

Definition has_id (wid : string) (w : Wallet) : bool := String.eqb (wallet_id w) wid.

(** [UPDATE wallets SET balance = balance + ?, last_activity = ?] on a row. *)
Definition add_balance (delta : Z) (now : datetime) (w : Wallet) : Wallet :=
  mkWallet (wallet_id w) (business_id w) (customer_name w) (customer_phone w)
           (balance w + delta) (daily_limit w) (ussd_code w) (customer_pin w)
           (status w) (created_at w) now.

(** [UPDATE wallets SET balance = balance - ?, last_activity = ?] on a row. *)
Definition sub_balance (delta : Z) (now : datetime) (w : Wallet) : Wallet :=
  mkWallet (wallet_id w) (business_id w) (customer_name w) (customer_phone w)
           (balance w - delta) (daily_limit w) (ussd_code w) (customer_pin w)
           (status w) (created_at w) now.

(** [UPDATE wallets SET status = ?] on a row. *)
Definition set_status (s : string) (w : Wallet) : Wallet :=
  mkWallet (wallet_id w) (business_id w) (customer_name w) (customer_phone w)
           (balance w) (daily_limit w) (ussd_code w) (customer_pin w)
           s (created_at w) (last_activity w).

(** [UPDATE merchants SET balance = balance + ?] on a row. *)
Definition add_merchant_balance (delta : Z) (m : Merchant) : Merchant :=
  mkMerchant (id m) (business_name m) (merchant_phone m)
             (merchant_balance m + delta) (merchant_status m).

(** [INSERT INTO transactions]: [transaction_id] is the primary key, a
    second row with the same key raises [sqlite3.IntegrityError]. *)
Definition insert_transaction (t : Transaction) (ts : list Transaction)
  : Response (list Transaction) :=
  if existsb (fun t' => String.eqb (transaction_id t') (transaction_id t)) ts
  then Err InternalError
  else Ok (ts ++ [t])%list.

(** [INSERT INTO wallets]: [wallet_id] is the primary key and [ussd_code]
    is [UNIQUE]. *)
Definition insert_wallet (w : Wallet) (ws : list Wallet) : Response (list Wallet) :=
  if existsb (fun w' => String.eqb (wallet_id w') (wallet_id w)
                        || String.eqb (ussd_code w') (ussd_code w)) ws
  then Err InternalError
  else Ok (ws ++ [w])%list.

(** The balance stored for a wallet id, if there is such a row. *)
Definition balance_of (db : DB) (wid : string) : option Z :=
  option_map balance (find (has_id wid) (wallets db)).

(** The sum of the balances stored for two wallet ids. *)
Definition pair_total (db : DB) (a b : string) : option Z :=
  match balance_of db a, balance_of db b with
  | Some x, Some y => Some (x + y)
  | _, _ => None
  end.

(** The status stored for a wallet id, if there is such a row. *)
Definition status_of (db : DB) (wid : string) : option string :=
  option_map status (find (has_id wid) (wallets db)).

(** *** POST /api/v1/wallets/create *)

Record CreateWalletBody : Type := mkCreateWalletBody {
  cw_customer_phone : option string;
  cw_customer_name : option string;
  cw_initial_balance : option Z;
  cw_daily_limit : option Z
}.

(** [create_wallet()]; [id_hex], [ussd_hex] and [pin] are the random parts
    of the wallet id, of the USSD code and the PIN. The answer carries the
    stored row. *)
Definition create_wallet (db : DB) (now : datetime) (id_hex ussd_hex pin : string)
    (h : Headers) (data : CreateWalletBody) : Response Wallet * DB :=
  commit db (
    user <- require_user "merchant" MerchantAuthRequired h ;;
    phone <- or_fail (cw_customer_phone data) (MissingField "customer_phone") ;;
    name <- or_fail (cw_customer_name data) (MissingField "customer_name") ;;
    let business := u_user_id user in
    let new_id := generate_wallet_id id_hex in
    let ussd := ("*167*" ++ ussd_hex ++ "#")%string in
    (* Check if customer already has a wallet *)
    _ <- reject_if
           (match find (fun w => String.eqb (customer_phone w) phone) (wallets db) with
            | Some _ => true
            | None => false
            end)
           AlreadyHasWallet ;;
    let row :=
      mkWallet new_id business name phone
               (match cw_initial_balance data with Some b => b | None => 0 end)
               (match cw_daily_limit data with Some l => l | None => 500000 end)
               ussd (Some pin) "active" now now in
    ws <- insert_wallet row (wallets db) ;;
    let committed := mkDB ws (merchants db) (transactions db) (notifications db) in
    let db1 := add_notification committed (Some business) "merchant" "success" in
    let db2 := add_notification db1 (Some phone) "customer" "success" in
    Ok (row, db2)).

(** *** POST /api/v1/wallets/<wallet_id>/topup *)

Record TopupBody : Type := mkTopupBody {
  mt_amount : option Z;
  mt_description : option string
}.

Record TopupReceipt : Type := mkTopupReceipt {
  tr_transaction_id : string;
  tr_wallet_id : string;
  tr_amount_added : Z;
  tr_new_balance : Z;
  tr_previous_balance : Z
}.

(** [merchant_topup_wallet(wallet_id)] *)
Definition merchant_topup_wallet (db : DB) (now : datetime) (txn_hex : string)
    (wid : string) (h : Headers) (data : TopupBody) : Response TopupReceipt * DB :=
  commit db (
    user <- require_user "merchant" MerchantAuthRequired h ;;
    amount <- or_fail (mt_amount data) (MissingField "amount") ;;
    descr <- or_fail (mt_description data) (MissingField "description") ;;
    _ <- reject_if (amount <=? 0) AmountMustBePositive ;;
    (* Verify wallet belongs to this merchant and get customer info *)
    wallet <- or_fail (find (has_id wid) (wallets db)) WalletNotFound ;;
    _ <- reject_if (negb (String.eqb (business_id wallet) (u_user_id user))) Unauthorized ;;
    (* Update wallet balance *)
    let ws := update_where (has_id wid) (add_balance amount now) (wallets db) in
    (* Record transaction *)
    let tid := generate_transaction_id txn_hex in
    ts <- insert_transaction
            (mkTransaction tid wid None (Some wid) amount 0 "merchant_topup"
                           "completed" descr None now)
            (transactions db) ;;
    (* Get new balance *)
    new_balance <- or_fail (option_map balance (find (has_id wid) ws)) InternalError ;;
    let committed := mkDB ws (merchants db) ts (notifications db) in
    let db1 := add_notification committed (Some (u_user_id user)) "merchant" "success" in
    let db2 := add_notification db1 (Some (customer_phone wallet)) "customer" "success" in
    Ok (mkTopupReceipt tid wid amount new_balance (balance wallet), db2)).

(** *** POST /api/v1/customer/send-payment *)

Record SendPaymentBody : Type := mkSendPaymentBody {
  sp_amount : option Z;
  sp_channel : option string;
  sp_recipient : option string;
  sp_customer_phone : option string;
  sp_wallet_id : option string
}.

(** [recipient_info] of the answer. *)
Inductive RecipientInfo : Type :=
| CustomerRecipient (name phone : string)
| MerchantRecipient (name phone : string).

Record SendReceipt : Type := mkSendReceipt {
  sr_transaction_id : string;
  sr_amount : Z;
  sr_fee : Z;
  sr_fee_saved : option Z;
  sr_channel : string;
  sr_recipient : string;
  sr_recipient_type : string;
  sr_recipient_info : option RecipientInfo;
  sr_new_balance : Z
}.

(** The dict literal [fee_structure] of the handler. *)
Definition fee_structure : list (string * Z) :=
  [ ("phantom_wallet", 0);
    ("orange_money", 250);
    ("myzaka", 300);
    ("ussd", 150);
    ("qr_code", 0) ].

(** [fee_structure.get(channel, 2.50)] *)
Definition fee_for (chan : string) : Z := dict_get fee_structure chan 250.

(** The dict literal [traditional_fees] of the handler. *)
Definition traditional_fees : list (string * Z) :=
  [ ("orange_money", 9200); ("myzaka", 9900) ].

(** The sender's row: by the [wallet_id] of the body when it has one, by
    the customer's phone otherwise; [status = 'active'] in both queries. *)
Definition find_sender (db : DB) (wid : option string) (phone : string) : option Wallet :=
  match truthy wid with
  | Some w_id => find (fun w => has_id w_id w && is_active w) (wallets db)
  | None => find (fun w => String.eqb (customer_phone w) phone && is_active w) (wallets db)
  end.

(** "Handle recipient": the tables after the credit, and the
    [recipient_info] and [recipient_type] of the answer. [ws] holds the
    sender's debit already. *)
Definition handle_recipient (ws : list Wallet) (ms : list Merchant) (now : datetime)
    (chan recipient : string) (amt : Z)
  : list Wallet * list Merchant * option RecipientInfo * string :=
  let external := (ws, ms, None, "external") in
  if String.eqb chan "phantom_wallet" && negb (String.eqb recipient "") then
    if String.prefix "pw_bw_" recipient then
      (* Customer wallet transfer *)
      match find (fun w => has_id recipient w && is_active w) ws with
      | Some recipient_wallet =>
          (update_where (has_id recipient) (add_balance amt now) ws, ms,
           Some (CustomerRecipient (customer_name recipient_wallet)
                                   (customer_phone recipient_wallet)),
           "customer_wallet")
      | None => external
      end
    else if String.prefix "merchant_" recipient then
      (* Merchant transfer - add to merchant balance *)
      match find (fun m => String.eqb (id m) recipient
                           && String.eqb (merchant_status m) "active") ms with
      | Some recipient_merchant =>
          (ws,
           update_where (fun m => String.eqb (id m) recipient)
                        (add_merchant_balance amt) ms,
           Some (MerchantRecipient (business_name recipient_merchant)
                                   (merchant_phone recipient_merchant)),
           "merchant")
      | None => external
      end
    else external
  else external.

(** The notification sent to a resolved recipient. *)
Definition notify_recipient (db : DB) (recipient : string) (info : option RecipientInfo) : DB :=
  match info with
  | Some (CustomerRecipient _ phone) => add_notification db (Some phone) "customer" "success"
  | Some (MerchantRecipient _ _) => add_notification db (Some recipient) "merchant" "success"
  | None => db
  end.

(** [customer_send_payment()]. The dict of [get_current_user] has neither
    [customer_phone] nor [wallet_id], so [user.get] of them is [None].
    [amt], [chan] and [charged] are the handler's [amount], [channel] and
    [fee], names taken here by the columns of [transactions]. Amounts are
    exact thebe: [amt + charged] and the balance test are exact here, the
    handler on the binary64 numbers of the source is
    [Api64.customer_send_payment]. *)
Definition customer_send_payment (db : DB) (now : datetime) (txn_hex : string)
    (h : Headers) (data : SendPaymentBody) : Response SendReceipt * DB :=
  commit db (
    user <- require_user "customer" CustomerAuthRequired h ;;
    amt <- or_fail (sp_amount data) (MissingField "amount") ;;
    chan <- or_fail (sp_channel data) (MissingField "channel") ;;
    recipient <- or_fail (sp_recipient data) (MissingField "recipient") ;;
    (* Get customer phone from multiple sources *)
    phone <- or_fail (truthy (py_or (sp_customer_phone data) (Customer_Phone h)))
                     PhoneRequired ;;
    (* Get customer wallet - try multiple ways to find it *)
    wallet <- or_fail (find_sender db (sp_wallet_id data) phone) WalletNotFoundOrInactive ;;
    let charged := fee_for chan in
    let total_amount := amt + charged in
    _ <- reject_if (balance wallet <? total_amount)
                   (InsufficientBalance (balance wallet) total_amount) ;;
    (* Update balance *)
    let ws1 := update_where (has_id (wallet_id wallet)) (sub_balance total_amount now)
                            (wallets db) in
    (* Handle recipient - check if it's a customer wallet or merchant *)
    let '(ws2, ms2, recipient_info, recipient_type) :=
      handle_recipient ws1 (merchants db) now chan recipient amt in
    (* Record transaction *)
    let tid := generate_transaction_id txn_hex in
    ts <- insert_transaction
            (mkTransaction tid (wallet_id wallet) (Some (wallet_id wallet))
                           (if String.eqb chan "phantom_wallet" then Some recipient else None)
                           amt charged chan "completed"
                           ("Payment to " ++ recipient ++ " via " ++ chan)%string
                           None now)
            (transactions db) ;;
    let committed := mkDB ws2 ms2 ts (notifications db) in
    (* Calculate savings *)
    let fee_saved := dict_get traditional_fees chan 0 - charged in
    (* Notifications *)
    let db1 := add_notification committed (Some phone) "customer" "success" in
    let db2 := add_notification db1 (Some (business_id wallet)) "merchant" "info" in
    let db3 := notify_recipient db2 recipient recipient_info in
    Ok (mkSendReceipt tid amt charged
                      (if fee_saved >? 0 then Some fee_saved else None)
                      chan recipient recipient_type recipient_info
                      (balance wallet - total_amount),
        db3)).

(** *** POST /api/v1/customer/topup *)

Record CustomerTopupBody : Type := mkCustomerTopupBody {
  ct_amount : option Z;
  ct_source : option string;
  ct_reference : option string;
  ct_customer_phone : option string
}.

Record CustomerTopupReceipt : Type := mkCustomerTopupReceipt {
  cr_transaction_id : string;
  cr_amount : Z;
  cr_source : string;
  cr_old_balance : Z;
  cr_new_balance : Z;
  cr_reference : string
}.

(** [customer_topup()]. [user.get('customer_phone')] is [None], so the
    phone is the one of the body; a [NULL] phone selects no row. *)
Definition customer_topup (db : DB) (now : datetime) (txn_hex : string)
    (h : Headers) (data : CustomerTopupBody) : Response CustomerTopupReceipt * DB :=
  commit db (
    user <- require_user "customer" CustomerAuthRequired h ;;
    amt <- or_fail (ct_amount data) (MissingField "amount") ;;
    source <- or_fail (ct_source data) (MissingField "source") ;;
    reference <- or_fail (ct_reference data) (MissingField "reference") ;;
    let phone := ct_customer_phone data in
    (* Get customer wallet *)
    wallet <- or_fail (find (fun w => sql_eq (customer_phone w) phone) (wallets db))
                      CustomerWalletNotFound ;;
    (* Update balance *)
    let ws := update_where (has_id (wallet_id wallet)) (add_balance amt now) (wallets db) in
    (* Record transaction *)
    let tid := generate_transaction_id txn_hex in
    ts <- insert_transaction
            (mkTransaction tid (wallet_id wallet) None (Some (wallet_id wallet))
                           amt 0 source "completed"
                           ("Top-up from " ++ source)%string
                           (Some reference) now)
            (transactions db) ;;
    let committed := mkDB ws (merchants db) ts (notifications db) in
    let db1 := add_notification committed phone "customer" "success" in
    let db2 := add_notification db1 (Some (business_id wallet)) "merchant" "info" in
    Ok (mkCustomerTopupReceipt tid amt source (balance wallet) (balance wallet + amt)
                               reference,
        db2)).

(** *** PUT /api/v1/wallets/<wallet_id>/deactivate and /activate *)

(** The body shared by [deactivate_wallet] and [activate_wallet]. *)
Definition change_status (new_status notif : string) (db : DB) (wid : string)
    (h : Headers) : Response unit * DB :=
  commit db (
    user <- require_user "merchant" MerchantAuthRequired h ;;
    (* Check if wallet belongs to this merchant *)
    wallet <- or_fail (find (has_id wid) (wallets db)) WalletNotFound ;;
    _ <- reject_if (negb (String.eqb (business_id wallet) (u_user_id user))) Unauthorized ;;
    let ws := update_where (has_id wid) (set_status new_status) (wallets db) in
    let committed := mkDB ws (merchants db) (transactions db) (notifications db) in
    Ok (tt, add_notification committed (Some (u_user_id user)) "merchant" notif)).

(** [deactivate_wallet(wallet_id)] *)
Definition deactivate_wallet : DB -> string -> Headers -> Response unit * DB :=
  change_status "inactive" "info".

(** [activate_wallet(wallet_id)] *)
Definition activate_wallet : DB -> string -> Headers -> Response unit * DB :=
  change_status "active" "success".

(** *** Runs of the ledger *)

(** A request to one of the ledger's handlers, with the clock reading and
    the random draws of its execution. *)
Inductive Call : Type :=
| CreateWallet (now : datetime) (id_hex ussd_hex pin : string)
               (h : Headers) (data : CreateWalletBody)
| MerchantTopup (now : datetime) (txn_hex wid : string) (h : Headers) (data : TopupBody)
| SendPayment (now : datetime) (txn_hex : string) (h : Headers) (data : SendPaymentBody)
| CustomerTopup (now : datetime) (txn_hex : string) (h : Headers) (data : CustomerTopupBody)
| Deactivate (wid : string) (h : Headers)
| Activate (wid : string) (h : Headers).

(** The database after a call; the answer is dropped. *)
Definition step (db : DB) (c : Call) : DB :=
  match c with
  | CreateWallet now id_hex ussd_hex pin h data =>
      snd (create_wallet db now id_hex ussd_hex pin h data)
  | MerchantTopup now txn_hex wid h data =>
      snd (merchant_topup_wallet db now txn_hex wid h data)
  | SendPayment now txn_hex h data => snd (customer_send_payment db now txn_hex h data)
  | CustomerTopup now txn_hex h data => snd (customer_topup db now txn_hex h data)
  | Deactivate wid h => snd (deactivate_wallet db wid h)
  | Activate wid h => snd (activate_wallet db wid h)
  end.

(** The database after a sequence of calls. *)
Definition run (db : DB) (calls : list Call) : DB := fold_left step calls db.

(** Every stored balance is non-negative. *)
Definition balances_nonneg (db : DB) : bool :=
  forallb (fun w => 0 <=? balance w) (wallets db).

End Api.

(** ** fnb-phantom-banking/comprehensive_phantom_banking.py *)
Module Enterprise.

(** [Config], the business rules, in thebe. *)
Definition DEFAULT_DAILY_LIMIT : Z := 500000.
Definition DEFAULT_MONTHLY_LIMIT : Z := 5000000.
Definition MIN_TRANSACTION_AMOUNT : Z := 100.
Definition MAX_TRANSACTION_AMOUNT : Z := 10000000.

Inductive TransactionType : Type := CREDIT | DEBIT.

Inductive PaymentMethod : Type := QR | USSD | EFT | MOBILE_MONEY | CARD.

Inductive TransactionStatus : Type :=
| TXN_PENDING | TXN_COMPLETED | TXN_FAILED | TXN_CANCELLED.

Inductive WalletStatus : Type :=
| WALLET_ACTIVE | WALLET_SUSPENDED | WALLET_UPGRADED | WALLET_CLOSED.

Inductive BusinessStatus : Type :=
| BUSINESS_PENDING | BUSINESS_APPROVED | BUSINESS_ACTIVE | BUSINESS_SUSPENDED.

Definition is_wallet_active (s : WalletStatus) : bool :=
  match s with WALLET_ACTIVE => true | _ => false end.

Definition is_business_active (s : BusinessStatus) : bool :=
  match s with BUSINESS_ACTIVE => true | _ => false end.

Definition is_completed (s : TransactionStatus) : bool :=
  match s with TXN_COMPLETED => true | _ => false end.

(** [PaymentRequest] *)
Record PaymentRequest : Type := mkPaymentRequest {
  pr_wallet_id : string;
  pr_amount : Z;
  pr_method : PaymentMethod;
  pr_description : string
}.

(** [Business] *)
Record Business : Type := mkBusiness {
  b_id : string;
  b_name : string;
  b_status : BusinessStatus;
  total_deposit_volume : Z;
  total_transaction_count : Z
}.

(** [PhantomWallet] *)
Record PhantomWallet : Type := mkPhantomWallet {
  w_id : string;
  w_business_id : string;
  w_customer_phone : string;
  w_customer_name : string;
  w_balance : Z;
  w_daily_limit : Z;
  w_monthly_limit : Z;
  w_status : WalletStatus;
  w_ussd_code : string;
  w_last_activity : datetime
}.

(** [Transaction] *)
Record Transaction : Type := mkTransaction {
  t_id : string;
  t_wallet_id : string;
  t_amount : Z;
  t_type : TransactionType;
  t_method : PaymentMethod;
  t_status : TransactionStatus;
  t_description : string;
  t_reference : string;
  t_timestamp : datetime;
  t_completed_at : option datetime
}.

(** [AuditLog] *)
Record AuditLog : Type := mkAuditLog {
  a_business_id : string;
  a_action : string;
  a_resource_type : string;
  a_resource_id : string
}.

Record DB : Type := mkDB {
  businesses : list Business;
  phantom_wallets : list PhantomWallet;
  transactions : list Transaction;
  audit_logs : list AuditLog
}.

(** *** Dates *)

(** [d.date()] as year, month and day. *)
Definition date (d : datetime) : Z * Z * Z := (year d, month d, day d).

(** [d.replace(day=1).date()] *)
Definition first_of_month (d : datetime) : Z * Z * Z := (year d, month d, 1).

Definition date_eqb (a b : Z * Z * Z) : bool :=
  let '(ya, ma, da) := a in
  let '(yb, mb, db) := b in
  (ya =? yb) && (ma =? mb) && (da =? db).

(** [a >= b] on dates. *)
Definition date_geb (a b : Z * Z * Z) : bool :=
  let '(ya, ma, da) := a in
  let '(yb, mb, db) := b in
  (ya >? yb) || ((ya =? yb) && ((ma >? mb) || ((ma =? mb) && (da >=? db)))).

(** [db.func.sum(Transaction.amount)] over the rows selected by [p],
    [or 0]. *)
Definition sum_amounts (p : Transaction -> bool) (ts : list Transaction) : Z :=
  fold_right (fun t acc => t_amount t + acc) 0 (filter p ts).

(** *** PhantomWallet.check_limits *)

Inductive LimitMessage : Type :=
| LimitOK
| DailyLimitExceeded (limit used : Z)
| MonthlyLimitExceeded (limit used : Z).

(** [daily_total] of [check_limits] *)
Definition daily_total (db : DB) (self : PhantomWallet) (now : datetime) : Z :=
  sum_amounts
    (fun t => String.eqb (t_wallet_id t) (w_id self)
              && date_eqb (date (t_timestamp t)) (date now)
              && is_completed (t_status t))
    (transactions db).

(** [monthly_total] of [check_limits] *)
Definition monthly_total (db : DB) (self : PhantomWallet) (now : datetime) : Z :=
  sum_amounts
    (fun t => String.eqb (t_wallet_id t) (w_id self)
              && date_geb (date (t_timestamp t)) (first_of_month now)
              && is_completed (t_status t))
    (transactions db).

(** [PhantomWallet.check_limits(self, amount)], [now] being
    [datetime.now()]. *)
Definition check_limits (db : DB) (self : PhantomWallet) (now : datetime) (amount : Z)
  : bool * LimitMessage :=
  if daily_total db self now + amount >? w_daily_limit self
  then (false, DailyLimitExceeded (w_daily_limit self) (daily_total db self now))
  else if monthly_total db self now + amount >? w_monthly_limit self
  then (false, MonthlyLimitExceeded (w_monthly_limit self) (monthly_total db self now))
  else (true, LimitOK).

(** *** PaymentProcessor.process_payment *)

Inductive PaymentError : Type :=
| WALLET_NOT_FOUND
| WALLET_INACTIVE
| AMOUNT_TOO_LOW
| AMOUNT_TOO_HIGH
| LIMIT_EXCEEDED (msg : LimitMessage)
| PROCESSING_ERROR.

Record PaymentReceipt : Type := mkPaymentReceipt {
  pp_transaction_id : string;
  pp_reference : string;
  pp_new_balance : Z
}.

(** The session's commit: the answer and the new database, or the failure
    and the database as it was ([db.session.rollback()]). *)
Definition commit {E A : Type} (db : DB) (r : Result E (A * DB)) : Result E A * DB :=
  match r with
  | Ok (a, db') => (Ok a, db')
  | Err e => (Err e, db)
  end.

(** [db.session.add(transaction)] then [commit]: the primary key and the
    [unique] reference are checked by the database. *)
Definition add_transaction {E : Type} (e : E) (t : Transaction) (ts : list Transaction)
  : Result E (list Transaction) :=
  if existsb (fun t' => String.eqb (t_id t') (t_id t)
                        || String.eqb (t_reference t') (t_reference t)) ts
  then Err e
  else Ok (ts ++ [t])%list.

(** [AuditLogger.log_action] *)
Definition log_action (db : DB) (business action resource_type resource : string) : DB :=
  mkDB (businesses db) (phantom_wallets db) (transactions db)
       (audit_logs db ++ [mkAuditLog business action resource_type resource])%list.

Definition credit_wallet (amount : Z) (utcnow : datetime) (w : PhantomWallet) : PhantomWallet :=
  mkPhantomWallet (w_id w) (w_business_id w) (w_customer_phone w) (w_customer_name w)
                  (w_balance w + amount) (w_daily_limit w) (w_monthly_limit w)
                  (w_status w) (w_ussd_code w) utcnow.

Definition count_deposit (amount : Z) (b : Business) : Business :=
  mkBusiness (b_id b) (b_name b) (b_status b)
             (total_deposit_volume b + amount) (total_transaction_count b + 1).

(** [PaymentProcessor.process_payment(payment_request)]; [now] is
    [datetime.now()], [utcnow] is [datetime.utcnow()], [new_id] and
    [reference] are the generated key and reference of the transaction. *)
Definition process_payment (db : DB) (now utcnow : datetime) (new_id reference : string)
    (payment_request : PaymentRequest) : Result PaymentError PaymentReceipt * DB :=
  commit db (
    (* Validate wallet *)
    wallet <- or_fail (find (fun w => String.eqb (w_id w) (pr_wallet_id payment_request))
                            (phantom_wallets db))
                      WALLET_NOT_FOUND ;;
    _ <- reject_if (negb (is_wallet_active (w_status wallet))) WALLET_INACTIVE ;;
    (* Validate amount *)
    _ <- reject_if (pr_amount payment_request <? MIN_TRANSACTION_AMOUNT) AMOUNT_TOO_LOW ;;
    _ <- reject_if (pr_amount payment_request >? MAX_TRANSACTION_AMOUNT) AMOUNT_TOO_HIGH ;;
    (* Check limits *)
    let '(limit_ok, limit_msg) := check_limits db wallet now (pr_amount payment_request) in
    _ <- reject_if (negb limit_ok) (LIMIT_EXCEEDED limit_msg) ;;
    (* Update wallet balance *)
    let ws := update_where (fun w => String.eqb (w_id w) (w_id wallet))
                           (credit_wallet (pr_amount payment_request) utcnow)
                           (phantom_wallets db) in
    (* Update business metrics *)
    business <- or_fail (find (fun b => String.eqb (b_id b) (w_business_id wallet))
                              (businesses db))
                        PROCESSING_ERROR ;;
    let bs := update_where (fun b => String.eqb (b_id b) (b_id business))
                           (count_deposit (pr_amount payment_request))
                           (businesses db) in
    (* Save transaction, then mark it as completed *)
    ts <- add_transaction PROCESSING_ERROR
            (mkTransaction new_id (w_id wallet) (pr_amount payment_request) CREDIT
                           (pr_method payment_request) TXN_COMPLETED
                           (pr_description payment_request) reference utcnow
                           (Some utcnow))
            (transactions db) ;;
    let committed := mkDB bs ws ts (audit_logs db) in
    Ok (mkPaymentReceipt new_id reference (w_balance wallet + pr_amount payment_request),
        log_action committed (b_id business) "payment_processed" "transaction" new_id)).

(** *** WalletService.create_wallet *)

(** The decimal digit [n], for [0 <= n <= 9]. *)
Definition digit (n : Z) : ascii := ascii_of_nat (48 + Z.to_nat n).

(** [f"*{n:04d}#"], for [0 <= n < 10000]. *)
Definition format_ussd (n : Z) : string :=
  String "*"
    (String (digit (n / 1000 mod 10))
      (String (digit (n / 100 mod 10))
        (String (digit (n / 10 mod 10))
          (String (digit (n mod 10)) "#")))).

(** [PhantomWallet._generate_ussd_code]: [draws] are the successive values
    of [secrets.randbelow(9999)]; the loop returns at the first code that
    no wallet has. [None] when the draws given run out before that. *)
Fixpoint _generate_ussd_code (ws : list PhantomWallet) (draws : list Z) : option string :=
  match draws with
  | [] => None
  | n :: rest =>
      let code := format_ussd n in
      match find (fun w => String.eqb (w_ussd_code w) code) ws with
      | None => Some code
      | Some _ => _generate_ussd_code ws rest
      end
  end.

(** The [customer_data] dict. *)
Record CustomerData : Type := mkCustomerData {
  cd_phone : option string;
  cd_name : option string;
  cd_daily_limit : option Z
}.

Inductive CreateError : Type :=
| BusinessNotFoundOrInactive
| AlreadyHasWalletWithBusiness
| CreationError.

(** [db.session.add(wallet)] then [commit]: [id] is the primary key and
    [ussd_code] is [unique]. *)
Definition add_wallet (w : PhantomWallet) (ws : list PhantomWallet)
  : Result CreateError (list PhantomWallet) :=
  if existsb (fun w' => String.eqb (w_id w') (w_id w)
                        || String.eqb (w_ussd_code w') (w_ussd_code w)) ws
  then Err CreationError
  else Ok (ws ++ [w])%list.

(** [WalletService.create_wallet(business_id, customer_data)]; [new_id] is
    the generated primary key, [utcnow] the clock, [draws] the random
    draws of the USSD loop. The outer [None] is the loop still running
    when the draws given are used up. *)
Definition create_wallet (db : DB) (utcnow : datetime) (new_id : string) (draws : list Z)
    (business_id : string) (customer_data : CustomerData)
  : option (Result CreateError PhantomWallet * DB) :=
  (* Validate business *)
  match find (fun b => String.eqb (b_id b) business_id) (businesses db) with
  | None => Some (Err BusinessNotFoundOrInactive, db)
  | Some business =>
      if negb (is_business_active (b_status business))
      then Some (Err BusinessNotFoundOrInactive, db)
      else
        match cd_phone customer_data with
        | None => Some (Err CreationError, db)
        | Some phone =>
            (* Check for existing wallet *)
            match find (fun w => String.eqb (w_business_id w) business_id
                                 && String.eqb (w_customer_phone w) phone)
                       (phantom_wallets db) with
            | Some _ => Some (Err AlreadyHasWalletWithBusiness, db)
            | None =>
                match cd_name customer_data with
                | None => Some (Err CreationError, db)
                | Some name =>
                    (* Create wallet *)
                    match _generate_ussd_code (phantom_wallets db) draws with
                    | None => None
                    | Some code =>
                        let wallet :=
                          mkPhantomWallet new_id business_id phone name 0
                            (match cd_daily_limit customer_data with
                             | Some l => l
                             | None => DEFAULT_DAILY_LIMIT
                             end)
                            DEFAULT_MONTHLY_LIMIT WALLET_ACTIVE code utcnow in
                        Some (commit db (
                          ws <- add_wallet wallet (phantom_wallets db) ;;
                          let committed :=
                            mkDB (businesses db) ws (transactions db) (audit_logs db) in
                          Ok (wallet,
                              log_action committed business_id "wallet_created"
                                         "wallet" new_id)))
                    end
                end
            end
        end
  end.

End Enterprise.

(** ** Readings of a request, used to state the properties *)
Module Requests.
Import Api.

(** The request passes [get_current_user] as a customer. *)
Definition customer_authenticated (h : Headers) : Prop :=
  match get_current_user h with
  | Some user => String.eqb (u_user_type user) "customer"
  | None => false
  end = true.

(** The request passes [get_current_user] as the merchant [merchant_id]. *)
Definition merchant_authenticated (h : Headers) (merchant_id : string) : Prop :=
  match get_current_user h with
  | Some user =>
      String.eqb (u_user_type user) "merchant" && String.eqb (u_user_id user) merchant_id
  | None => false
  end = true.

(** A send request that gets as far as the balance check: the caller is a
    customer, the three required fields are there, a phone is given and
    the sender's wallet is found. *)
Definition reaches_balance_check (db : DB) (h : Headers) (data : SendPaymentBody)
    (amt : Z) (chan recipient phone : string) (wallet : Wallet) : Prop :=
  customer_authenticated h
  /\ sp_amount data = Some amt
  /\ sp_channel data = Some chan
  /\ sp_recipient data = Some recipient
  /\ truthy (py_or (sp_customer_phone data) (Customer_Phone h)) = Some phone
  /\ find_sender db (sp_wallet_id data) phone = Some wallet.

(** The generated transaction id is not the key of a stored row. *)
Definition fresh_transaction_id (db : DB) (txn_hex : string) : Prop :=
  existsb (fun t => String.eqb (transaction_id t) (generate_transaction_id txn_hex))
          (transactions db) = false.

End Requests.

(** ** Requests and databases used as concrete inputs *)
Module Scenario.
Import Api.

Definition noon : datetime := mkDatetime 2025 6 14 43200.

(** The request headers of a logged-in merchant. *)
Definition merchant_headers (merchant_id : string) : Headers :=
  mkHeaders (Some ("Bearer " ++ merchant_id)%string) (Some "merchant") None.

(** The request headers of a logged-in customer. *)
Definition customer_headers (token : string) : Headers :=
  mkHeaders (Some ("Bearer " ++ token)%string) (Some "customer") None.

(** Two registered merchants, no wallet, no transaction. *)
Definition two_merchants : DB :=
  mkDB []
       [ mkMerchant "merchant_001" "Kgalagadi General Store" "+267 75 123 456" 0 "active";
         mkMerchant "merchant_002" "Motswana Hair Salon" "+267 75 234 567" 0 "active" ]
       [] [].

Definition phone_A : string := "+26771111111".
Definition phone_B : string := "+26772222222".
Definition wallet_A : string := "pw_bw_2025_aaaaaaaa".
Definition wallet_B : string := "pw_bw_2025_bbbbbbbb".

(** Merchant 001 creates wallet A with an opening balance. *)
Definition create_A (opening : Z) : Call :=
  CreateWallet noon "aaaaaaaa" "A1A1" "1234" (merchant_headers "merchant_001")
               (mkCreateWalletBody (Some phone_A) (Some "Sender Test") (Some opening) None).

(** Merchant 001 creates wallet B, empty. *)
Definition create_B : Call :=
  CreateWallet noon "bbbbbbbb" "B2B2" "5678" (merchant_headers "merchant_001")
               (mkCreateWalletBody (Some phone_B) (Some "Receiver Test") (Some 0) None).

(** The customer of wallet A sends [amt] over [chan] to [recipient]. *)
Definition send_from_A (amt : Z) (chan recipient : string) : SendPaymentBody :=
  mkSendPaymentBody (Some amt) (Some chan) (Some recipient) (Some phone_A) (Some wallet_A).

(** Wallets A (P500.00) and B (empty), both active. *)
Definition A_and_B : DB := run two_merchants [create_A 50000; create_B].

(** Wallets A (P500.00, active) and B (empty, deactivated by its merchant). *)
Definition A_and_inactive_B : DB :=
  run two_merchants
      [create_A 50000; create_B; Deactivate wallet_B (merchant_headers "merchant_001")].

(** Wallet A (P500.00) deactivated by its merchant. *)
Definition inactive_A : DB :=
  run two_merchants [create_A 50000; Deactivate wallet_A (merchant_headers "merchant_001")].

(** Wallet A with P10,000.00 and the default daily limit of P5,000.00. *)
Definition rich_A : DB := run two_merchants [create_A 1000000].

(** The enterprise database: two active businesses, one wallet of the
    first one, no transaction. *)
Definition enterprise_db : Enterprise.DB :=
  Enterprise.mkDB
    [ Enterprise.mkBusiness "biz-1" "Kgalagadi General Store" Enterprise.BUSINESS_ACTIVE 0 0;
      Enterprise.mkBusiness "biz-2" "Motswana Hair Salon" Enterprise.BUSINESS_ACTIVE 0 0 ]
    [ Enterprise.mkPhantomWallet "w-1" "biz-1" phone_A "Thabo Molefe" 0
        Enterprise.DEFAULT_DAILY_LIMIT Enterprise.DEFAULT_MONTHLY_LIMIT
        Enterprise.WALLET_ACTIVE "*0042#" noon ]
    [] [].

Definition customer_A : Enterprise.CustomerData :=
  Enterprise.mkCustomerData (Some phone_A) (Some "Thabo Molefe") None.

(** The row of wallet A when its balance is [bal]. *)
Definition row_A (bal : Z) : Wallet :=
  mkWallet wallet_A "merchant_001" "Sender Test" phone_A bal 500000 "*167*A1A1#"
           (Some "1234") "active" noon noon.

(** The row of wallet B, empty and active. *)
Definition row_B : Wallet :=
  mkWallet wallet_B "merchant_001" "Receiver Test" phone_B 0 500000 "*167*B2B2#"
           (Some "5678") "active" noon noon.



(** A wallet id with the right prefix that no row has. *)
Definition unknown_wallet : string := "pw_bw_2025_deadbeef".

(** A customer top-up of the wallet registered under phone A. *)
Definition topup_A (amt : Z) : CustomerTopupBody :=
  mkCustomerTopupBody (Some amt) (Some "orange_money") (Some "OM-TEST-12345")
                      (Some phone_A).

End Scenario.

(** ** api_server.py: login, read handlers and the upgrade suggestion *)
Module ApiViews.
Import Api.

(** *** POST /api/v1/auth/customer/login *)

Record LoginBody : Type := mkLoginBody {
  lg_phone : option string;
  lg_pin : option string
}.

(** The [data] of a successful login. *)
Record CustomerSession : Type := mkCustomerSession {
  cs_wallet_id : string;
  cs_customer_name : string;
  cs_balance : Z;
  cs_customer_phone : string;
  cs_user_type : string
}.

Inductive LoginError : Type :=
| PhoneAndPinRequired
| InvalidPIN
| LoginWalletNotFoundOrInactive.

Definition login_status (e : LoginError) : Z :=
  match e with
  | PhoneAndPinRequired => 400
  | InvalidPIN => 401
  | LoginWalletNotFoundOrInactive => 404
  end.

(** [c.isdigit()] for a character below U+0100: the decimal digits and the
    superscripts two, three and one (U+00B2, U+00B3, U+00B9). A string is
    read as its sequence of code points, all below U+0100. *)
Definition isdigit_char (c : ascii) : bool :=
  let n := nat_of_ascii c in
  (Nat.leb 48 n && Nat.leb n 57) || Nat.eqb n 178 || Nat.eqb n 179 || Nat.eqb n 185.

(** [s.isdigit()]: at least one character, and digits only. *)
Definition isdigit (s : string) : bool :=
  match s with
  | EmptyString => false
  | _ => forallb isdigit_char (list_ascii_of_string s)
  end.

(** [customer_login()]: the wallet is the first row with the phone; the
    stored [customer_pin] is selected and never compared. *)
Definition customer_login (db : DB) (data : LoginBody)
  : Result LoginError CustomerSession :=
  match truthy (lg_phone data), truthy (lg_pin data) with
  | Some phone, Some pin =>
      match find (fun w => String.eqb (customer_phone w) phone) (wallets db) with
      | Some wallet =>
          if is_active wallet then
            (* In demo mode, accept any 4-digit PIN *)
            if Nat.eqb (String.length pin) 4 && isdigit pin
            then Ok (mkCustomerSession (wallet_id wallet) (customer_name wallet)
                                       (balance wallet) phone "customer")
            else Err InvalidPIN
          else Err LoginWalletNotFoundOrInactive
      | None => Err LoginWalletNotFoundOrInactive
      end
  | _, _ => Err PhoneAndPinRequired
  end.

(** *** GET /api/v1/wallets/<wallet_id>/balance *)

(** The [data] of the balance answer; [wv_business_name] is the joined
    [m.business_name], [NULL] when no merchant row has the wallet's
    [business_id]. *)
Record WalletView : Type := mkWalletView {
  wv_wallet_id : string;
  wv_customer_name : string;
  wv_customer_phone : string;
  wv_balance : Z;
  wv_daily_limit : Z;
  wv_ussd_code : string;
  wv_status : string;
  wv_business_name : option string;
  wv_last_activity : datetime
}.

(** [get_wallet_balance(wallet_id)]: no caller check; [None] is the 404
    answer. *)
Definition get_wallet_balance (db : DB) (wid : string) : option WalletView :=
  match find (has_id wid) (wallets db) with
  | Some w =>
      Some (mkWalletView (wallet_id w) (customer_name w) (customer_phone w) (balance w)
              (daily_limit w) (ussd_code w) (status w)
              (option_map business_name
                 (find (fun m => String.eqb (id m) (business_id w)) (merchants db)))
              (last_activity w))
  | None => None
  end.

(** *** GET /api/v1/merchants/<merchant_id>/balance *)

Inductive MerchantBalanceError : Type :=
| UnauthorizedAccess
| MerchantNotFound.

Definition merchant_balance_status (e : MerchantBalanceError) : Z :=
  match e with
  | UnauthorizedAccess => 401
  | MerchantNotFound => 404
  end.


(** *** GET /api/v1/wallets/<wallet_id>/transactions *)

(** A value of a result tuple. [Untracked] stands for a column whose value
    is not part of the rows modelled here. *)
Inductive Cell : Type :=
| Null
| Text (s : string)
| Real (x : Z)
| Time (t : datetime)
| Untracked.

Definition text_or_null (o : option string) : Cell :=
  match o with
  | Some s => Text s
  | None => Null
  end.

(** The [CASE] of the query: ['sent'], ['received'] or ['unknown']. *)
Definition transaction_type (wid : string) (t : Transaction) : string :=
  if sql_eq wid (from_wallet t) then "sent"
  else if sql_eq wid (to_wallet t) then "received"
  else "unknown".

(** A tuple of [SELECT t.*, CASE ... END]: the thirteen columns of
    [transactions] in the order of its [CREATE TABLE], then the type.
    Column 2, [recipient_wallet_id], is set by no [INSERT] of the server;
    column 12, [updated_at], is filled by the database. *)
Definition txn_tuple (wid : string) (t : Transaction) : list Cell :=
  [ Text (transaction_id t);
    Text (txn_wallet_id t);
    Null;
    text_or_null (from_wallet t);
    text_or_null (to_wallet t);
    Real (amount t);
    Real (fee t);
    Text (channel t);
    Text (txn_status t);
    Text (description t);
    text_or_null (external_reference t);
    Time (txn_created_at t);
    Untracked;
    Text (transaction_type wid t) ].

(** [txn[i]] *)
Definition col (txn : list Cell) (i : nat) : Cell := nth i txn Null.

(** [d.get(key, default)] when the key is a cell: the keys of [d] are
    strings, and a number or [None] equals none of them. *)
Definition cell_dict_get (d : list (string * Z)) (key : Cell) (default : Z) : Z :=
  match key with
  | Text s => dict_get d s default
  | _ => default
  end.

(** [x or 0] for a number cell or [None]. *)
Definition real_or_zero (c : Cell) : Z :=
  match c with
  | Real x => x
  | _ => 0
  end.

(** [c == s] for a cell and a string literal. *)
Definition cell_is_text (c : Cell) (s : string) : bool :=
  match c with
  | Text s' => String.eqb s' s
  | _ => false
  end.

(** An entry of the history. *)
Record HistoryEntry : Type := mkHistoryEntry {
  he_transaction_id : Cell;
  he_wallet_id : Cell;
  he_from_wallet : Cell;
  he_to_wallet : Cell;
  he_amount : Cell;
  he_fee : Cell;
  he_channel : Cell;
  he_status : Cell;
  he_description : Cell;
  he_created_at : Cell;
  he_external_reference : Cell;
  he_type : Cell;
  he_fee_saved : option Z;
  he_free_transfer : bool;
  he_cost_savings : bool
}.

(** The body of the loop over the tuples. *)
Definition history_entry (txn : list Cell) : HistoryEntry :=
  (* Calculate savings for each transaction *)
  let fee_saved := cell_dict_get traditional_fees (col txn 6) 0 - real_or_zero (col txn 5) in
  mkHistoryEntry (col txn 0) (col txn 1) (col txn 3) (col txn 4) (col txn 5) (col txn 6)
                 (col txn 7) (col txn 8) (col txn 9) (col txn 11) (col txn 10) (col txn 13)
                 (if fee_saved >? 0 then Some fee_saved else None)
                 (cell_is_text (col txn 7) "phantom_wallet")
                 (fee_saved >? 0).

Definition datetime_leb (a b : datetime) : bool :=
  (year a <? year b)
  || ((year a =? year b)
      && ((month a <? month b)
          || ((month a =? month b)
              && ((day a <? day b)
                  || ((day a =? day b) && (second_of_day a <=? second_of_day b)))))).

(** One step of [ORDER BY t.created_at DESC]: rows of equal time keep
    their insertion order, which the database leaves open. *)
Fixpoint insert_by_created_desc (t : Transaction) (sorted : list Transaction)
  : list Transaction :=
  match sorted with
  | [] => [t]
  | u :: rest =>
      if datetime_leb (txn_created_at u) (txn_created_at t)
      then t :: u :: rest
      else u :: insert_by_created_desc t rest
  end.

(** [ORDER BY t.created_at DESC] *)
Definition order_by_created_desc (rows : list Transaction) : list Transaction :=
  fold_right insert_by_created_desc [] rows.

(** [LIMIT ? OFFSET ?]: a negative limit is no limit, a negative offset is
    no offset. *)
Definition limit_offset {R : Type} (limit offset : Z) (rows : list R) : list R :=
  let rest := skipn (Z.to_nat offset) rows in
  if limit <? 0 then rest else firstn (Z.to_nat limit) rest.

(** The [summary] of the answer. *)
Record HistorySummary : Type := mkHistorySummary {
  total_transactions : nat;
  total_fees_saved : Z;
  phantom_transfers : nat
}.

(** [get_transactions(wallet_id)]; [limit] and [offset] are the query
    parameters, absent or already read as integers. *)
Definition get_transactions (db : DB) (wid : string) (limit offset : option Z)
  : list HistoryEntry * HistorySummary :=
  let limit := match limit with Some l => l | None => 50 end in
  let offset := match offset with Some o => o | None => 0 end in
  let selected :=
    filter (fun t => sql_eq wid (from_wallet t) || sql_eq wid (to_wallet t))
           (transactions db) in
  let page := limit_offset limit offset (order_by_created_desc selected) in
  let result := map (fun t => history_entry (txn_tuple wid t)) page in
  (result,
   mkHistorySummary
     (List.length result)
     (fold_right (fun e acc => match he_fee_saved e with Some s => s | None => 0 end + acc)
                 0 result)
     (List.length (filter (fun e => cell_is_text (he_channel e) "phantom_wallet") result))).

(** *** POST /api/v1/wallets/<wallet_id>/suggest-upgrade *)

(** A row of [upgrade_suggestions]. *)
Record UpgradeSuggestion : Type := mkUpgradeSuggestion {
  us_id : string;
  us_wallet_id : string;
  us_merchant_id : string;
  us_reason : string;
  us_documents_provided : list string;
  us_status : string;
  us_created_at : datetime
}.

Record SuggestBody : Type := mkSuggestBody {
  sg_documents_provided : option (list string);
  sg_reason : option string
}.

(** [suggest_account_upgrade(wallet_id)] over the database and the table
    [upgrade_suggestions]; [hex] is the random part of the suggestion id,
    the primary key of that table. The answer carries the suggestion id
    and the customer's name. *)
Definition suggest_account_upgrade (db : DB) (suggestions : list UpgradeSuggestion)
    (now : datetime) (hex wid : string) (h : Headers) (data : SuggestBody)
  : Response (string * string) * DB * list UpgradeSuggestion :=
  let refused e := (Err e, db, suggestions) in
  match require_user "merchant" MerchantAuthRequired h with
  | Err e => refused e
  | Ok user =>
      let documents_provided :=
        match sg_documents_provided data with Some d => d | None => [] end in
      let reason :=
        match sg_reason data with
        | Some r => r
        | None => "Customer meets upgrade criteria"
        end in
      (* Verify wallet and get customer info *)
      match find (has_id wid) (wallets db) with
      | None => refused WalletNotFound
      | Some wallet =>
          if negb (String.eqb (business_id wallet) (u_user_id user))
          then refused Unauthorized
          else
            (* Create upgrade suggestion record *)
            let suggestion_id := ("upgrade_" ++ hex)%string in
            if existsb (fun s => String.eqb (us_id s) suggestion_id) suggestions
            then refused InternalError
            else
              let db1 := add_notification db (Some (u_user_id user)) "merchant" "info" in
              let db2 := add_notification db1 (Some (customer_phone wallet))
                                          "customer" "info" in
              (Ok (suggestion_id, customer_name wallet), db2,
               (suggestions
                  ++ [mkUpgradeSuggestion suggestion_id wid (u_user_id user) reason
                                          documents_provided "pending" now])%list)
      end
  end.

End ApiViews.


(** ** comprehensive_phantom_banking.py: the upgrade and the USSD endpoint *)
Module EnterpriseApi.
Import Enterprise.

(** [f"{n:0{width}d}"] for [0 <= n < 10 ^ width]. *)
Fixpoint zero_pad (width : nat) (n : Z) : string :=
  match width with
  | O => EmptyString
  | S w => (zero_pad w (n / 10) ++ String (digit (n mod 10)) EmptyString)%string
  end.

(** What [FNBIntegrationService.create_account] returns besides its
    constant fields. *)
Record FNBAccount : Type := mkFNBAccount {
  account_number : string;
  customer_id : string
}.

(** [FNBIntegrationService.create_account(customer_data)]: always a
    success; the two draws are [secrets.randbelow(99999999)] and
    [secrets.randbelow(999999)]. *)
Definition create_account (account_draw customer_draw : Z) : FNBAccount :=
  mkFNBAccount ("62" ++ zero_pad 8 account_draw)%string
               ("FNBC" ++ zero_pad 6 customer_draw)%string.

Definition set_upgraded (w : PhantomWallet) : PhantomWallet :=
  mkPhantomWallet (w_id w) (w_business_id w) (w_customer_phone w) (w_customer_name w)
                  (w_balance w) (w_daily_limit w) (w_monthly_limit w)
                  WALLET_UPGRADED (w_ussd_code w) (w_last_activity w).

Inductive UpgradeError : Type :=
| UpgradeWalletNotFound.

(** [WalletService.upgrade_to_fnb_account(wallet_id)]. The columns
    [fnb_account_number], [fnb_customer_id] and [kyc_status] that it also
    writes are not part of [PhantomWallet]; the account is in the answer. *)
Definition upgrade_to_fnb_account (db : DB) (account_draw customer_draw : Z)
    (wallet_id : string) : Result UpgradeError FNBAccount * DB :=
  match find (fun w => String.eqb (w_id w) wallet_id) (phantom_wallets db) with
  | None => (Err UpgradeWalletNotFound, db)
  | Some wallet =>
      (* Simulate FNB account creation *)
      let fnb_account := create_account account_draw customer_draw in
      let ws := update_where (fun w => String.eqb (w_id w) wallet_id) set_upgraded
                             (phantom_wallets db) in
      let committed := mkDB (businesses db) ws (transactions db) (audit_logs db) in
      (Ok fnb_account,
       log_action committed (w_business_id wallet) "wallet_upgraded" "wallet" wallet_id)
  end.

Inductive UssdError : Type :=
| InvalidUSSDCode
| PaymentRefused (e : PaymentError).

(** [USSDPayment.post], once [require_api_key] has let the request
    through: the wallet is the first one with the USSD code, whatever the
    business of the caller. [amount] is [float(request.json["amount"])] and
    [amount_text] the text of that JSON value in the description. *)
Definition ussd_payment (db : DB) (now utcnow : datetime) (new_id reference : string)
    (ussd_code : string) (amount : Z) (amount_text : string)
  : Result UssdError PaymentReceipt * DB :=
  (* Find wallet by USSD code *)
  match find (fun w => String.eqb (w_ussd_code w) ussd_code) (phantom_wallets db) with
  | None => (Err InvalidUSSDCode, db)
  | Some wallet =>
      let payment_request :=
        mkPaymentRequest (w_id wallet) amount USSD
                         ("USSD Payment - BWP " ++ amount_text)%string in
      match process_payment db now utcnow new_id reference payment_request with
      | (Ok receipt, db') => (Ok receipt, db')
      | (Err e, db') => (Err (PaymentRefused e), db')
      end
  end.

End EnterpriseApi.


(** ** What is observed of a database in the properties of the runs *)
Module Observations.
Import Api.

(** The columns of a wallet row that no [UPDATE] of the server names. *)
Definition identity (w : Wallet)
  : string * string * string * string * Z * string * option string * datetime :=
  (wallet_id w, business_id w, customer_name w, customer_phone w, daily_limit w,
   ussd_code w, customer_pin w, created_at w).

(** The primary keys of [wallets] and [transactions] and the [UNIQUE]
    column [ussd_code] hold no value twice. *)
Definition keys_unique (db : DB) : Prop :=
  NoDup (map wallet_id (wallets db))
  /\ NoDup (map ussd_code (wallets db))
  /\ NoDup (map transaction_id (transactions db)).

(** No character of the string is a capital B. *)
Definition no_capital_B (s : string) : bool :=
  forallb (fun c => negb (Ascii.eqb c "B")) (list_ascii_of_string s).

(** The four characters are decimal digits. *)
Definition four_decimal_digits (pin : string) : bool :=
  Nat.eqb (String.length pin) 4
  && forallb (fun c => Nat.leb 48 (nat_of_ascii c) && Nat.leb (nat_of_ascii c) 57)
             (list_ascii_of_string pin).

(** The generated wallet id and USSD code are not those of a stored row. *)
Definition fresh_wallet_keys (db : DB) (id_hex ussd_hex : string) : Prop :=
  existsb (fun w => String.eqb (wallet_id w) (generate_wallet_id id_hex)
                    || String.eqb (ussd_code w) ("*167*" ++ ussd_hex ++ "#")%string)
          (wallets db) = false.

(** The generated key and reference of a transaction of the enterprise
    services are not those of a stored row. *)
Definition fresh_payment_keys (db : Enterprise.DB) (new_id reference : string) : Prop :=
  existsb (fun t => String.eqb (Enterprise.t_id t) new_id
                    || String.eqb (Enterprise.t_reference t) reference)
          (Enterprise.transactions db) = false.

(** The amount is within the per-transaction bounds and within the
    wallet's limits for the day and the month of [now]. *)
Definition payment_allowed (db : Enterprise.DB) (w : Enterprise.PhantomWallet)
    (now : datetime) (amount : Z) : Prop :=
  Enterprise.MIN_TRANSACTION_AMOUNT <= amount <= Enterprise.MAX_TRANSACTION_AMOUNT
  /\ Enterprise.daily_total db w now + amount <= Enterprise.w_daily_limit w
  /\ Enterprise.monthly_total db w now + amount <= Enterprise.w_monthly_limit w.

(** The send is a phantom-channel transfer whose recipient is the sender's
    own wallet id, an id with the wallet prefix: the recipient step then
    credits the amount to the row that was just debited. *)
Definition returns_to_sender (chan recipient sender_id : string) : bool :=
  String.eqb chan "phantom_wallet"
  && String.eqb recipient sender_id
  && String.prefix "pw_bw_" recipient.

End Observations.


(** ** More concrete requests and databases *)
Module MoreScenario.
Import Api Scenario.


(** A top-up of P100.00 in cash. *)
Definition topup_100 : TopupBody := mkTopupBody (Some 10000) (Some "cash").

(** The request of merchant 001 for wallet A with an opening balance of
    P500.00. *)
Definition create_A_body : CreateWalletBody :=
  mkCreateWalletBody (Some phone_A) (Some "Sender Test") (Some 50000) None.

(** [A_and_B] after a phantom transfer of P150.00 from A to B and a send of
    P50.00 from A over Orange Money. *)
Definition A_and_B_with_history : DB :=
  run A_and_B
      [ SendPayment noon "00000001" (customer_headers "tok")
                    (send_from_A 15000 "phantom_wallet" wallet_B);
        SendPayment noon "00000002" (customer_headers "tok")
                    (send_from_A 5000 "orange_money" "+26775550000") ].

(** The wallet and the first business of [enterprise_db]. *)
Definition enterprise_wallet : Enterprise.PhantomWallet :=
  Enterprise.mkPhantomWallet "w-1" "biz-1" phone_A "Thabo Molefe" 0
    Enterprise.DEFAULT_DAILY_LIMIT Enterprise.DEFAULT_MONTHLY_LIMIT
    Enterprise.WALLET_ACTIVE "*0042#" noon.


Definition second_business : Enterprise.Business :=
  Enterprise.mkBusiness "biz-2" "Motswana Hair Salon" Enterprise.BUSINESS_ACTIVE 0 0.

(** A QR payment to the wallet of [enterprise_db]. *)
Definition qr_payment (amount : Z) : Enterprise.PaymentRequest :=
  Enterprise.mkPaymentRequest "w-1" amount Enterprise.QR "QR Payment".

(** One o'clock in the morning of 15 June, local time, which is eleven in
    the evening of 14 June in UTC. *)
Definition early_local : datetime := mkDatetime 2025 6 15 3600.
Definition early_utc : datetime := mkDatetime 2025 6 14 82800.

(** The row logged by the Orange Money send of [A_and_B_with_history]. *)
Definition orange_money_row : Transaction :=
  mkTransaction "txn_bw_2025_00000002" wallet_A (Some wallet_A) None 5000 250
                "orange_money" "completed" "Payment to +26775550000 via orange_money"
                None noon.

(** The customer data of a new customer of the second business who has the
    phone of wallet [w-1]. *)
Definition new_wallet_of_second_business : Enterprise.PhantomWallet :=
  Enterprise.mkPhantomWallet "w-2" "biz-2" phone_A "Thabo Molefe" 0
    Enterprise.DEFAULT_DAILY_LIMIT Enterprise.DEFAULT_MONTHLY_LIMIT
    Enterprise.WALLET_ACTIVE "*0043#" noon.

End MoreScenario.


(** ** Binary64 numbers: the [float] of Python and the [REAL] of SQLite *)
Module Float64.

Definition float : Type := SpecFloat.spec_float.

Definition prec : Z := 53.
Definition emax : Z := 1024.

(** [x + y] and [x - y], rounded to nearest, ties to even. *)
Definition add : float -> float -> float := SpecFloat.SFadd prec emax.
Definition sub : float -> float -> float := SpecFloat.SFsub prec emax.

(** [x < y], [x == y] and [x > y]; each is false when an operand is not a
    number. *)
Definition ltb : float -> float -> bool := SpecFloat.SFltb.
Definition eqb : float -> float -> bool := SpecFloat.SFeqb.
Definition gtb (x y : float) : bool := SpecFloat.SFltb y x.

(** The float of an integer. *)
Definition of_int (n : Z) : float := SpecFloat.binary_normalize prec emax n 0 false.

(** The float of a decimal numeral of pula with two places, given by its
    number of thebe: the binary64 number nearest to [thebe / 100], as
    Python reads [2.78] in a program or in a JSON body. *)
Definition pula (thebe : Z) : float :=
  SpecFloat.SFdiv prec emax (of_int thebe) (of_int 100).


End Float64.

(** ** api_server.py: [customer_send_payment] on binary64 amounts

    The handler once more, with every amount the binary64 number that
    Python and SQLite compute with, for the statements that depend on the
    rounding of [amount + fee]. The tables have the columns of [Api]; the
    headers, the caller, the recipient's description and the notifications
    are those of [Api]. SQLite stores NULL in place of a NaN, and Python
    does not read a NULL balance as a number: the statements below take
    the sender's stored balance to be finite. *)
Module Api64.
Import Float64.

Record Wallet : Type := mkWallet {
  wallet_id : string;
  business_id : string;
  customer_name : string;
  customer_phone : string;
  balance : float;
  daily_limit : float;
  ussd_code : string;
  customer_pin : option string;
  status : string;
  created_at : datetime;
  last_activity : datetime
}.

Record Merchant : Type := mkMerchant {
  id : string;
  business_name : string;
  merchant_phone : string;
  merchant_balance : float;
  merchant_status : string
}.

Record Transaction : Type := mkTransaction {
  transaction_id : string;
  txn_wallet_id : string;
  from_wallet : option string;
  to_wallet : option string;
  amount : float;
  fee : float;
  channel : string;
  txn_status : string;
  description : string;
  external_reference : option string;
  txn_created_at : datetime
}.

Record DB : Type := mkDB {
  wallets : list Wallet;
  merchants : list Merchant;
  transactions : list Transaction;
  notifications : list Api.Notification
}.

(** The failure answers of [customer_send_payment]. The insufficient
    balance carries the two numbers its message prints. *)
Inductive SendError : Type :=
| CustomerAuthRequired
| MissingField (field : string)
| PhoneRequired
| WalletNotFoundOrInactive
| InsufficientBalance (available required : float)
| InternalError.

Definition http_status (e : SendError) : Z :=
  match e with
  | CustomerAuthRequired => 401
  | MissingField _ | PhoneRequired | InsufficientBalance _ _ => 400
  | WalletNotFoundOrInactive => 404
  | InternalError => 500
  end.

Definition Response (A : Type) : Type := Result SendError A.

(** [conn.commit()] at the end of the [try] block, [conn.close()] without
    commit on every other exit. *)
Definition commit {A : Type} (db : DB) (r : Response (A * DB)) : Response A * DB :=
  match r with
  | Ok (a, db') => (Ok a, db')
  | Err e => (Err e, db)
  end.

(** [if not user or user['user_type'] != 'customer': return ..., 401] *)
Definition require_customer (h : Api.Headers) : Response Api.User :=
  match Api.get_current_user h with
  | Some user =>
      if String.eqb (Api.u_user_type user) "customer" then Ok user
      else Err CustomerAuthRequired
  | None => Err CustomerAuthRequired
  end.

(** [db.add_notification(user_id, user_type, message, notif_type)] *)
Definition add_notification (db : DB) (uid : option string) (utype ntype : string) : DB :=
  match uid with
  | Some _ =>
      mkDB (wallets db) (merchants db) (transactions db)
           (notifications db ++ [Api.mkNotification uid utype ntype])%list
  | None => db
  end.

Definition is_active (w : Wallet) : bool := String.eqb (status w) "active".

Definition has_id (wid : string) (w : Wallet) : bool := String.eqb (wallet_id w) wid.

(** [UPDATE wallets SET balance = balance + ?, last_activity = ?] on a row. *)
Definition add_balance (delta : float) (now : datetime) (w : Wallet) : Wallet :=
  mkWallet (wallet_id w) (business_id w) (customer_name w) (customer_phone w)
           (add (balance w) delta) (daily_limit w) (ussd_code w) (customer_pin w)
           (status w) (created_at w) now.

(** [UPDATE wallets SET balance = balance - ?, last_activity = ?] on a row. *)
Definition sub_balance (delta : float) (now : datetime) (w : Wallet) : Wallet :=
  mkWallet (wallet_id w) (business_id w) (customer_name w) (customer_phone w)
           (sub (balance w) delta) (daily_limit w) (ussd_code w) (customer_pin w)
           (status w) (created_at w) now.

(** [UPDATE merchants SET balance = balance + ?] on a row. *)
Definition add_merchant_balance (delta : float) (m : Merchant) : Merchant :=
  mkMerchant (id m) (business_name m) (merchant_phone m)
             (add (merchant_balance m) delta) (merchant_status m).

(** [INSERT INTO transactions], [transaction_id] being the primary key. *)
Definition insert_transaction (t : Transaction) (ts : list Transaction)
  : Response (list Transaction) :=
  if existsb (fun t' => String.eqb (transaction_id t') (transaction_id t)) ts
  then Err InternalError
  else Ok (ts ++ [t])%list.

(** The balance stored for a wallet id, if there is such a row. *)
Definition balance_of (db : DB) (wid : string) : option float :=
  option_map balance (find (has_id wid) (wallets db)).

(** The fields of the JSON body; [sp_amount] is [float(data['amount'])]. *)
Record SendPaymentBody : Type := mkSendPaymentBody {
  sp_amount : option float;
  sp_channel : option string;
  sp_recipient : option string;
  sp_customer_phone : option string;
  sp_wallet_id : option string
}.

Record SendReceipt : Type := mkSendReceipt {
  sr_transaction_id : string;
  sr_amount : float;
  sr_fee : float;
  sr_fee_saved : option float;
  sr_channel : string;
  sr_recipient : string;
  sr_recipient_type : string;
  sr_recipient_info : option Api.RecipientInfo;
  sr_new_balance : float
}.

(** The dict literal [fee_structure] of the handler: the integer [0] and the
    numerals [2.50], [3.00] and [1.50]. *)
Definition fee_structure : list (string * float) :=
  [ ("phantom_wallet", of_int 0);
    ("orange_money", pula 250);
    ("myzaka", pula 300);
    ("ussd", pula 150);
    ("qr_code", of_int 0) ].

(** [fee_structure.get(channel, 2.50)] *)
Definition fee_for (chan : string) : float := dict_get fee_structure chan (pula 250).

(** The dict literal [traditional_fees] of the handler. *)
Definition traditional_fees : list (string * float) :=
  [ ("orange_money", of_int 92); ("myzaka", of_int 99) ].

(** The sender's row: by the [wallet_id] of the body when it has one, by
    the customer's phone otherwise; [status = 'active'] in both queries. *)
Definition find_sender (db : DB) (wid : option string) (phone : string) : option Wallet :=
  match truthy wid with
  | Some w_id => find (fun w => has_id w_id w && is_active w) (wallets db)
  | None => find (fun w => String.eqb (customer_phone w) phone && is_active w) (wallets db)
  end.

(** "Handle recipient": the tables after the credit, and the
    [recipient_info] and [recipient_type] of the answer. [ws] holds the
    sender's debit already. *)
Definition handle_recipient (ws : list Wallet) (ms : list Merchant) (now : datetime)
    (chan recipient : string) (amt : float)
  : list Wallet * list Merchant * option Api.RecipientInfo * string :=
  let external := (ws, ms, None, "external") in
  if String.eqb chan "phantom_wallet" && negb (String.eqb recipient "") then
    if String.prefix "pw_bw_" recipient then
      (* Customer wallet transfer *)
      match find (fun w => has_id recipient w && is_active w) ws with
      | Some recipient_wallet =>
          (update_where (has_id recipient) (add_balance amt now) ws, ms,
           Some (Api.CustomerRecipient (customer_name recipient_wallet)
                                       (customer_phone recipient_wallet)),
           "customer_wallet")
      | None => external
      end
    else if String.prefix "merchant_" recipient then
      (* Merchant transfer - add to merchant balance *)
      match find (fun m => String.eqb (id m) recipient
                           && String.eqb (merchant_status m) "active") ms with
      | Some recipient_merchant =>
          (ws,
           update_where (fun m => String.eqb (id m) recipient)
                        (add_merchant_balance amt) ms,
           Some (Api.MerchantRecipient (business_name recipient_merchant)
                                       (merchant_phone recipient_merchant)),
           "merchant")
      | None => external
      end
    else external
  else external.

(** The notification sent to a resolved recipient. *)
Definition notify_recipient (db : DB) (recipient : string)
    (info : option Api.RecipientInfo) : DB :=
  match info with
  | Some (Api.CustomerRecipient _ phone) =>
      add_notification db (Some phone) "customer" "success"
  | Some (Api.MerchantRecipient _ _) =>
      add_notification db (Some recipient) "merchant" "success"
  | None => db
  end.

(** [customer_send_payment()]: [total_amount = amount + fee] is a binary64
    sum, [balance < total_amount] a comparison of binary64 numbers, and the
    two [UPDATE]s compute in binary64 as well. *)
Definition customer_send_payment (db : DB) (now : datetime) (txn_hex : string)
    (h : Api.Headers) (data : SendPaymentBody) : Response SendReceipt * DB :=
  commit db (
    user <- require_customer h ;;
    amt <- or_fail (sp_amount data) (MissingField "amount") ;;
    chan <- or_fail (sp_channel data) (MissingField "channel") ;;
    recipient <- or_fail (sp_recipient data) (MissingField "recipient") ;;
    (* Get customer phone from multiple sources *)
    phone <- or_fail (truthy (py_or (sp_customer_phone data) (Api.Customer_Phone h)))
                     PhoneRequired ;;
    (* Get customer wallet - try multiple ways to find it *)
    wallet <- or_fail (find_sender db (sp_wallet_id data) phone) WalletNotFoundOrInactive ;;
    let charged := fee_for chan in
    let total_amount := add amt charged in
    _ <- reject_if (ltb (balance wallet) total_amount)
                   (InsufficientBalance (balance wallet) total_amount) ;;
    (* Update balance *)
    let ws1 := update_where (has_id (wallet_id wallet)) (sub_balance total_amount now)
                            (wallets db) in
    (* Handle recipient - check if it's a customer wallet or merchant *)
    let '(ws2, ms2, recipient_info, recipient_type) :=
      handle_recipient ws1 (merchants db) now chan recipient amt in
    (* Record transaction *)
    let tid := Api.generate_transaction_id txn_hex in
    ts <- insert_transaction
            (mkTransaction tid (wallet_id wallet) (Some (wallet_id wallet))
                           (if String.eqb chan "phantom_wallet" then Some recipient else None)
                           amt charged chan "completed"
                           ("Payment to " ++ recipient ++ " via " ++ chan)%string
                           None now)
            (transactions db) ;;
    let committed := mkDB ws2 ms2 ts (notifications db) in
    (* Calculate savings *)
    let fee_saved := sub (dict_get traditional_fees chan (of_int 0)) charged in
    (* Notifications *)
    let db1 := add_notification committed (Some phone) "customer" "success" in
    let db2 := add_notification db1 (Some (business_id wallet)) "merchant" "info" in
    let db3 := notify_recipient db2 recipient recipient_info in
    Ok (mkSendReceipt tid amt charged
                      (if gtb fee_saved (of_int 0) then Some fee_saved else None)
                      chan recipient recipient_type recipient_info
                      (sub (balance wallet) total_amount),
        db3)).

(** *** Requests *)

(** A send request that gets as far as the balance check: the caller is a
    customer, the three required fields are there, a phone is given and
    the sender's wallet is found. *)
Definition reaches_balance_check (db : DB) (h : Api.Headers) (data : SendPaymentBody)
    (amt : float) (chan recipient phone : string) (wallet : Wallet) : Prop :=
  Requests.customer_authenticated h
  /\ sp_amount data = Some amt
  /\ sp_channel data = Some chan
  /\ sp_recipient data = Some recipient
  /\ truthy (py_or (sp_customer_phone data) (Api.Customer_Phone h)) = Some phone
  /\ find_sender db (sp_wallet_id data) phone = Some wallet.

(** The generated transaction id is not the key of a stored row. *)
Definition fresh_transaction_id (db : DB) (txn_hex : string) : Prop :=
  existsb (fun t => String.eqb (transaction_id t) (Api.generate_transaction_id txn_hex))
          (transactions db) = false.

(** *** Concrete inputs *)

(** The row of wallet A of [Scenario] with the balance [bal]. *)
Definition row_A (bal : float) : Wallet :=
  mkWallet Scenario.wallet_A "merchant_001" "Sender Test" Scenario.phone_A bal
           (pula 500000) "*167*A1A1#" (Some "1234") "active" Scenario.noon Scenario.noon.


(** The customer of wallet A sends [amt] over [chan] to [recipient]. *)
Definition send_from_A (amt : float) (chan recipient : string) : SendPaymentBody :=
  mkSendPaymentBody (Some amt) (Some chan) (Some recipient) (Some Scenario.phone_A)
                    (Some Scenario.wallet_A).

End Api64.



(** ** Rows found after an update *)
Section FindUpdate.
Variable R : Type.
Variables (p q : R -> bool) (f : R -> R).

(** An update that does not change what [p] looks at changes the first
    [p]-row the way it changes any row. *)
Lemma find_update_where (rows : list R) :
  (forall r, p (f r) = p r) ->
  find p (update_where q f rows)
  = option_map (fun r => if q r then f r else r) (find p rows).
Proof.
  intros Hp. induction rows as [|r rows IH]; simpl; [reflexivity|].
  destruct (q r) eqn:Hq.
  - rewrite Hp. destruct (p r); simpl; [rewrite Hq; reflexivity | exact IH].
  - destruct (p r); simpl; [rewrite Hq; reflexivity | exact IH].
Qed.

(** The first [p]-row is the first row that is [p] and [q] when it is [q]. *)
Lemma find_both (rows : list R) (x : R) :
  find p rows = Some x -> q x = true ->
  find (fun r => p r && q r) rows = Some x.
Proof.
  induction rows as [|r rows IH]; simpl; [discriminate|].
  destruct (p r) eqn:Hpr; simpl.
  - intros [= ->] Hq. rewrite Hq. reflexivity.
  - exact IH.
Qed.

(** [update_where] keeps the number of rows. *)
Lemma update_where_length (rows : list R) :
  List.length (update_where q f rows) = List.length rows.
Proof. apply length_map. Qed.
End FindUpdate.

(** ** Properties of the REST server's ledger *)
Module ApiFacts.
Import Api Requests.

Lemma has_id_eq (wid : string) (w : Wallet) : has_id wid w = true -> wallet_id w = wid.
Proof. unfold has_id. apply String.eqb_eq. Qed.

Lemma find_has_id (ws : list Wallet) (wid : string) (w : Wallet) :
  find (has_id wid) ws = Some w -> wallet_id w = wid.
Proof. intros H. apply find_some in H. apply has_id_eq, H. Qed.

(** A customer's request gets past the authentication check. *)
Lemma require_customer (h : Headers) :
  customer_authenticated h ->
  exists user, require_user "customer" CustomerAuthRequired h = Ok user.
Proof.
  unfold customer_authenticated, require_user.
  destruct (get_current_user h) as [user|]; [|discriminate].
  intros ->. eauto.
Qed.

(** The balance stored under [wid] after the debit of that wallet. *)
Lemma balance_after_debit (ws : list Wallet) (wid : string) (w : Wallet)
    (total : Z) (now : datetime) :
  find (has_id wid) ws = Some w ->
  find (has_id wid) (update_where (has_id wid) (sub_balance total now) ws)
  = Some (sub_balance total now w).
Proof.
  intros Hw. rewrite find_update_where by reflexivity.
  rewrite Hw. simpl. apply find_some in Hw. destruct Hw as [_ ->]. reflexivity.
Qed.


(** Case analysis on the next check of a handler: it fails, and the
    failure is the answer, or it passes. *)
Ltac next_check :=
  match goal with
  | |- context [bind (or_fail ?o _) _] =>
      destruct o; cbn [or_fail bind commit fst]
  | |- context [bind (reject_if ?c _) _] =>
      destruct c; cbn [reject_if bind commit fst]
  | |- context [bind (insert_transaction ?t ?ts) _] =>
      unfold insert_transaction; destruct (existsb _ ts); cbn [bind commit fst]
  end; try discriminate.

(** An update of the rows of another wallet does not change the row
    stored under [wid]. *)
Lemma find_update_other (ws : list Wallet) (wid rid : string) (f : Wallet -> Wallet) :
  wid <> rid ->
  (forall w, wallet_id (f w) = wallet_id w) ->
  find (has_id wid) (update_where (has_id rid) f ws) = find (has_id wid) ws.
Proof.
  intros Hne Hf. rewrite find_update_where.
  - destruct (find (has_id wid) ws) as [w|] eqn:Hw; [|reflexivity]. simpl.
    apply find_has_id in Hw. unfold has_id at 1. rewrite Hw.
    destruct (String.eqb_spec wid rid); [contradiction | reflexivity].
  - intros w. unfold has_id. rewrite Hf. reflexivity.
Qed.

(** A recipient id with the wallet prefix is not the empty string. *)
Lemma wallet_prefix_nonempty (rid : string) :
  String.prefix "pw_bw_" rid = true -> String.eqb rid "" = false.
Proof. destruct rid; [discriminate | reflexivity]. Qed.

(** The recipient step on the phantom channel for an active wallet of the
    table: that wallet is credited. *)
Lemma handle_recipient_active_wallet (ws : list Wallet) (ms : list Merchant)
    (now : datetime) (rid : string) (amt : Z) (r : Wallet) :
  String.prefix "pw_bw_" rid = true ->
  find (has_id rid) ws = Some r -> is_active r = true ->
  handle_recipient ws ms now "phantom_wallet" rid amt
  = (update_where (has_id rid) (add_balance amt now) ws, ms,
     Some (CustomerRecipient (customer_name r) (customer_phone r)), "customer_wallet").
Proof.
  intros Hprefix Hr Hactive. unfold handle_recipient.
  rewrite (wallet_prefix_nonempty _ Hprefix), Hprefix.
  rewrite (find_both _ _ _ _ _ Hr Hactive). reflexivity.
Qed.

(** The recipient step never touches the row of another wallet. *)
Lemma handle_recipient_other (ws : list Wallet) (ms : list Merchant) (now : datetime)
    (chan rid wid : string) (amt : Z) :
  wid <> rid ->
  find (has_id wid) (fst (fst (fst (handle_recipient ws ms now chan rid amt))))
  = find (has_id wid) ws.
Proof.
  intros Hne. unfold handle_recipient.
  destruct (String.eqb chan "phantom_wallet" && negb (String.eqb rid "")); [|reflexivity].
  destruct (String.prefix "pw_bw_" rid).
  - destruct (find _ ws); [|reflexivity]. simpl.
    apply find_update_other; [assumption | reflexivity].
  - destruct (String.prefix "merchant_" rid); [|reflexivity].
    destruct (find _ ms); reflexivity.
Qed.






(** *** The fee table of the send handler *)

(** The five channels of the table and their fees, in thebe. *)
Lemma fee_for_listed_channels :
  fee_for "phantom_wallet" = 0
  /\ fee_for "qr_code" = 0
  /\ fee_for "ussd" = 150
  /\ fee_for "orange_money" = 250
  /\ fee_for "myzaka" = 300.
Proof. repeat split; reflexivity. Qed.

(** Every other channel is charged the default. *)
Lemma fee_for_other_channel (chan : string) :
  ~ In chan ["phantom_wallet"; "orange_money"; "myzaka"; "ussd"; "qr_code"] ->
  fee_for chan = 250.
Proof.
  intros Hnot. unfold fee_for, fee_structure. cbn [dict_get].
  repeat match goal with
         | |- context [String.eqb ?k chan] =>
             destruct (String.eqb_spec k chan) as [E|_];
             [exfalso; apply Hnot; rewrite <- E; simpl; tauto|]
         end.
  reflexivity.
Qed.

(** No fee is negative. *)
Lemma fee_for_nonneg (chan : string) : 0 <= fee_for chan.
Proof.
  unfold fee_for, fee_structure. cbn [dict_get].
  repeat match goal with
         | |- context [if ?b then _ else _] => destruct b
         end; lia.
Qed.

(** The sender found by the handler is an active wallet. *)
Lemma found_sender_is_active (db : DB) (wid : option string) (phone : string) (w : Wallet) :
  find_sender db wid phone = Some w -> is_active w = true.
Proof.
  unfold find_sender. destruct (truthy wid); intros H;
    apply find_some in H; destruct H as [_ H];
    apply andb_prop in H; apply H.
Qed.

(** The row of the sender after the recipient step: it is credited when the
    send returns to the sender, and untouched otherwise. *)
Lemma sender_row_after_recipient_step (ws : list Wallet) (ms : list Merchant)
    (now : datetime) (chan rid wid : string) (amt : Z) (w : Wallet) :
  find (has_id wid) ws = Some w ->
  is_active w = true ->
  find (has_id wid) (fst (fst (fst (handle_recipient ws ms now chan rid amt))))
  = Some (if Observations.returns_to_sender chan rid wid then add_balance amt now w else w).
Proof.
  intros Hw Hactive. unfold Observations.returns_to_sender.
  destruct (String.eqb_spec chan "phantom_wallet") as [->|Hchan]; cbn [andb].
  - destruct (String.eqb_spec rid wid) as [->|Hne]; cbn [andb].
    + destruct (String.prefix "pw_bw_" wid) eqn:Hprefix.
      * rewrite (handle_recipient_active_wallet _ _ _ _ _ _ Hprefix Hw Hactive).
        cbn [fst]. rewrite find_update_where by reflexivity. rewrite Hw. simpl.
        unfold has_id. rewrite (proj2 (String.eqb_eq _ _) (find_has_id _ _ _ Hw)).
        reflexivity.
      * unfold handle_recipient. rewrite Hprefix.
        destruct (String.eqb "phantom_wallet" "phantom_wallet" && negb (String.eqb wid ""));
          [|exact Hw].
        destruct (String.prefix "merchant_" wid); [|exact Hw].
        destruct (find _ ms); exact Hw.
    + rewrite handle_recipient_other by (intros E; apply Hne; symmetry; exact E).
      exact Hw.
  - unfold handle_recipient.
    rewrite (proj2 (String.eqb_neq _ _) Hchan). exact Hw.
Qed.

(** C5. The fee schedule of the send handler: the five channels of its
    table with their fees, and P2.50 for every other channel string,
    [bank_transfer] and [eft] among them. Every accepted send is charged
    the fee of its channel: the answer and the one row logged carry it, and
    the sender's stored balance falls by the amount plus that fee (the
    amount then comes back when the send is a transfer to the sender's own
    wallet). *)
Theorem send_fee_schedule
    (db : DB) (now : datetime) (txn_hex : string) (h : Headers) (data : SendPaymentBody)
    (receipt : SendReceipt) (db' : DB) :
  customer_send_payment db now txn_hex h data = (Ok receipt, db') ->
  (fee_for "phantom_wallet" = 0
   /\ fee_for "qr_code" = 0
   /\ fee_for "ussd" = 150
   /\ fee_for "orange_money" = 250
   /\ fee_for "myzaka" = 300)
  /\ (forall other,
        ~ In other ["phantom_wallet"; "orange_money"; "myzaka"; "ussd"; "qr_code"] ->
        fee_for other = 250)
  /\ fee_for "bank_transfer" = 250
  /\ fee_for "eft" = 250
  /\ exists amt chan recipient phone wallet row,
       sp_amount data = Some amt
       /\ sp_channel data = Some chan
       /\ sp_recipient data = Some recipient
       /\ find_sender db (sp_wallet_id data) phone = Some wallet
       /\ sr_amount receipt = amt
       /\ sr_fee receipt = fee_for chan
       /\ sr_new_balance receipt = balance wallet - (amt + fee_for chan)
       /\ transactions db' = (transactions db ++ [row])%list
       /\ from_wallet row = Some (wallet_id wallet)
       /\ channel row = chan
       /\ amount row = amt
       /\ fee row = fee_for chan
       /\ (find (has_id (wallet_id wallet)) (wallets db) = Some wallet ->
           balance_of db' (wallet_id wallet)
           = Some (if Observations.returns_to_sender chan recipient (wallet_id wallet)
                   then balance wallet - (amt + fee_for chan) + amt
                   else balance wallet - (amt + fee_for chan))).
Proof.
  intros Hrun.
  split; [repeat split; reflexivity|].
  split.
  { intros other Hnot. unfold fee_for, fee_structure. cbn [dict_get].
    repeat match goal with
           | |- context [String.eqb ?k other] =>
               destruct (String.eqb_spec k other) as [E|_];
               [exfalso; apply Hnot; rewrite <- E; simpl; tauto|]
           end.
    reflexivity. }
  split; [reflexivity|]. split; [reflexivity|].
  unfold customer_send_payment in Hrun.
  destruct (require_user "customer" CustomerAuthRequired h) as [user|];
    cbn [bind commit] in Hrun; [|discriminate Hrun].
  destruct (sp_amount data) as [amt|];
    cbn [or_fail bind commit] in Hrun; [|discriminate Hrun].
  destruct (sp_channel data) as [chan|];
    cbn [or_fail bind commit] in Hrun; [|discriminate Hrun].
  destruct (sp_recipient data) as [recipient|];
    cbn [or_fail bind commit] in Hrun; [|discriminate Hrun].
  destruct (truthy (py_or (sp_customer_phone data) (Customer_Phone h))) as [phone|];
    cbn [or_fail bind commit] in Hrun; [|discriminate Hrun].
  destruct (find_sender db (sp_wallet_id data) phone) as [wallet|] eqn:Hsender;
    cbn [or_fail bind commit] in Hrun; [|discriminate Hrun].
  destruct (balance wallet <? amt + fee_for chan);
    cbn [reject_if bind commit] in Hrun; [discriminate Hrun|].
  pose proof (fun Hstored =>
                sender_row_after_recipient_step
                  (update_where (has_id (wallet_id wallet))
                                (sub_balance (amt + fee_for chan) now) (wallets db))
                  (merchants db) now chan recipient (wallet_id wallet) amt
                  (sub_balance (amt + fee_for chan) now wallet)
                  (balance_after_debit _ _ _ _ _ Hstored)
                  (found_sender_is_active _ _ _ _ Hsender)) as Hrow.
  destruct (handle_recipient _ _ _ _ _ _) as [[[ws2 ms2] info] rtype].
  cbn [fst] in Hrow.
  unfold insert_transaction in Hrun.
  destruct (existsb _ (transactions db));
    cbn [bind commit] in Hrun; [discriminate Hrun|].
  injection Hrun as <- <-.
  exists amt, chan, recipient, phone, wallet.
  eexists.
  do 3 (split; [reflexivity|]). split; [exact Hsender|].
  cbn [sr_amount sr_fee sr_new_balance].
  do 3 (split; [reflexivity|]).
  split.
  { replace (transactions (notify_recipient _ recipient info))
      with (transactions db
              ++ [mkTransaction (generate_transaction_id txn_hex) (wallet_id wallet)
                    (Some (wallet_id wallet))
                    (if String.eqb chan "phantom_wallet" then Some recipient else None)
                    amt (fee_for chan) chan "completed"
                    ("Payment to " ++ recipient ++ " via " ++ chan)%string None now])%list
      by (destruct info as [[? ?|? ?]|]; reflexivity).
    reflexivity. }
  do 4 (split; [reflexivity|]).
  intros Hstored.
  unfold balance_of.
  replace (wallets (notify_recipient _ recipient info)) with ws2
    by (destruct info as [[? ?|? ?]|]; reflexivity).
  rewrite (Hrow Hstored).
  destruct (Observations.returns_to_sender chan recipient (wallet_id wallet));
    reflexivity.
Qed.

(** *** The status check of the send handler *)

(** A send that names a wallet id under which no active row is stored is
    answered "not found or inactive" and changes nothing. *)
Lemma send_payment_requires_active_sender
    (db : DB) (now : datetime) (txn_hex : string) (h : Headers) (data : SendPaymentBody)
    (amt : Z) (chan recipient phone wid : string) :
  customer_authenticated h ->
  sp_amount data = Some amt ->
  sp_channel data = Some chan ->
  sp_recipient data = Some recipient ->
  truthy (py_or (sp_customer_phone data) (Customer_Phone h)) = Some phone ->
  sp_wallet_id data = Some wid ->
  wid <> "" ->
  (forall w, In w (wallets db) -> wallet_id w = wid -> is_active w = false) ->
  customer_send_payment db now txn_hex h data = (Err WalletNotFoundOrInactive, db).
Proof.
  intros Hauth Hamt Hchan Hrcp Hphone Hwid Hne Hinactive.
  destruct (require_customer _ Hauth) as [user Huser].
  unfold customer_send_payment.
  rewrite Huser; cbn [bind].
  rewrite Hamt; cbn [bind or_fail].
  rewrite Hchan; cbn [bind or_fail].
  rewrite Hrcp; cbn [bind or_fail].
  rewrite Hphone; cbn [bind or_fail].
  unfold find_sender. rewrite Hwid.
  destruct wid as [|c wid']; [contradiction|]. cbn [truthy].
  destruct (find _ (wallets db)) as [w|] eqn:Hfind; [|reflexivity].
  apply find_some in Hfind. destruct Hfind as [Hin Hw].
  apply andb_prop in Hw. destruct Hw as [Hid Hact].
  rewrite (Hinactive w Hin (has_id_eq _ _ Hid)) in Hact. discriminate.
Qed.

(** *** The customer top-up when it is accepted *)

(** An accepted customer top-up is a top-up of the amount of the request:
    it records one row of that amount, with the wallet as destination, no
    source and a zero fee, answers with the balance before and after, and
    raises the balance stored under the wallet's id by the full amount. *)
Lemma customer_topup_credits_full_amount
    (db : DB) (now : datetime) (txn_hex : string) (h : Headers) (data : CustomerTopupBody)
    (receipt : CustomerTopupReceipt) (db' : DB) :
  customer_topup db now txn_hex h data = (Ok receipt, db') ->
  exists amt wallet row,
    ct_amount data = Some amt
    /\ find (fun w => sql_eq (customer_phone w) (ct_customer_phone data)) (wallets db)
       = Some wallet
    /\ transactions db' = (transactions db ++ [row])%list
    /\ from_wallet row = None
    /\ to_wallet row = Some (wallet_id wallet)
    /\ amount row = amt
    /\ fee row = 0
    /\ cr_amount receipt = amt
    /\ cr_old_balance receipt = balance wallet
    /\ cr_new_balance receipt = balance wallet + amt
    /\ (find (has_id (wallet_id wallet)) (wallets db) = Some wallet ->
        balance_of db' (wallet_id wallet) = Some (balance wallet + amt)).
Proof.
  unfold customer_topup, require_user.
  destruct (get_current_user h) as [u|]; [|discriminate].
  destruct (String.eqb (u_user_type u) "customer"); [|discriminate].
  cbn [bind].
  repeat next_check.
  cbn [bind commit]. intros [= <- <-].
  eexists _, _, _. split; [reflexivity|]. split; [reflexivity|].
  unfold balance_of, add_notification.
  destruct (ct_customer_phone data); cbn [wallets transactions];
    (repeat (split; [reflexivity|]));
    intros Hstored;
    (rewrite find_update_where by reflexivity);
    rewrite Hstored; simpl;
    unfold has_id; rewrite String.eqb_refl; reflexivity.
Qed.


(** *** Non-negative balances *)

(** An update keeps a property of all rows when it keeps it on the rows it
    rewrites. *)
Lemma forallb_update_where {R : Type} (P q : R -> bool) (f : R -> R) (rows : list R) :
  forallb P rows = true ->
  (forall r, In r rows -> q r = true -> P (f r) = true) ->
  forallb P (update_where q f rows) = true.
Proof.
  intros Hall Hf. unfold update_where. apply forallb_forall.
  intros r' Hin. apply in_map_iff in Hin. destruct Hin as (r & <- & Hin).
  destruct (q r) eqn:Hq.
  - apply Hf; assumption.
  - rewrite forallb_forall in Hall. apply Hall, Hin.
Qed.

(** Under the primary key, two rows with the same id are the same row. *)
Lemma same_id_same_row (ws : list Wallet) (w1 w2 : Wallet) :
  NoDup (map wallet_id ws) ->
  In w1 ws -> In w2 ws -> wallet_id w1 = wallet_id w2 -> w1 = w2.
Proof.
  induction ws as [|w ws IH]; simpl; [contradiction|].
  intros Hnodup H1 H2 Hid. inversion Hnodup as [|x xs Hnotin Hrest]; subst.
  destruct H1 as [-> | H1], H2 as [-> | H2].
  - reflexivity.
  - exfalso. apply Hnotin. rewrite Hid. apply in_map, H2.
  - exfalso. apply Hnotin. rewrite <- Hid. apply in_map, H1.
  - apply IH; assumption.
Qed.

(** The recipient step keeps the balances non-negative when the amount is
    not negative. *)
Lemma handle_recipient_nonneg (ws : list Wallet) (ms : list Merchant) (now : datetime)
    (chan rid : string) (amt : Z) :
  0 <= amt ->
  forallb (fun w => 0 <=? balance w) ws = true ->
  forallb (fun w => 0 <=? balance w)
          (fst (fst (fst (handle_recipient ws ms now chan rid amt)))) = true.
Proof.
  intros Hamt Hall. unfold handle_recipient.
  destruct (String.eqb chan "phantom_wallet" && negb (String.eqb rid "")); [|exact Hall].
  destruct (String.prefix "pw_bw_" rid).
  - destruct (find _ ws); [|exact Hall]. cbn [fst].
    apply forallb_update_where; [exact Hall|].
    intros r Hin _. rewrite forallb_forall in Hall. specialize (Hall r Hin).
    apply Z.leb_le in Hall. apply Z.leb_le. simpl. lia.
  - destruct (String.prefix "merchant_" rid); [|exact Hall].
    destruct (find _ ms); exact Hall.
Qed.

(** A send of an amount that is not negative keeps every balance
    non-negative, the wallet ids being unique. *)
Lemma send_payment_keeps_balances_nonneg
    (db : DB) (now : datetime) (txn_hex : string) (h : Headers) (data : SendPaymentBody) :
  NoDup (map wallet_id (wallets db)) ->
  balances_nonneg db = true ->
  (forall amt, sp_amount data = Some amt -> 0 <= amt) ->
  balances_nonneg (snd (customer_send_payment db now txn_hex h data)) = true.
Proof.
  intros Hkey Hall Hamt.
  unfold customer_send_payment, require_user.
  destruct (get_current_user h) as [u|]; [|exact Hall].
  destruct (String.eqb (u_user_type u) "customer"); [|exact Hall].
  cbn [bind].
  destruct (sp_amount data) as [amt|]; [|exact Hall]. cbn [or_fail bind].
  specialize (Hamt amt eq_refl).
  destruct (sp_channel data) as [chan|]; [|exact Hall]. cbn [or_fail bind].
  destruct (sp_recipient data) as [rid|]; [|exact Hall]. cbn [or_fail bind].
  destruct (truthy _) as [phone|]; [|exact Hall]. cbn [or_fail bind].
  destruct (find_sender db (sp_wallet_id data) phone) as [wallet|] eqn:Hsender;
    [|exact Hall].
  cbn [or_fail bind].
  destruct (balance wallet <? amt + fee_for chan) eqn:Hbal; [exact Hall|].
  cbn [reject_if bind]. apply Z.ltb_ge in Hbal.
  assert (Hin : In wallet (wallets db)).
  { unfold find_sender in Hsender.
    destruct (truthy (sp_wallet_id data)); apply find_some in Hsender; apply Hsender. }
  assert (Hdebited : forallb (fun w => 0 <=? balance w)
                       (update_where (has_id (wallet_id wallet))
                          (sub_balance (amt + fee_for chan) now) (wallets db)) = true).
  { apply forallb_update_where; [exact Hall|].
    intros r Hr Hid.
    rewrite (same_id_same_row _ r wallet Hkey Hr Hin (has_id_eq _ _ Hid)).
    apply Z.leb_le. simpl. lia. }
  pose proof (handle_recipient_nonneg _ (merchants db) now chan rid amt Hamt Hdebited)
    as Hcredited.
  destruct (handle_recipient _ _ _ _ _ _) as [[[ws2 ms2] info] rtype].
  cbn [fst] in Hcredited.
  unfold insert_transaction.
  destruct (existsb _ (transactions db)); [exact Hall|].
  cbn [bind commit snd]. unfold balances_nonneg.
  replace (wallets (notify_recipient _ rid info)) with ws2
    by (destruct info as [[? ?|? ?]|]; reflexivity).
  exact Hcredited.
Qed.

(** The merchant top-up, which refuses an amount that is not positive, keeps
    every balance non-negative. *)
Lemma merchant_topup_keeps_balances_nonneg
    (db : DB) (now : datetime) (txn_hex wid : string) (h : Headers) (data : TopupBody) :
  balances_nonneg db = true ->
  balances_nonneg (snd (merchant_topup_wallet db now txn_hex wid h data)) = true.
Proof.
  intros Hall.
  unfold merchant_topup_wallet, require_user.
  destruct (get_current_user h) as [u|]; [|exact Hall].
  destruct (String.eqb (u_user_type u) "merchant"); [|exact Hall].
  cbn [bind].
  destruct (mt_amount data) as [amt|]; [|exact Hall]. cbn [or_fail bind].
  destruct (mt_description data) as [descr|]; [|exact Hall]. cbn [or_fail bind].
  destruct (amt <=? 0) eqn:Hpos; [exact Hall|]. cbn [reject_if bind].
  apply Z.leb_gt in Hpos.
  destruct (find (has_id wid) (wallets db)) as [wallet|]; [|exact Hall].
  cbn [or_fail bind].
  destruct (negb _); [exact Hall|]. cbn [reject_if bind].
  unfold insert_transaction.
  destruct (existsb _ (transactions db)); [exact Hall|]. cbn [bind].
  destruct (option_map balance _); [|exact Hall]. cbn [or_fail bind commit snd].
  unfold balances_nonneg, add_notification. cbn [wallets].
  apply forallb_update_where; [exact Hall|].
  intros r Hr _. unfold balances_nonneg in Hall.
  rewrite forallb_forall in Hall. specialize (Hall r Hr).
  apply Z.leb_le in Hall. apply Z.leb_le. simpl. lia.
Qed.


End ApiFacts.

(** ** The REST server's ledger on concrete requests *)
Module ApiRuns.
Import Api Requests Scenario.

(** The two wallets of [A_and_B] are the rows [row_A] and [row_B]. *)
Lemma A_and_B_wallets : wallets A_and_B = [row_A 50000; row_B].
Proof. reflexivity. Qed.

(** C1. Started with every balance non-negative, a send of a negative
    amount over the phantom channel is accepted: the sender gains P100 and
    the recipient wallet B, which was empty, ends at minus P100. *)
Theorem negative_send_overdraws_recipient :
  let request := SendPayment noon "00000001" (customer_headers "tok")
                             (send_from_A (-10000) "phantom_wallet" wallet_B) in
  let after := run two_merchants [create_A 50000; create_B; request] in
  balances_nonneg A_and_B = true
  /\ (exists receipt,
        fst (customer_send_payment A_and_B noon "00000001" (customer_headers "tok")
               (send_from_A (-10000) "phantom_wallet" wallet_B)) = Ok receipt
        /\ sr_recipient_type receipt = "customer_wallet")
  /\ balance_of after wallet_A = Some 60000
  /\ balance_of after wallet_B = Some (-10000)
  /\ balances_nonneg after = false.
Proof.
  cbv zeta. split; [reflexivity|]. split.
  - eexists. split; reflexivity.
  - repeat split; reflexivity.
Qed.

(** C2. Wallet B is a wallet of the system, deactivated by its merchant. A
    phantom-channel send of P150 from A to B is accepted and recorded with
    both ends set, A is debited, B is not credited: the sum of the two
    balances falls by P150 while the fee is zero. The sender is debited
    before the recipient is looked up, and a recipient that is not found
    among the active wallets is passed over. *)
Lemma phantom_transfer_to_inactive_wallet_loses_amount :
  let answer := customer_send_payment A_and_inactive_B noon "00000001"
                  (customer_headers "tok")
                  (send_from_A 15000 "phantom_wallet" wallet_B) in
  status_of A_and_inactive_B wallet_B = Some "inactive"
  /\ balance_of A_and_inactive_B wallet_A = Some 50000
  /\ balance_of A_and_inactive_B wallet_B = Some 0
  /\ (exists receipt, fst answer = Ok receipt /\ sr_fee receipt = 0)
  /\ map (fun t => (from_wallet t, to_wallet t)) (transactions (snd answer))
     = [(Some wallet_A, Some wallet_B)]
  /\ balance_of (snd answer) wallet_A = Some 35000
  /\ balance_of (snd answer) wallet_B = Some 0
  /\ pair_total A_and_inactive_B wallet_A wallet_B = Some 50000
  /\ pair_total (snd answer) wallet_A wallet_B = Some 35000.
Proof.
  cbv zeta. repeat split; try reflexivity.
  eexists. split; reflexivity.
Qed.



(** C4. Wallet A holds P10,000 with a daily limit of P5,000 and no
    transaction on record. A send of P6,000 is accepted and debited. *)
Theorem send_payment_above_daily_limit_accepted :
  let answer := customer_send_payment rich_A noon "00000001" (customer_headers "tok")
                  (send_from_A 600000 "orange_money" "+26775550000") in
  option_map daily_limit (find (has_id wallet_A) (wallets rich_A)) = Some 500000
  /\ transactions rich_A = []
  /\ 0 + 600000 > 500000
  /\ (exists receipt, fst answer = Ok receipt /\ sr_new_balance receipt = 399750)
  /\ balance_of (snd answer) wallet_A = Some 399750
  /\ List.length (transactions (snd answer)) = 1%nat.
Proof.
  cbv zeta. repeat split; try reflexivity.
  eexists. split; reflexivity.
Qed.

(** C5, counterexample. The schedule of [customer_send_payment] does not
    have P5.00 for [bank_transfer] and [eft]: its table has no entry for
    them, both are charged the default of P2.50, and a send of P100 over
    [bank_transfer] from a balance of P500 is answered with a fee of P2.50
    and leaves P397.50, not P395.00. *)
Theorem bank_transfer_charged_default_fee :
  let answer := customer_send_payment A_and_B noon "00000001" (customer_headers "tok")
                  (send_from_A 10000 "bank_transfer" "62012345678") in
  fee_for "bank_transfer" = 250
  /\ fee_for "eft" = 250
  /\ fee_for "bank_transfer" <> 500
  /\ fee_for "eft" <> 500
  /\ (exists receipt, fst answer = Ok receipt /\ sr_fee receipt = 250)
  /\ balance_of (snd answer) wallet_A = Some (50000 - (10000 + 250))
  /\ balance_of (snd answer) wallet_A <> Some (50000 - (10000 + 500)).
Proof.
  cbv zeta.
  split; [reflexivity|]. split; [reflexivity|].
  split; [discriminate|]. split; [discriminate|].
  split; [eexists; split; reflexivity|].
  split; [reflexivity | discriminate].
Qed.

(** C6. A phantom-channel send to a wallet id that no row has is
    accepted as an external payment: the sender is debited, no wallet and
    no merchant is credited, and the row recorded carries the raw
    recipient string as its destination. *)
Theorem unresolved_phantom_recipient_debited :
  let answer := customer_send_payment A_and_B noon "00000001" (customer_headers "tok")
                  (send_from_A 15000 "phantom_wallet" unknown_wallet) in
  find (has_id unknown_wallet) (wallets A_and_B) = None
  /\ (exists receipt,
        fst answer = Ok receipt
        /\ sr_recipient_type receipt = "external"
        /\ sr_recipient_info receipt = None)
  /\ balance_of (snd answer) wallet_A = Some 35000
  /\ balance_of (snd answer) wallet_B = Some 0
  /\ merchants (snd answer) = merchants A_and_B
  /\ map (fun t => (from_wallet t, to_wallet t)) (transactions (snd answer))
     = [(Some wallet_A, Some unknown_wallet)].
Proof.
  cbv zeta. repeat split; try reflexivity.
  eexists. repeat split; reflexivity.
Qed.

(** C8. Wallet A has been deactivated. A send from it is refused, but the
    merchant's top-up and the customer's top-up are both accepted and
    each raises the balance by P100. *)
Theorem topups_reach_inactive_wallet :
  let by_merchant := merchant_topup_wallet inactive_A noon "00000001" wallet_A
                       (merchant_headers "merchant_001")
                       (mkTopupBody (Some 10000) (Some "cash")) in
  let by_customer := customer_topup inactive_A noon "00000001" (customer_headers "tok")
                       (topup_A 10000) in
  status_of inactive_A wallet_A = Some "inactive"
  /\ balance_of inactive_A wallet_A = Some 50000
  /\ fst (customer_send_payment inactive_A noon "00000001" (customer_headers "tok")
            (send_from_A 10000 "phantom_wallet" wallet_B))
     = Err WalletNotFoundOrInactive
  /\ (exists receipt, fst by_merchant = Ok receipt /\ tr_new_balance receipt = 60000)
  /\ balance_of (snd by_merchant) wallet_A = Some 60000
  /\ (exists receipt, fst by_customer = Ok receipt /\ cr_new_balance receipt = 60000)
  /\ balance_of (snd by_customer) wallet_A = Some 60000.
Proof.
  cbv zeta. repeat split; try reflexivity; eexists; split; reflexivity.
Qed.

(** C9. The customer top-up takes any amount: zero is accepted and
    recorded, minus P200 is accepted and lowers the balance from P500 to
    P300, minus P700 leaves the wallet at minus P200. *)
Theorem customer_topup_accepts_nonpositive_amounts :
  let top (amt : Z) := customer_topup A_and_B noon "00000001" (customer_headers "tok")
                         (topup_A amt) in
  balance_of A_and_B wallet_A = Some 50000
  /\ (exists receipt, fst (top 0) = Ok receipt)
  /\ List.length (transactions (snd (top 0))) = 1%nat
  /\ (exists receipt, fst (top (-20000)) = Ok receipt /\ cr_new_balance receipt = 30000)
  /\ balance_of (snd (top (-20000))) wallet_A = Some 30000
  /\ (exists receipt, fst (top (-70000)) = Ok receipt)
  /\ balance_of (snd (top (-70000))) wallet_A = Some (-20000).
Proof.
  cbv zeta. repeat split; try reflexivity; eexists; try split; reflexivity.
Qed.

(** C5, on a send of P50 by Orange Money from wallet A, which holds P500:
    the fee is P2.50 and P447.50 are left. *)
Lemma send_fee_schedule_witness :
  (fee_for "phantom_wallet" = 0
   /\ fee_for "qr_code" = 0
   /\ fee_for "ussd" = 150
   /\ fee_for "orange_money" = 250
   /\ fee_for "myzaka" = 300)
  /\ (forall other,
        ~ In other ["phantom_wallet"; "orange_money"; "myzaka"; "ussd"; "qr_code"] ->
        fee_for other = 250)
  /\ fee_for "bank_transfer" = 250
  /\ fee_for "eft" = 250
  /\ exists amt chan recipient phone wallet row,
       sp_amount (send_from_A 5000 "orange_money" "+26775550000") = Some amt
       /\ sp_channel (send_from_A 5000 "orange_money" "+26775550000") = Some chan
       /\ sp_recipient (send_from_A 5000 "orange_money" "+26775550000") = Some recipient
       /\ find_sender A_and_B (Some wallet_A) phone = Some wallet
       /\ 5000 = amt
       /\ 250 = fee_for chan
       /\ 44750 = balance wallet - (amt + fee_for chan)
       /\ transactions (snd (customer_send_payment A_and_B noon "00000001"
                               (customer_headers "tok")
                               (send_from_A 5000 "orange_money" "+26775550000")))
          = (transactions A_and_B ++ [row])%list
       /\ from_wallet row = Some (wallet_id wallet)
       /\ channel row = chan
       /\ amount row = amt
       /\ fee row = fee_for chan
       /\ (find (has_id (wallet_id wallet)) (wallets A_and_B) = Some wallet ->
           balance_of (snd (customer_send_payment A_and_B noon "00000001"
                              (customer_headers "tok")
                              (send_from_A 5000 "orange_money" "+26775550000")))
                      (wallet_id wallet)
           = Some (if Observations.returns_to_sender chan recipient (wallet_id wallet)
                   then balance wallet - (amt + fee_for chan) + amt
                   else balance wallet - (amt + fee_for chan))).
Proof.
  exact (ApiFacts.send_fee_schedule
           A_and_B noon "00000001" (customer_headers "tok")
           (send_from_A 5000 "orange_money" "+26775550000")
           (mkSendReceipt "txn_bw_2025_00000001" 5000 250 (Some 8950) "orange_money"
                          "+26775550000" "external" None 44750)
           (snd (customer_send_payment A_and_B noon "00000001" (customer_headers "tok")
                   (send_from_A 5000 "orange_money" "+26775550000")))
           eq_refl).
Defined.

End ApiRuns.

(** ** Properties of the enterprise services *)
Module EnterpriseFacts.
Import Enterprise.

(** A code returned by the USSD loop is a code no wallet has. *)
Lemma generated_ussd_code_unused (ws : list PhantomWallet) (draws : list Z) (code : string) :
  _generate_ussd_code ws draws = Some code ->
  find (fun w => String.eqb (w_ussd_code w) code) ws = None.
Proof.
  induction draws as [|n draws IH]; simpl; [discriminate|].
  destruct (find (fun w => String.eqb (w_ussd_code w) (format_ussd n)) ws) eqn:Hfind.
  - exact IH.
  - intros [= <-]. exact Hfind.
Qed.

(** The USSD loop returns as soon as the draws hold one unused code. *)
Lemma generate_ussd_code_returns (ws : list PhantomWallet) (draws : list Z) (n : Z) :
  In n draws ->
  find (fun w => String.eqb (w_ussd_code w) (format_ussd n)) ws = None ->
  exists code, _generate_ussd_code ws draws = Some code.
Proof.
  intros Hin Hfree. induction draws as [|m draws IH]; [contradiction|]. simpl.
  destruct (find (fun w => String.eqb (w_ussd_code w) (format_ussd m)) ws) eqn:Hm.
  - destruct Hin as [-> | Hin]; [congruence | exact (IH Hin)].
  - eauto.
Qed.

(** No row satisfies [p] when [find p] finds none. *)
Lemma find_none_existsb {R : Type} (p : R -> bool) (rows : list R) :
  find p rows = None -> existsb p rows = false.
Proof.
  induction rows as [|r rows IH]; simpl; [reflexivity|].
  destruct (p r); [discriminate | exact IH].
Qed.

(** [find] finds a row when some row of the list satisfies [p]. *)
Lemma find_in {R : Type} (p : R -> bool) (rows : list R) (r : R) :
  In r rows -> p r = true -> exists r', find p rows = Some r'.
Proof.
  intros Hin Hp. destruct (find p rows) as [r'|] eqn:Hfind; [eauto|].
  rewrite (find_none _ _ Hfind r Hin) in Hp. discriminate.
Qed.

(** The payment path of the enterprise services applies the rolling
    limits before it changes anything: a payment to an active wallet, of
    an amount within the per-transaction bounds, that would take the
    day's or the month's completed total over the wallet's limit is
    refused and the database is left as it was. *)
Lemma process_payment_rejects_over_limit
    (db : DB) (now utcnow : datetime) (new_id reference : string)
    (request : PaymentRequest) (wallet : PhantomWallet) :
  find (fun w => String.eqb (w_id w) (pr_wallet_id request)) (phantom_wallets db)
  = Some wallet ->
  is_wallet_active (w_status wallet) = true ->
  MIN_TRANSACTION_AMOUNT <= pr_amount request <= MAX_TRANSACTION_AMOUNT ->
  daily_total db wallet now + pr_amount request > w_daily_limit wallet
  \/ monthly_total db wallet now + pr_amount request > w_monthly_limit wallet ->
  exists msg,
    process_payment db now utcnow new_id reference request
    = (Err (LIMIT_EXCEEDED msg), db).
Proof.
  intros Hw Hactive [Hmin Hmax] Hover.
  unfold process_payment. rewrite Hw. cbn [bind or_fail].
  rewrite Hactive. cbn [negb reject_if bind].
  rewrite (proj2 (Z.ltb_ge _ _)) by lia. cbn [reject_if bind].
  replace (pr_amount request >? MAX_TRANSACTION_AMOUNT) with false
    by (symmetry; rewrite Z.gtb_ltb; apply Z.ltb_ge; lia).
  cbn [reject_if bind]. unfold check_limits.
  destruct (daily_total db wallet now + pr_amount request >? w_daily_limit wallet) eqn:Hd.
  - cbn [negb reject_if bind commit]. eauto.
  - destruct (monthly_total db wallet now + pr_amount request >? w_monthly_limit wallet)
      eqn:Hm.
    + cbn [negb reject_if bind commit]. eauto.
    + rewrite Z.gtb_ltb in Hd, Hm. apply Z.ltb_ge in Hd, Hm. lia.
Qed.

End EnterpriseFacts.

(** ** Wallet creation in the two implementations *)
Module WalletCreation.
Import Requests.

(** A merchant's request gets past the authentication check of
    [create_wallet] with the merchant's id as business. *)
Lemma require_merchant (h : Api.Headers) (merchant : string) :
  merchant_authenticated h merchant ->
  exists user,
    Api.require_user "merchant" Api.MerchantAuthRequired h = Ok user
    /\ Api.u_user_id user = merchant.
Proof.
  unfold merchant_authenticated, Api.require_user.
  destruct (Api.get_current_user h) as [user|]; [|discriminate].
  intros H. apply andb_prop in H. destruct H as [Htype Hid].
  rewrite Htype. apply String.eqb_eq in Hid. eauto.
Qed.

(** C7, the claim as stated fails on the REST server. Wallet A, phone A,
    belongs to merchant 001; merchant 002 asks for a wallet for the same
    phone and is refused with the conflict answer, nothing is stored. *)
Lemma api_create_wallet_same_phone_other_business_refused :
  let answer := Api.create_wallet Scenario.A_and_B Scenario.noon "cccccccc" "C3C3" "0000"
                  (Scenario.merchant_headers "merchant_002")
                  (Api.mkCreateWalletBody (Some Scenario.phone_A) (Some "Thabo Molefe")
                                          None None) in
  option_map Api.business_id
             (find (fun w => String.eqb (Api.customer_phone w) Scenario.phone_A)
                   (Api.wallets Scenario.A_and_B))
  = Some "merchant_001"
  /\ answer = (Err Api.AlreadyHasWallet, Scenario.A_and_B)
  /\ Api.http_status Api.AlreadyHasWallet = 409.
Proof. cbv zeta. repeat split; reflexivity. Qed.

(** C7 (as amended). Both implementations refuse a second wallet for a
    phone already used under the same business and store nothing. The
    REST server refuses the phone whatever business holds it. The
    enterprise service accepts the phone under another active business:
    the wallet is stored, empty and active, once the generated key is new
    and the draws of the USSD loop hold an unused code. *)
Theorem create_wallet_phone_uniqueness :
  (forall (db : Api.DB) (now : datetime) (id_hex ussd_hex pin : string)
          (h : Api.Headers) (data : Api.CreateWalletBody)
          (merchant phone name : string) (w : Api.Wallet),
      merchant_authenticated h merchant ->
      Api.cw_customer_phone data = Some phone ->
      Api.cw_customer_name data = Some name ->
      In w (Api.wallets db) ->
      Api.customer_phone w = phone ->
      Api.create_wallet db now id_hex ussd_hex pin h data
      = (Err Api.AlreadyHasWallet, db))
  /\ (forall (db : Enterprise.DB) (utcnow : datetime) (new_id : string) (draws : list Z)
             (business_id phone : string) (customer_data : Enterprise.CustomerData)
             (business : Enterprise.Business) (w : Enterprise.PhantomWallet),
         find (fun b => String.eqb (Enterprise.b_id b) business_id)
              (Enterprise.businesses db) = Some business ->
         Enterprise.is_business_active (Enterprise.b_status business) = true ->
         Enterprise.cd_phone customer_data = Some phone ->
         In w (Enterprise.phantom_wallets db) ->
         Enterprise.w_business_id w = business_id ->
         Enterprise.w_customer_phone w = phone ->
         Enterprise.create_wallet db utcnow new_id draws business_id customer_data
         = Some (Err Enterprise.AlreadyHasWalletWithBusiness, db))
  /\ (forall (db : Enterprise.DB) (utcnow : datetime) (new_id : string) (draws : list Z)
             (business_id phone name : string) (customer_data : Enterprise.CustomerData)
             (business : Enterprise.Business) (n : Z),
         find (fun b => String.eqb (Enterprise.b_id b) business_id)
              (Enterprise.businesses db) = Some business ->
         Enterprise.is_business_active (Enterprise.b_status business) = true ->
         Enterprise.cd_phone customer_data = Some phone ->
         Enterprise.cd_name customer_data = Some name ->
         find (fun w => String.eqb (Enterprise.w_business_id w) business_id
                        && String.eqb (Enterprise.w_customer_phone w) phone)
              (Enterprise.phantom_wallets db) = None ->
         find (fun w => String.eqb (Enterprise.w_id w) new_id)
              (Enterprise.phantom_wallets db) = None ->
         In n draws ->
         find (fun w => String.eqb (Enterprise.w_ussd_code w) (Enterprise.format_ussd n))
              (Enterprise.phantom_wallets db) = None ->
         exists wallet db',
           Enterprise.create_wallet db utcnow new_id draws business_id customer_data
           = Some (Ok wallet, db')
           /\ Enterprise.phantom_wallets db'
              = (Enterprise.phantom_wallets db ++ [wallet])%list
           /\ Enterprise.w_id wallet = new_id
           /\ Enterprise.w_business_id wallet = business_id
           /\ Enterprise.w_customer_phone wallet = phone
           /\ Enterprise.w_balance wallet = 0
           /\ Enterprise.w_status wallet = Enterprise.WALLET_ACTIVE).
Proof.
  split; [|split].
  - intros db now id_hex ussd_hex pin h data merchant phone name w
           Hauth Hphone Hname Hin Hw.
    destruct (require_merchant _ _ Hauth) as (user & Huser & _).
    unfold Api.create_wallet. rewrite Huser. cbn [bind].
    rewrite Hphone, Hname. cbn [bind or_fail].
    destruct (EnterpriseFacts.find_in
                (fun w0 => String.eqb (Api.customer_phone w0) phone) _ w Hin)
      as [w' Hfound]; [rewrite Hw; apply String.eqb_refl|].
    rewrite Hfound. reflexivity.
  - intros db utcnow new_id draws business_id phone customer_data business w
           Hb Hactive Hphone Hin Hwb Hwp.
    unfold Enterprise.create_wallet. rewrite Hb, Hactive, Hphone. cbn [negb].
    destruct (EnterpriseFacts.find_in
                (fun w0 => String.eqb (Enterprise.w_business_id w0) business_id
                           && String.eqb (Enterprise.w_customer_phone w0) phone)
                _ w Hin) as [w' Hfound];
      [rewrite Hwb, Hwp, !String.eqb_refl; reflexivity|].
    rewrite Hfound. reflexivity.
  - intros db utcnow new_id draws business_id phone name customer_data business n
           Hb Hactive Hphone Hname Hnone Hfresh Hin Hfree.
    destruct (EnterpriseFacts.generate_ussd_code_returns _ _ _ Hin Hfree) as [code Hcode].
    pose proof (EnterpriseFacts.generated_ussd_code_unused _ _ _ Hcode) as Hunused.
    unfold Enterprise.create_wallet.
    rewrite Hb, Hactive, Hphone, Hnone, Hname, Hcode. cbn [negb].
    unfold Enterprise.add_wallet. cbn [Enterprise.w_id Enterprise.w_ussd_code].
    assert (Hnew : existsb
                     (fun w' => String.eqb (Enterprise.w_id w') new_id
                                || String.eqb (Enterprise.w_ussd_code w') code)
                     (Enterprise.phantom_wallets db) = false).
    { clear - Hfresh Hunused.
      induction (Enterprise.phantom_wallets db) as [|w ws IH]; [reflexivity|].
      simpl in *.
      destruct (String.eqb (Enterprise.w_id w) new_id); [discriminate|].
      destruct (String.eqb (Enterprise.w_ussd_code w) code); [discriminate|].
      simpl. apply IH; assumption. }
    rewrite Hnew. cbn [bind Enterprise.commit].
    eexists _, _. split; [reflexivity|]. repeat split.
Qed.

(** C7 as amended, at concrete requests: phone A is used by a wallet of
    the first business; the REST server refuses it for merchant 002, the
    enterprise service refuses it for the first business and accepts it
    for the second one, the first USSD draw being taken. *)
Lemma create_wallet_phone_uniqueness_witness :
  Api.create_wallet Scenario.A_and_B Scenario.noon "cccccccc" "C3C3" "0000"
    (Scenario.merchant_headers "merchant_002")
    (Api.mkCreateWalletBody (Some Scenario.phone_A) (Some "Thabo Molefe") None None)
  = (Err Api.AlreadyHasWallet, Scenario.A_and_B)
  /\ Enterprise.create_wallet Scenario.enterprise_db Scenario.noon "w-2" [42; 43]
       "biz-1" Scenario.customer_A
     = Some (Err Enterprise.AlreadyHasWalletWithBusiness, Scenario.enterprise_db)
  /\ (exists wallet db',
        Enterprise.create_wallet Scenario.enterprise_db Scenario.noon "w-2" [42; 43]
          "biz-2" Scenario.customer_A
        = Some (Ok wallet, db')
        /\ Enterprise.phantom_wallets db'
           = (Enterprise.phantom_wallets Scenario.enterprise_db ++ [wallet])%list
        /\ Enterprise.w_id wallet = "w-2"
        /\ Enterprise.w_business_id wallet = "biz-2"
        /\ Enterprise.w_customer_phone wallet = Scenario.phone_A
        /\ Enterprise.w_balance wallet = 0
        /\ Enterprise.w_status wallet = Enterprise.WALLET_ACTIVE).
Proof.
  destruct create_wallet_phone_uniqueness as (Hapi & Hsame & Hother).
  split; [|split].
  - apply (Hapi Scenario.A_and_B Scenario.noon "cccccccc" "C3C3" "0000"
                (Scenario.merchant_headers "merchant_002") _
                "merchant_002" Scenario.phone_A "Thabo Molefe"
                (Scenario.row_A 50000));
      first [ reflexivity | left; reflexivity ].
  - apply (Hsame Scenario.enterprise_db Scenario.noon "w-2" [42; 43] "biz-1"
                 Scenario.phone_A Scenario.customer_A
                 (Enterprise.mkBusiness "biz-1" "Kgalagadi General Store"
                                        Enterprise.BUSINESS_ACTIVE 0 0)
                 (Enterprise.mkPhantomWallet "w-1" "biz-1" Scenario.phone_A
                    "Thabo Molefe" 0 Enterprise.DEFAULT_DAILY_LIMIT
                    Enterprise.DEFAULT_MONTHLY_LIMIT Enterprise.WALLET_ACTIVE
                    "*0042#" Scenario.noon));
      first [ reflexivity | left; reflexivity ].
  - apply (Hother Scenario.enterprise_db Scenario.noon "w-2" [42; 43] "biz-2"
                  Scenario.phone_A "Thabo Molefe" Scenario.customer_A
                  (Enterprise.mkBusiness "biz-2" "Motswana Hair Salon"
                                         Enterprise.BUSINESS_ACTIVE 0 0)
                  43);
      first [ reflexivity | right; left; reflexivity ].
Defined.

End WalletCreation.

(** ** Invariants of the REST server's ledger over runs *)
Module ApiInvariants.
Import Api Requests Observations.

(** *** What a notification leaves alone *)

Lemma add_notification_tables (db : DB) (uid : option string) (utype ntype : string) :
  wallets (add_notification db uid utype ntype) = wallets db
  /\ merchants (add_notification db uid utype ntype) = merchants db
  /\ transactions (add_notification db uid utype ntype) = transactions db.
Proof. destruct uid; repeat split; reflexivity. Qed.

Lemma notify_recipient_tables (db : DB) (recipient : string) (info : option RecipientInfo) :
  wallets (notify_recipient db recipient info) = wallets db
  /\ merchants (notify_recipient db recipient info) = merchants db
  /\ transactions (notify_recipient db recipient info) = transactions db.
Proof. destruct info as [[? ?|? ?]|]; repeat split; reflexivity. Qed.

(** Reading a table through the notifications added after the commit. *)
Ltac through_notifications :=
  repeat first
    [ rewrite (proj1 (notify_recipient_tables _ _ _))
    | rewrite (proj1 (proj2 (notify_recipient_tables _ _ _)))
    | rewrite (proj2 (proj2 (notify_recipient_tables _ _ _)))
    | rewrite (proj1 (add_notification_tables _ _ _ _))
    | rewrite (proj1 (proj2 (add_notification_tables _ _ _ _)))
    | rewrite (proj2 (proj2 (add_notification_tables _ _ _ _))) ];
  cbn [wallets merchants transactions].

(** Entering a handler: the authentication check. *)
Ltac enter_handler :=
  unfold create_wallet, merchant_topup_wallet, customer_send_payment, customer_topup,
    deactivate_wallet, activate_wallet, change_status, require_user;
  destruct (get_current_user _) as [?user|];
  [destruct (String.eqb (u_user_type _) _)|];
  cbn [bind commit snd fst].

(** Case analysis on every check of a handler, in order. *)
Ltac walk :=
  repeat match goal with
         | |- context [bind (or_fail ?o _) _] =>
             destruct o eqn:?; cbn [or_fail bind commit snd fst]
         | |- context [bind (reject_if ?c _) _] =>
             destruct c eqn:?; cbn [reject_if bind commit snd fst]
         | |- context [bind (insert_transaction ?t ?ts) _] =>
             destruct (insert_transaction t ts) eqn:?; cbn [bind commit snd fst]
         | |- context [bind (insert_wallet ?w ?ws) _] =>
             destruct (insert_wallet w ws) eqn:?; cbn [bind commit snd fst]
         | |- context [handle_recipient ?ws ?ms ?now ?c ?r ?a] =>
             let H := fresh "Hrecipient" in
             destruct (handle_recipient ws ms now c r a) as [[[?ws2 ?ms2] ?info] ?rtype] eqn:H;
             cbn [bind commit snd fst]
         end.

(** *** Updates and the columns they leave alone *)

Lemma map_update_where {R K : Type} (g : R -> K) (q : R -> bool) (f : R -> R)
    (rows : list R) :
  (forall r, g (f r) = g r) ->
  map g (update_where q f rows) = map g rows.
Proof.
  intros Hg. unfold update_where. rewrite map_map. apply map_ext.
  intros r. destruct (q r); [apply Hg | reflexivity].
Qed.

Lemma handle_recipient_identity (ws : list Wallet) (ms : list Merchant) (now : datetime)
    (chan rid : string) (amt : Z) :
  map identity (fst (fst (fst (handle_recipient ws ms now chan rid amt))))
  = map identity ws.
Proof.
  unfold handle_recipient.
  destruct (String.eqb chan "phantom_wallet" && negb (String.eqb rid "")); [|reflexivity].
  destruct (String.prefix "pw_bw_" rid).
  - destruct (find _ ws); [|reflexivity]. cbn [fst].
    apply map_update_where. reflexivity.
  - destruct (String.prefix "merchant_" rid); [|reflexivity].
    destruct (find _ ms); reflexivity.
Qed.

Lemma insert_wallet_ok (row : Wallet) (ws ws' : list Wallet) :
  insert_wallet row ws = Ok ws' ->
  ws' = (ws ++ [row])%list
  /\ ~ In (wallet_id row) (map wallet_id ws)
  /\ ~ In (ussd_code row) (map ussd_code ws).
Proof.
  unfold insert_wallet.
  destruct (existsb _ ws) eqn:Hex; [discriminate|].
  intros [= <-]. split; [reflexivity|].
  split; intros Hin; apply in_map_iff in Hin; destruct Hin as (w & Heq & Hin);
    assert (Hfalse : (String.eqb (wallet_id w) (wallet_id row)
                      || String.eqb (ussd_code w) (ussd_code row)) = true)
      by (rewrite Heq, String.eqb_refl; auto using orb_true_r);
    assert (Htrue : existsb (fun w' => String.eqb (wallet_id w') (wallet_id row)
                                       || String.eqb (ussd_code w') (ussd_code row)) ws
                    = true)
      by (apply existsb_exists; eauto);
    congruence.
Qed.

Lemma insert_transaction_ok (t : Transaction) (ts ts' : list Transaction) :
  insert_transaction t ts = Ok ts' ->
  ts' = (ts ++ [t])%list /\ ~ In (transaction_id t) (map transaction_id ts).
Proof.
  unfold insert_transaction.
  destruct (existsb _ ts) eqn:Hex; [discriminate|].
  intros [= <-]. split; [reflexivity|].
  intros Hin. apply in_map_iff in Hin. destruct Hin as (t' & Heq & Hin).
  assert (Htrue : existsb (fun t0 => String.eqb (transaction_id t0) (transaction_id t)) ts
                  = true)
    by (apply existsb_exists; exists t'; rewrite Heq, String.eqb_refl; auto).
  congruence.
Qed.

(** *** One call *)

(** A call leaves the identity columns of the rows of [wallets] as they
    were, or inserts one row. *)
Lemma step_wallets (db : DB) (c : Call) :
  map identity (wallets (step db c)) = map identity (wallets db)
  \/ exists row, insert_wallet row (wallets db) = Ok (wallets (step db c)).
Proof.
  destruct c; cbn [step]; enter_handler; try (left; reflexivity); walk;
    try (left; reflexivity); through_notifications.
  - right. eauto.
  - left. apply map_update_where. reflexivity.
  - left.
    match goal with
    | H : handle_recipient ?ws ?ms ?n ?c ?r ?a = _ |- _ =>
        pose proof (handle_recipient_identity ws ms n c r a) as Hid;
        rewrite H in Hid; cbn [fst] in Hid; rewrite Hid
    end.
    apply map_update_where. reflexivity.
  - left. apply map_update_where. reflexivity.
  - left. apply map_update_where. reflexivity.
  - left. apply map_update_where. reflexivity.
Qed.

(** A call leaves [transactions] as it was, or inserts one row. *)
Lemma step_transactions (db : DB) (c : Call) :
  transactions (step db c) = transactions db
  \/ exists t, insert_transaction t (transactions db) = Ok (transactions (step db c)).
Proof.
  destruct c; cbn [step]; enter_handler; try (left; reflexivity); walk;
    try (left; reflexivity); through_notifications;
    solve [ left; reflexivity | right; eauto ].
Qed.

(** *** Runs *)

Lemma run_cons (db : DB) (c : Call) (calls : list Call) :
  run db (c :: calls) = run (step db c) calls.
Proof. reflexivity. Qed.

(** The rows a run adds to the log, behind the rows of its first call. *)
Lemma transaction_log_append_only_step (db : DB) (c : Call) (calls : list Call) :
  exists one rest,
    transactions (step db c) = (transactions db ++ one)%list
    /\ transactions (run (step db c) calls) = ((transactions db ++ one) ++ rest)%list.
Proof.
  assert (Hrest : forall calls db,
             exists rest, transactions (run db calls) = (transactions db ++ rest)%list).
  { clear. intros calls. induction calls as [|c calls IH]; intros db.
    - exists []. rewrite app_nil_r. reflexivity.
    - rewrite run_cons. destruct (IH (step db c)) as [rest Hrun].
      destruct (step_transactions db c) as [Hsame | [t Hins]].
      + exists rest. rewrite Hrun, Hsame. reflexivity.
      + apply insert_transaction_ok in Hins. destruct Hins as [Hstep _].
        exists (t :: rest). rewrite Hrun, Hstep, <- app_assoc. reflexivity. }
  destruct (Hrest calls (step db c)) as [rest Hrun].
  destruct (step_transactions db c) as [Hsame | [t Hins]].
  - exists [], rest. rewrite app_nil_r. rewrite Hrun, Hsame. split; reflexivity.
  - apply insert_transaction_ok in Hins. destruct Hins as [Hstep _].
    exists [t], rest. rewrite Hrun, Hstep. split; reflexivity.
Qed.

(** The transaction log is append-only: after any sequence of calls the
    rows that were there are still there, unchanged and in place, and at
    most one row per call has been added behind them. *)
Theorem transaction_log_append_only (db : DB) (calls : list Call) :
  exists added,
    transactions (run db calls) = (transactions db ++ added)%list
    /\ (List.length added <= List.length calls)%nat.
Proof.
  revert db. induction calls as [|c calls IH]; intros db.
  - exists []. rewrite app_nil_r. split; [reflexivity | apply Nat.le_refl].
  - rewrite run_cons. destruct (IH (step db c)) as (added & Hrun & Hlen).
    destruct (step_transactions db c) as [Hsame | [t Hins]].
    + exists added. rewrite Hrun, Hsame. split; [reflexivity | simpl; lia].
    + apply insert_transaction_ok in Hins. destruct Hins as [Hstep _].
      exists (t :: added). rewrite Hrun, Hstep, <- app_assoc.
      split; [reflexivity | simpl; lia].
Qed.

(** No call deletes a wallet or rewrites its id, owner, customer name,
    phone, daily limit, USSD code, PIN or creation time: after any sequence
    of calls these columns of the rows that were there are unchanged, in
    place, and at most one row per call has been added behind them. *)
Theorem wallet_identity_is_kept (db : DB) (calls : list Call) :
  exists added,
    map identity (wallets (run db calls)) = (map identity (wallets db) ++ added)%list
    /\ (List.length added <= List.length calls)%nat.
Proof.
  revert db. induction calls as [|c calls IH]; intros db.
  - exists []. rewrite app_nil_r. split; [reflexivity | apply Nat.le_refl].
  - rewrite run_cons. destruct (IH (step db c)) as (added & Hrun & Hlen).
    destruct (step_wallets db c) as [Hsame | [row Hins]].
    + exists added. rewrite Hrun, Hsame. split; [reflexivity | simpl; lia].
    + apply insert_wallet_ok in Hins. destruct Hins as [Hstep _].
      exists (identity row :: added). rewrite Hrun, Hstep, map_app, <- app_assoc.
      split; [reflexivity | simpl; lia].
Qed.

Lemma NoDup_snoc {K : Type} (ks : list K) (k : K) :
  NoDup ks -> ~ In k ks -> NoDup (ks ++ [k]).
Proof.
  intros Hks Hk. apply NoDup_app; [exact Hks | repeat constructor; intros [] |].
  intros x Hx [<- | []]. exact (Hk Hx).
Qed.

Lemma map_through_identity {K : Type}
    (g : string * string * string * string * Z * string * option string * datetime -> K)
    (ws ws' : list Wallet) :
  map identity ws = map identity ws' ->
  map (fun w => g (identity w)) ws = map (fun w => g (identity w)) ws'.
Proof.
  intros H. rewrite <- (map_map identity g ws), <- (map_map identity g ws'), H.
  reflexivity.
Qed.

Lemma keys_unique_step (db : DB) (c : Call) :
  keys_unique db -> keys_unique (step db c).
Proof.
  intros (Hid & Hussd & Htxn). unfold keys_unique.
  assert (Hw : NoDup (map wallet_id (wallets (step db c)))
               /\ NoDup (map ussd_code (wallets (step db c)))).
  { destruct (step_wallets db c) as [Hsame | [row Hins]].
    - assert (Hids : map wallet_id (wallets (step db c)) = map wallet_id (wallets db))
        by exact (map_through_identity
                    (fun i => fst (fst (fst (fst (fst (fst (fst i))))))) _ _ Hsame).
      assert (Hcodes : map ussd_code (wallets (step db c)) = map ussd_code (wallets db))
        by exact (map_through_identity (fun i => snd (fst (fst i))) _ _ Hsame).
      rewrite Hids, Hcodes. split; assumption.
    - apply insert_wallet_ok in Hins. destruct Hins as (-> & Hnew_id & Hnew_code).
      rewrite !map_app. split; apply NoDup_snoc; assumption. }
  destruct Hw as [Hid' Hussd']. repeat split; try assumption.
  destruct (step_transactions db c) as [-> | [t Hins]]; [assumption|].
  apply insert_transaction_ok in Hins. destruct Hins as (-> & Hnew).
  rewrite map_app. apply NoDup_snoc; assumption.
Qed.

(** The keys stay unique: when no wallet id, no USSD code and no
    transaction id is stored twice, none is after any sequence of calls. *)
Theorem keys_stay_unique (db : DB) (calls : list Call) :
  keys_unique db -> keys_unique (run db calls).
Proof.
  revert db. induction calls as [|c calls IH]; intros db Hdb; [exact Hdb|].
  rewrite run_cons. apply IH, keys_unique_step, Hdb.
Qed.


(** *** Balances and the log *)

Lemma find_app_found {R : Type} (p : R -> bool) (rows extra : list R) (r : R) :
  find p rows = Some r -> find p (rows ++ extra) = Some r.
Proof.
  induction rows as [|x rows IH]; simpl; [discriminate|].
  destruct (p x); [auto | exact IH].
Qed.

Lemma app_eq_self {R : Type} (rows extra : list R) :
  (rows ++ extra)%list = rows -> extra = [].
Proof.
  intros H. apply (f_equal (@List.length R)) in H. rewrite length_app in H.
  destruct extra; [reflexivity | simpl in H; lia].
Qed.

(** A call that adds no row to the log changes no stored balance. *)
Lemma unlogged_step_keeps_balance (db : DB) (c : Call) (wid : string) (b : Z) :
  balance_of db wid = Some b ->
  transactions (step db c) = transactions db ->
  balance_of (step db c) wid = Some b.
Proof.
  unfold balance_of. intros Hb.
  destruct (find (has_id wid) (wallets db)) as [w|] eqn:Hw; [|discriminate].
  destruct c; cbn [step]; enter_handler; try (intros _; rewrite Hw; exact Hb); walk;
    try (intros _; rewrite Hw; exact Hb); through_notifications; intros Hlog;
    try (match goal with
         | H : insert_transaction _ _ = Ok _ |- _ =>
             apply insert_transaction_ok in H; destruct H as [H _]; rewrite H in Hlog;
             apply app_eq_self in Hlog; discriminate
         end).
  - match goal with
    | H : insert_wallet _ _ = Ok _ |- _ =>
        apply insert_wallet_ok in H; destruct H as [-> _]
    end.
    rewrite (find_app_found _ _ _ _ Hw). exact Hb.
  - rewrite find_update_where by reflexivity. rewrite Hw. simpl.
    destruct (has_id _ w); exact Hb.
  - rewrite find_update_where by reflexivity. rewrite Hw. simpl.
    destruct (has_id _ w); exact Hb.
Qed.

(** Balances change only through logged transactions: when a sequence of
    calls has added no row to the transaction log, the balance stored under
    every wallet id is what it was. *)
Theorem balance_changes_are_logged (db : DB) (calls : list Call) (wid : string) (b : Z) :
  balance_of db wid = Some b ->
  transactions (run db calls) = transactions db ->
  balance_of (run db calls) wid = Some b.
Proof.
  revert db. induction calls as [|c calls IH]; intros db Hb Hlog; [exact Hb|].
  rewrite run_cons in *.
  destruct (transaction_log_append_only_step db c calls) as (one & rest & Hstep & Hrun).
  rewrite Hrun, <- app_assoc in Hlog. apply app_eq_self in Hlog.
  apply app_eq_nil in Hlog. destruct Hlog as [-> ->].
  rewrite app_nil_r in Hstep, Hrun.
  apply IH.
  - apply unlogged_step_keeps_balance; assumption.
  - rewrite Hrun, app_nil_r. symmetry. exact Hstep.
Qed.


End ApiInvariants.

(** ** The REST server's operations, one by one and composed *)
Module ApiOperations.
Import Api Requests Observations ApiViews.

(** A merchant's request gets past [require_user] with the merchant's id. *)
Lemma merchant_passes (h : Headers) (merchant : string) :
  merchant_authenticated h merchant ->
  exists user,
    require_user "merchant" MerchantAuthRequired h = Ok user
    /\ u_user_id user = merchant.
Proof.
  unfold merchant_authenticated, require_user.
  destruct (get_current_user h) as [user|]; [|discriminate].
  intros H. apply andb_prop in H. destruct H as [Htype Hid].
  rewrite Htype. apply String.eqb_eq in Hid. eauto.
Qed.

(** A customer's request gets past [require_user]. *)
Lemma customer_passes (h : Headers) :
  customer_authenticated h ->
  exists user, require_user "customer" CustomerAuthRequired h = Ok user.
Proof.
  unfold customer_authenticated, require_user.
  destruct (get_current_user h) as [user|]; [|discriminate].
  intros ->. eauto.
Qed.

(** *** Merchant top-up *)

(** A merchant top-up of a positive amount is refused as unauthorized, with
    nothing changed, when the wallet belongs to another merchant; by the
    owner it raises the stored balance by exactly the amount, answers with
    the old and the new balance and logs one completed row on the channel
    [merchant_topup] with no fee, the wallet as destination and no source. *)
Theorem merchant_topup_by_owner_only
    (db : DB) (now : datetime) (txn_hex wid : string) (h : Headers) (data : TopupBody)
    (merchant descr : string) (amt : Z) (w : Wallet) :
  merchant_authenticated h merchant ->
  mt_amount data = Some amt ->
  mt_description data = Some descr ->
  0 < amt ->
  find (has_id wid) (wallets db) = Some w ->
  (business_id w <> merchant ->
   merchant_topup_wallet db now txn_hex wid h data = (Err Unauthorized, db))
  /\ (business_id w = merchant ->
      fresh_transaction_id db txn_hex ->
      exists receipt db',
        merchant_topup_wallet db now txn_hex wid h data = (Ok receipt, db')
        /\ tr_previous_balance receipt = balance w
        /\ tr_new_balance receipt = balance w + amt
        /\ balance_of db' wid = Some (balance w + amt)
        /\ merchants db' = merchants db
        /\ transactions db'
           = (transactions db
                ++ [mkTransaction (generate_transaction_id txn_hex) wid None (Some wid)
                                  amt 0 "merchant_topup" "completed" descr None now])%list).
Proof.
  intros Hauth Hamt Hdescr Hpos Hw.
  destruct (merchant_passes _ _ Hauth) as (user & Huser & Hid).
  assert (Hnew : find (has_id wid) (update_where (has_id wid) (add_balance amt now)
                                                 (wallets db))
                 = Some (add_balance amt now w)).
  { rewrite find_update_where by reflexivity. rewrite Hw. simpl.
    apply find_some in Hw. destruct Hw as [_ ->]. reflexivity. }
  split.
  - intros Hother. unfold merchant_topup_wallet.
    rewrite Huser; cbn [bind]. rewrite Hamt; cbn [bind or_fail].
    rewrite Hdescr; cbn [bind or_fail].
    rewrite (proj2 (Z.leb_gt _ _)) by lia. cbn [reject_if bind].
    rewrite Hw; cbn [bind or_fail]. rewrite Hid.
    destruct (String.eqb_spec (business_id w) merchant); [contradiction|].
    reflexivity.
  - intros Howner Hfresh. unfold merchant_topup_wallet.
    rewrite Huser; cbn [bind]. rewrite Hamt; cbn [bind or_fail].
    rewrite Hdescr; cbn [bind or_fail].
    rewrite (proj2 (Z.leb_gt _ _)) by lia. cbn [reject_if bind].
    rewrite Hw; cbn [bind or_fail]. rewrite Hid, Howner, String.eqb_refl.
    cbn [negb reject_if bind].
    unfold insert_transaction. cbn [transaction_id].
    unfold fresh_transaction_id in Hfresh. rewrite Hfresh. cbn [bind].
    rewrite Hnew. cbn [option_map or_fail bind commit].
    eexists _, _. split; [reflexivity|].
    unfold balance_of, add_notification.
    cbn [tr_previous_balance tr_new_balance wallets merchants transactions].
    rewrite Hnew. repeat split.
Qed.

(** *** Deactivation and activation *)

(** After the status update of the rows stored under [wid], the first of
    them carries the new status. *)
Lemma status_after_update (ws : list Wallet) (wid s : string) (w : Wallet) :
  find (has_id wid) ws = Some w ->
  find (has_id wid) (update_where (has_id wid) (set_status s) ws) = Some (set_status s w).
Proof.
  intros Hw. rewrite find_update_where by reflexivity. rewrite Hw. simpl.
  apply find_some in Hw. destruct Hw as [_ ->]. reflexivity.
Qed.

(** Deactivation and activation are the owner's: another merchant is
    refused with nothing changed. By the owner, and whatever the status
    before (inactive, upgraded, dormant or active), the wallet ends inactive,
    respectively active, and its balance, the merchants and the transaction
    log are left as they were. *)
Theorem status_change_by_owner_only
    (db : DB) (wid : string) (h : Headers) (merchant : string) (w : Wallet) :
  merchant_authenticated h merchant ->
  find (has_id wid) (wallets db) = Some w ->
  (business_id w <> merchant ->
   deactivate_wallet db wid h = (Err Unauthorized, db)
   /\ activate_wallet db wid h = (Err Unauthorized, db))
  /\ (business_id w = merchant ->
      (exists db',
         deactivate_wallet db wid h = (Ok tt, db')
         /\ status_of db' wid = Some "inactive"
         /\ balance_of db' wid = Some (balance w)
         /\ merchants db' = merchants db
         /\ transactions db' = transactions db)
      /\ (exists db',
            activate_wallet db wid h = (Ok tt, db')
            /\ status_of db' wid = Some "active"
            /\ balance_of db' wid = Some (balance w)
            /\ merchants db' = merchants db
            /\ transactions db' = transactions db)).
Proof.
  intros Hauth Hw.
  destruct (merchant_passes _ _ Hauth) as (user & Huser & Hid).
  unfold deactivate_wallet, activate_wallet, change_status.
  rewrite Huser; cbn [bind]. rewrite Hw; cbn [bind or_fail]. rewrite Hid.
  split.
  - intros Hother.
    destruct (String.eqb_spec (business_id w) merchant); [contradiction|].
    split; reflexivity.
  - intros ->. rewrite String.eqb_refl. cbn [negb reject_if bind commit].
    split; eexists; (split; [reflexivity|]);
      unfold status_of, balance_of, add_notification;
      cbn [wallets merchants transactions];
      rewrite (status_after_update _ _ _ _ Hw); repeat split.
Qed.

(** The rows stored under [wid] are not active once updated to inactive. *)
Lemma no_active_row_after_deactivation (ws : list Wallet) (wid : string) :
  find (fun w => has_id wid w && is_active w)
       (update_where (has_id wid) (set_status "inactive") ws) = None.
Proof.
  induction ws as [|r ws IH]; [reflexivity|]. simpl.
  destruct (has_id wid r) eqn:Hid.
  - unfold has_id in *. cbn [wallet_id set_status]. rewrite Hid. exact IH.
  - rewrite Hid. exact IH.
Qed.

(** Deactivation blocks the wallet for sending: once its owner has
    deactivated a wallet, every customer request that names it as sender is
    answered "not found or inactive" and changes nothing. *)
Theorem deactivated_wallet_cannot_send
    (db : DB) (wid : string) (hm : Headers) (merchant : string) (w : Wallet)
    (now : datetime) (txn_hex : string) (h : Headers) (data : SendPaymentBody)
    (amt : Z) (chan recipient phone : string) :
  merchant_authenticated hm merchant ->
  find (has_id wid) (wallets db) = Some w ->
  business_id w = merchant ->
  customer_authenticated h ->
  sp_amount data = Some amt ->
  sp_channel data = Some chan ->
  sp_recipient data = Some recipient ->
  truthy (py_or (sp_customer_phone data) (Customer_Phone h)) = Some phone ->
  sp_wallet_id data = Some wid ->
  wid <> "" ->
  exists db',
    deactivate_wallet db wid hm = (Ok tt, db')
    /\ customer_send_payment db' now txn_hex h data = (Err WalletNotFoundOrInactive, db').
Proof.
  intros Hauth Hw Howner Hcust Hamt Hchan Hrcp Hphone Hwid Hne.
  destruct (merchant_passes _ _ Hauth) as (user & Huser & Hid).
  destruct (customer_passes _ Hcust) as [cuser Hcuser].
  unfold deactivate_wallet, change_status.
  rewrite Huser; cbn [bind]. rewrite Hw; cbn [bind or_fail].
  rewrite Hid, Howner, String.eqb_refl. cbn [negb reject_if bind commit].
  eexists. split; [reflexivity|].
  unfold customer_send_payment.
  rewrite Hcuser; cbn [bind]. rewrite Hamt; cbn [bind or_fail].
  rewrite Hchan; cbn [bind or_fail]. rewrite Hrcp; cbn [bind or_fail].
  rewrite Hphone; cbn [bind or_fail].
  unfold find_sender. rewrite Hwid.
  destruct wid as [|c wid']; [contradiction|]. cbn [truthy].
  unfold add_notification. cbn [wallets].
  rewrite no_active_row_after_deactivation. reflexivity.
Qed.

(** Deactivating and then activating gives the wallets back: when the rows
    stored under the id are active, the owner's deactivation followed by the
    owner's activation leaves the table of wallets as it was before. *)
Theorem deactivate_then_activate_restores
    (db : DB) (wid : string) (h : Headers) (merchant : string) (w : Wallet) :
  merchant_authenticated h merchant ->
  find (has_id wid) (wallets db) = Some w ->
  business_id w = merchant ->
  (forall r, In r (wallets db) -> wallet_id r = wid -> status r = "active") ->
  exists db1 db2,
    deactivate_wallet db wid h = (Ok tt, db1)
    /\ activate_wallet db1 wid h = (Ok tt, db2)
    /\ wallets db2 = wallets db
    /\ transactions db2 = transactions db
    /\ merchants db2 = merchants db.
Proof.
  intros Hauth Hw Howner Hactive.
  destruct (merchant_passes _ _ Hauth) as (user & Huser & Hid).
  unfold deactivate_wallet, activate_wallet, change_status.
  rewrite Huser; cbn [bind]. rewrite Hw; cbn [bind or_fail].
  rewrite Hid, Howner, String.eqb_refl. cbn [negb reject_if bind commit].
  eexists _, _. split; [reflexivity|].
  unfold add_notification. cbn [wallets merchants transactions].
  rewrite (status_after_update _ _ _ _ Hw). cbn [bind or_fail business_id set_status].
  rewrite Howner, String.eqb_refl. cbn [negb reject_if bind commit].
  split; [reflexivity|]. cbn [wallets merchants transactions].
  repeat split.
  unfold update_where. rewrite map_map.
  rewrite <- (map_id (wallets db)) at 2. apply map_ext_in.
  intros r Hr. destruct (has_id wid r) eqn:Hr_id.
  - assert (Hsame : has_id wid (set_status "inactive" r) = true) by exact Hr_id.
    rewrite Hsame.
    pose proof (Hactive r Hr (proj1 (String.eqb_eq _ _) Hr_id)) as Hst.
    destruct r; simpl in *. rewrite Hst. reflexivity.
  - rewrite Hr_id. reflexivity.
Qed.

(** *** Sending *)





(** *** Paying a merchant *)




(** *** Logging in *)

Lemma forallb_weaken {R : Type} (p q : R -> bool) (rows : list R) :
  (forall r, p r = true -> q r = true) ->
  forallb p rows = true -> forallb q rows = true.
Proof.
  intros Hpq. induction rows as [|r rows IH]; simpl; [reflexivity|].
  intros H. apply andb_prop in H. destruct H as [Hr Hrows].
  rewrite (Hpq r Hr), (IH Hrows). reflexivity.
Qed.

(** Four decimal digits pass the PIN test of the login. *)
Lemma four_digits_pass (pin : string) :
  four_decimal_digits pin = true ->
  truthy (Some pin) = Some pin
  /\ (Nat.eqb (String.length pin) 4 && isdigit pin) = true.
Proof.
  unfold four_decimal_digits. intros H. apply andb_prop in H. destruct H as [Hlen Hdigits].
  destruct pin as [|c pin']; [discriminate|]. split; [reflexivity|].
  rewrite Hlen. cbn [andb isdigit].
  apply (forallb_weaken _ _ _ (fun c0 H0 => eq_trans (f_equal (fun b => b || _ || _ || _) H0)
                                                    eq_refl)).
  exact Hdigits.
Qed.

(** The customer login checks the shape of the PIN only: for an active
    wallet every PIN of four decimal digits is accepted, whatever PIN is
    stored with the wallet, and the session carries the wallet's id and
    balance; for a wallet that is not active every PIN is answered "not
    found or inactive". *)
Theorem customer_login_accepts_any_four_digits
    (db : DB) (phone pin : string) (w : Wallet) :
  phone <> "" ->
  find (fun w' => String.eqb (customer_phone w') phone) (wallets db) = Some w ->
  (is_active w = true ->
   four_decimal_digits pin = true ->
   customer_login db (mkLoginBody (Some phone) (Some pin))
   = Ok (mkCustomerSession (wallet_id w) (customer_name w) (balance w) phone "customer"))
  /\ (is_active w = false ->
      pin <> "" ->
      customer_login db (mkLoginBody (Some phone) (Some pin))
      = Err LoginWalletNotFoundOrInactive).
Proof.
  intros Hphone Hw. unfold customer_login. cbn [lg_phone lg_pin].
  assert (Htruthy : truthy (Some phone) = Some phone)
    by (destruct phone; [contradiction | reflexivity]).
  rewrite Htruthy. split.
  - intros Hactive Hpin. destruct (four_digits_pass _ Hpin) as [-> Hshape].
    rewrite Hw, Hactive, Hshape. reflexivity.
  - intros Hinactive Hpin.
    replace (truthy (Some pin)) with (Some pin)
      by (destruct pin; [contradiction | reflexivity]).
    rewrite Hw, Hinactive. reflexivity.
Qed.

(** *** Creating a wallet and reading it back *)

Lemma find_app_new {R : Type} (p : R -> bool) (rows : list R) (r : R) :
  find p rows = None -> p r = true -> find p (rows ++ [r]) = Some r.
Proof.
  induction rows as [|x rows IH]; simpl.
  - intros _ ->. reflexivity.
  - destruct (p x); [discriminate | exact IH].
Qed.

Lemma existsb_false_find {R : Type} (p q : R -> bool) (rows : list R) :
  existsb p rows = false ->
  (forall r, q r = true -> p r = true) ->
  find q rows = None.
Proof.
  intros Hex Hqp. induction rows as [|x rows IH]; [reflexivity|]. simpl in *.
  apply orb_false_elim in Hex. destruct Hex as [Hx Hrows].
  destruct (q x) eqn:Hq; [rewrite (Hqp x Hq) in Hx; discriminate | exact (IH Hrows)].
Qed.

(** A wallet created for a phone that no wallet has, under keys not yet in
    use, is stored active behind the wallets that were there, with the
    opening balance of the request (zero when absent) and a daily limit of
    P5,000.00 when none is given; the opening balance is not logged as a
    transaction. The wallet can be read back at once: the balance endpoint
    answers under the new id with that balance and status, and the customer
    logs in by the phone with any four decimal digits. *)
Theorem created_wallet_is_readable
    (db : DB) (now : datetime) (id_hex ussd_hex pin : string) (h : Headers)
    (data : CreateWalletBody) (merchant phone name login_pin : string) :
  merchant_authenticated h merchant ->
  cw_customer_phone data = Some phone ->
  cw_customer_name data = Some name ->
  phone <> "" ->
  find (fun w => String.eqb (customer_phone w) phone) (wallets db) = None ->
  fresh_wallet_keys db id_hex ussd_hex ->
  four_decimal_digits login_pin = true ->
  let opening := match cw_initial_balance data with Some b => b | None => 0 end in
  let limit := match cw_daily_limit data with Some l => l | None => 500000 end in
  let row := mkWallet (generate_wallet_id id_hex) merchant name phone opening limit
                      ("*167*" ++ ussd_hex ++ "#")%string (Some pin) "active" now now in
  exists db',
    create_wallet db now id_hex ussd_hex pin h data = (Ok row, db')
    /\ wallets db' = (wallets db ++ [row])%list
    /\ transactions db' = transactions db
    /\ merchants db' = merchants db
    /\ get_wallet_balance db' (generate_wallet_id id_hex)
       = Some (mkWalletView (generate_wallet_id id_hex) name phone opening limit
                 ("*167*" ++ ussd_hex ++ "#")%string "active"
                 (option_map business_name
                    (find (fun m => String.eqb (id m) merchant) (merchants db)))
                 now)
    /\ customer_login db' (mkLoginBody (Some phone) (Some login_pin))
       = Ok (mkCustomerSession (generate_wallet_id id_hex) name opening phone "customer").
Proof.
  intros Hauth Hphone Hname Hne Hunused Hfresh Hpin opening limit row.
  destruct (merchant_passes _ _ Hauth) as (user & Huser & Hid).
  unfold create_wallet.
  rewrite Huser; cbn [bind]. rewrite Hphone, Hname; cbn [bind or_fail].
  rewrite Hunused. cbn [reject_if bind].
  unfold insert_wallet. cbn [wallet_id ussd_code].
  unfold fresh_wallet_keys in Hfresh. rewrite Hfresh. cbn [bind commit].
  rewrite Hid. fold opening limit row.
  eexists. split; [reflexivity|].
  unfold add_notification. cbn [wallets merchants transactions].
  repeat (split; [reflexivity|]).
  assert (Hby_id : find (has_id (generate_wallet_id id_hex)) (wallets db ++ [row])
                   = Some row).
  { apply find_app_new; [|apply String.eqb_refl].
    apply (existsb_false_find _ _ _ Hfresh).
    intros r Hr. unfold has_id in Hr. rewrite Hr. reflexivity. }
  assert (Hby_phone : find (fun w => String.eqb (customer_phone w) phone)
                           (wallets db ++ [row]) = Some row).
  { apply find_app_new; [exact Hunused | apply String.eqb_refl]. }
  split.
  - unfold get_wallet_balance. cbn [wallets merchants]. rewrite Hby_id. reflexivity.
  - unfold customer_login. cbn [lg_phone lg_pin wallets].
    replace (truthy (Some phone)) with (Some phone)
      by (destruct phone; [contradiction | reflexivity]).
    destruct (four_digits_pass _ Hpin) as [-> Hshape].
    rewrite Hby_phone, Hshape. reflexivity.
Qed.


(** *** The transaction history *)

Lemma in_insert_by_created_desc (t x : Transaction) (sorted : list Transaction) :
  In x (insert_by_created_desc t sorted) <-> x = t \/ In x sorted.
Proof.
  induction sorted as [|u rest IH]; simpl.
  - intuition congruence.
  - destruct (datetime_leb (txn_created_at u) (txn_created_at t)); simpl.
    + intuition congruence.
    + rewrite IH. intuition congruence.
Qed.

Lemma length_insert_by_created_desc (t : Transaction) (sorted : list Transaction) :
  List.length (insert_by_created_desc t sorted) = S (List.length sorted).
Proof.
  induction sorted as [|u rest IH]; simpl; [reflexivity|].
  destruct (datetime_leb _ _); simpl; [reflexivity | rewrite IH; reflexivity].
Qed.

Lemma length_order_by_created_desc (rows : list Transaction) :
  List.length (order_by_created_desc rows) = List.length rows.
Proof.
  unfold order_by_created_desc. induction rows as [|t rows IH]; [reflexivity|].
  simpl. rewrite length_insert_by_created_desc, IH. reflexivity.
Qed.

Lemma in_order_by_created_desc (x : Transaction) (rows : list Transaction) :
  In x (order_by_created_desc rows) <-> In x rows.
Proof.
  unfold order_by_created_desc. induction rows as [|t rows IH]; simpl; [tauto|].
  rewrite in_insert_by_created_desc, IH. intuition congruence.
Qed.

Lemma in_limit_offset {R : Type} (limit offset : Z) (rows : list R) (x : R) :
  In x (limit_offset limit offset rows) -> In x rows.
Proof.
  unfold limit_offset. intros H.
  assert (Hskip : In x (skipn (Z.to_nat offset) rows)).
  { destruct (limit <? 0); [exact H|].
    rewrite <- (firstn_skipn (Z.to_nat limit) (skipn (Z.to_nat offset) rows)).
    apply in_or_app. left. exact H. }
  rewrite <- (firstn_skipn (Z.to_nat offset) rows). apply in_or_app. right. exact Hskip.
Qed.

(** The history of a wallet. Every entry is a stored row that has the
    wallet as source or as destination, shown with its own amount, fee and
    channel; it is tagged "sent" when the wallet is the source, also for a
    transfer to itself, and "received" otherwise, never "unknown". The
    saving is computed from the fee column read as the channel and the
    amount column read as the fee: an entry whose amount is not negative
    reports no saving, whatever its channel and fee. The page is never
    longer than a limit that is not negative, fifty by default. *)
Theorem history_entries (db : DB) (wid : string) (limit offset : option Z) :
  (forall e,
     In e (fst (get_transactions db wid limit offset)) ->
     exists t,
       In t (transactions db)
       /\ he_transaction_id e = Text (transaction_id t)
       /\ he_amount e = Real (amount t)
       /\ he_fee e = Real (fee t)
       /\ he_channel e = Text (channel t)
       /\ (from_wallet t = Some wid /\ he_type e = Text "sent"
           \/ from_wallet t <> Some wid /\ to_wallet t = Some wid
              /\ he_type e = Text "received")
       /\ (0 <= amount t -> he_fee_saved e = None /\ he_cost_savings e = false)
       /\ (amount t < 0 -> he_fee_saved e = Some (- amount t)))
  /\ (List.length (fst (get_transactions db wid limit offset))
      <= match limit with
         | Some l => if (l <? 0)%Z then List.length (transactions db) else Z.to_nat l
         | None => 50
         end)%nat.
Proof.
  unfold get_transactions. cbn [fst]. split.
  - intros e He. apply in_map_iff in He. destruct He as (t & <- & Ht).
    apply in_limit_offset in Ht. rewrite in_order_by_created_desc in Ht.
    rewrite filter_In in Ht. destruct Ht as [Hin Hsel].
    exists t. split; [exact Hin|].
    unfold history_entry, txn_tuple, col, transaction_type.
    cbn [nth he_transaction_id he_amount he_fee he_channel he_type he_fee_saved
         he_cost_savings cell_dict_get real_or_zero].
    repeat (split; [reflexivity|]).
    split; [|split].
    + destruct (from_wallet t) as [f|] eqn:Hfrom; cbn [sql_eq] in *.
      * destruct (String.eqb_spec wid f) as [->|Hne]; [left; split; reflexivity|].
        right. split; [congruence|].
        destruct (to_wallet t) as [d|]; cbn [sql_eq orb] in *; [|discriminate].
        rewrite Hsel. apply String.eqb_eq in Hsel. subst d. split; reflexivity.
      * right. split; [discriminate|].
        destruct (to_wallet t) as [d|]; cbn [sql_eq orb] in *; [|discriminate].
        rewrite Hsel. apply String.eqb_eq in Hsel. subst d. split; reflexivity.
    + intros Hnonneg.
      replace (0 - amount t >? 0) with false
        by (symmetry; rewrite Z.gtb_ltb; apply Z.ltb_ge; lia).
      split; reflexivity.
    + intros Hneg.
      replace (0 - amount t >? 0) with true
        by (symmetry; rewrite Z.gtb_ltb; apply Z.ltb_lt; lia).
      f_equal.
  - rewrite length_map. unfold limit_offset.
    set (sorted := order_by_created_desc _).
    assert (Hsorted : (List.length sorted <= List.length (transactions db))%nat).
    { subst sorted. rewrite length_order_by_created_desc. apply filter_length_le. }
    destruct limit as [l|].
    + destruct (l <? 0).
      * rewrite length_skipn. lia.
      * apply firstn_le_length.
    + change (50 <? 0) with false. cbv iota. apply firstn_le_length.
Qed.


(** *** Who the caller is *)

Lemma no_bearer_to_remove (t : string) :
  no_capital_B t = true -> remove_all_from "Bearer " 0 t = t.
Proof.
  unfold no_capital_B. induction t as [|c t IH]; [reflexivity|].
  cbn [list_ascii_of_string forallb]. intros H.
  apply andb_prop in H. destruct H as [Hc Ht].
  cbn [remove_all_from String.prefix].
  destruct (Ascii.ascii_dec "B" c) as [<-|_]; [discriminate|].
  rewrite (IH Ht). reflexivity.
Qed.

(** The caller is who the request says: a request whose [Authorization]
    header is ["Bearer "] followed by a token without a capital B is taken
    to come from the user whose id is that token, of the type named by the
    [User-Type] header and a merchant when that header is absent. Every
    header that does not start with ["Bearer "] names nobody, and so does a
    request without the header. *)
Theorem bearer_token_is_the_user
    (declared_type customer_phone_header : option string) :
  (forall token,
      no_capital_B token = true ->
      get_current_user (mkHeaders (Some ("Bearer " ++ token)%string) declared_type
                                  customer_phone_header)
      = Some (mkUser token (match declared_type with Some t => t | None => "merchant" end)))
  /\ (forall header,
        String.prefix "Bearer " header = false ->
        get_current_user (mkHeaders (Some header) declared_type customer_phone_header)
        = None)
  /\ get_current_user (mkHeaders None declared_type customer_phone_header) = None.
Proof.
  split; [|split].
  - intros token Htoken.
    unfold get_current_user. cbn [Authorization User_Type].
    change (truthy (Some ("Bearer " ++ token)%string))
      with (Some ("Bearer " ++ token)%string).
    cbv beta iota.
    replace (String.prefix "Bearer " ("Bearer " ++ token)) with true
      by (destruct token; reflexivity).
    replace (remove_all "Bearer " ("Bearer " ++ token))
      with (remove_all_from "Bearer " 0 token) by (destruct token; reflexivity).
    rewrite (no_bearer_to_remove _ Htoken). reflexivity.
  - intros header Hprefix.
    unfold get_current_user. cbn [Authorization].
    destruct header as [|c rest]; [reflexivity|].
    cbn [truthy]. rewrite Hprefix. reflexivity.
  - reflexivity.
Qed.

(** *** The two fee tables *)

(** The fee table of [config.py] and the one of the send handler agree on
    the five channels the handler lists, and on no other channel: elsewhere
    the handler charges P2.50 where the configuration has P5.00 for
    [bank_transfer] and [eft] and nothing for an unknown channel. *)
Theorem configured_fee_agrees_on_listed_channels (chan : string) :
  Config.get_fee chan = fee_for chan
  <-> In chan ["phantom_wallet"; "orange_money"; "myzaka"; "ussd"; "qr_code"].
Proof.
  unfold Config.get_fee, Config.FEE_STRUCTURE, fee_for, fee_structure.
  cbn [dict_get In].
  destruct (String.eqb_spec "phantom_wallet" chan) as [<-|H1]; [tauto|].
  destruct (String.eqb_spec "orange_money" chan) as [<-|H2]; [tauto|].
  destruct (String.eqb_spec "myzaka" chan) as [<-|H3]; [tauto|].
  destruct (String.eqb_spec "ussd" chan) as [<-|H4]; [tauto|].
  destruct (String.eqb_spec "qr_code" chan) as [<-|H5]; [tauto|].
  destruct (String.eqb_spec "bank_transfer" chan) as [<-|H6];
    [split; [discriminate | tauto]|].
  destruct (String.eqb_spec "eft" chan) as [<-|H7];
    [split; [discriminate | tauto]|].
  split; [discriminate | tauto].
Qed.

(** *** Suggesting an upgrade *)

(** A refusal of [suggest_account_upgrade]: nothing is changed. *)
Ltac refused :=
  cbv beta iota; repeat apply conj;
  [ reflexivity | reflexivity | reflexivity
  | intros e _; split; reflexivity
  | intros; eexists; reflexivity
  | intros sid name Hok; discriminate Hok ].

(** A suggested upgrade changes no wallet: whatever the request, the rows
    of wallets (status and balance included), of merchants and of
    transactions are left as they were. A refusal leaves the suggestions as
    they were too, and a wallet of another merchant is refused; an accepted
    request adds one pending suggestion in the name of the caller. *)
Theorem upgrade_suggestion_changes_no_wallet
    (db : DB) (suggestions : list UpgradeSuggestion) (now : datetime) (hex wid : string)
    (h : Headers) (data : SuggestBody) :
  let '(answer, db', suggestions') :=
    suggest_account_upgrade db suggestions now hex wid h data in
  wallets db' = wallets db
  /\ merchants db' = merchants db
  /\ transactions db' = transactions db
  /\ (forall e, answer = Err e -> db' = db /\ suggestions' = suggestions)
  /\ (forall user w,
        get_current_user h = Some user ->
        find (has_id wid) (wallets db) = Some w ->
        business_id w <> u_user_id user ->
        exists e, answer = Err e)
  /\ (forall sid name,
        answer = Ok (sid, name) ->
        exists user s,
          get_current_user h = Some user
          /\ suggestions' = (suggestions ++ [s])%list
          /\ us_id s = sid
          /\ us_wallet_id s = wid
          /\ us_merchant_id s = u_user_id user
          /\ us_status s = "pending").
Proof.
  unfold suggest_account_upgrade, require_user.
  destruct (get_current_user h) as [user|] eqn:Huser; [|refused].
  destruct (String.eqb (u_user_type user) "merchant"); [|refused].
  destruct (find (has_id wid) (wallets db)) as [w|] eqn:Hw; [|refused].
  destruct (String.eqb_spec (business_id w) (u_user_id user)) as [Hown|Hother];
    cbn [negb]; [|refused].
  destruct (existsb _ suggestions); [refused|].
  unfold add_notification. cbv beta iota. cbn [wallets merchants transactions].
  repeat apply conj; try reflexivity.
  - intros e He. discriminate He.
  - intros u' w' Hu Hw' Hne. injection Hu as <-. injection Hw' as <-. contradiction.
  - intros sid name Hok. injection Hok as <- <-.
    exists user. eexists. repeat split.
Qed.


End ApiOperations.

(** ** The enterprise services, one by one and composed *)
Module EnterpriseOperations.
Import Enterprise EnterpriseApi Observations.

(** The limits let an allowed payment through. *)
Lemma check_limits_allowed (db : DB) (w : PhantomWallet) (now : datetime) (amount : Z) :
  daily_total db w now + amount <= w_daily_limit w ->
  monthly_total db w now + amount <= w_monthly_limit w ->
  check_limits db w now amount = (true, LimitOK).
Proof.
  intros Hd Hm. unfold check_limits.
  replace (daily_total db w now + amount >? w_daily_limit w) with false
    by (symmetry; rewrite Z.gtb_ltb; apply Z.ltb_ge; lia).
  replace (monthly_total db w now + amount >? w_monthly_limit w) with false
    by (symmetry; rewrite Z.gtb_ltb; apply Z.ltb_ge; lia).
  reflexivity.
Qed.

(** The row stored under the id after the credit. *)
Lemma wallet_after_credit (ws : list PhantomWallet) (wid : string) (w : PhantomWallet)
    (amount : Z) (utcnow : datetime) :
  find (fun w' => String.eqb (w_id w') wid) ws = Some w ->
  find (fun w' => String.eqb (w_id w') wid)
       (update_where (fun w' => String.eqb (w_id w') (w_id w)) (credit_wallet amount utcnow) ws)
  = Some (credit_wallet amount utcnow w).
Proof.
  intros Hw. rewrite find_update_where by reflexivity. rewrite Hw. simpl.
  rewrite String.eqb_refl. reflexivity.
Qed.

(** The answer and the wallets of an allowed payment. *)
Lemma accepted_payment_step
    (db : DB) (now utcnow : datetime) (new_id reference : string)
    (request : PaymentRequest) (wallet : PhantomWallet) (business : Business) :
  find (fun w => String.eqb (w_id w) (pr_wallet_id request)) (phantom_wallets db)
  = Some wallet ->
  is_wallet_active (w_status wallet) = true ->
  payment_allowed db wallet now (pr_amount request) ->
  find (fun b => String.eqb (b_id b) (w_business_id wallet)) (businesses db)
  = Some business ->
  fresh_payment_keys db new_id reference ->
  exists db',
    process_payment db now utcnow new_id reference request
    = (Ok (mkPaymentReceipt new_id reference (w_balance wallet + pr_amount request)), db')
    /\ phantom_wallets db'
       = update_where (fun w => String.eqb (w_id w) (w_id wallet))
                      (credit_wallet (pr_amount request) utcnow) (phantom_wallets db).
Proof.
  intros Hw Hactive (Hbounds & Hday & Hmonth) Hb Hfresh.
  unfold process_payment. rewrite Hw. cbn [bind or_fail].
  rewrite Hactive. cbn [negb reject_if bind].
  rewrite (proj2 (Z.ltb_ge _ _)) by lia. cbn [reject_if bind].
  replace (pr_amount request >? MAX_TRANSACTION_AMOUNT) with false
    by (symmetry; rewrite Z.gtb_ltb; apply Z.ltb_ge; lia).
  cbn [reject_if bind].
  rewrite (check_limits_allowed _ _ _ _ Hday Hmonth). cbn [negb reject_if bind].
  rewrite Hb. cbn [or_fail bind].
  unfold add_transaction. cbn [t_id t_reference].
  unfold fresh_payment_keys in Hfresh. rewrite Hfresh. cbn [bind commit].
  eexists. split; reflexivity.
Qed.


(** The enterprise payment path accepts no amount outside its bounds, below
    P1.00 (so zero and negative amounts too) or above P100,000.00: whatever
    the wallet named, the request is refused and nothing changes. For a
    stored, active wallet the answer names the bound; a wallet that is not
    stored or not active is answered as such before the amount is read. *)
Theorem payment_amount_bounds
    (db : DB) (now utcnow : datetime) (new_id reference : string)
    (request : PaymentRequest) :
  (pr_amount request < 100 \/ 10000000 < pr_amount request ->
   exists e, process_payment db now utcnow new_id reference request = (Err e, db))
  /\ (forall wallet,
        find (fun w => String.eqb (w_id w) (pr_wallet_id request)) (phantom_wallets db)
        = Some wallet ->
        is_wallet_active (w_status wallet) = true ->
        (pr_amount request < 100 ->
         process_payment db now utcnow new_id reference request
         = (Err AMOUNT_TOO_LOW, db))
        /\ (10000000 < pr_amount request ->
            process_payment db now utcnow new_id reference request
            = (Err AMOUNT_TOO_HIGH, db)))
  /\ (find (fun w => String.eqb (w_id w) (pr_wallet_id request)) (phantom_wallets db)
      = None ->
      process_payment db now utcnow new_id reference request = (Err WALLET_NOT_FOUND, db))
  /\ (forall wallet,
        find (fun w => String.eqb (w_id w) (pr_wallet_id request)) (phantom_wallets db)
        = Some wallet ->
        is_wallet_active (w_status wallet) = false ->
        process_payment db now utcnow new_id reference request
        = (Err WALLET_INACTIVE, db)).
Proof.
  assert (Hbounds :
            forall wallet,
              find (fun w => String.eqb (w_id w) (pr_wallet_id request)) (phantom_wallets db)
              = Some wallet ->
              is_wallet_active (w_status wallet) = true ->
              (pr_amount request < 100 ->
               process_payment db now utcnow new_id reference request
               = (Err AMOUNT_TOO_LOW, db))
              /\ (10000000 < pr_amount request ->
                  process_payment db now utcnow new_id reference request
                  = (Err AMOUNT_TOO_HIGH, db))).
  { intros wallet Hw Hactive. unfold process_payment. rewrite Hw. cbn [bind or_fail].
    rewrite Hactive. cbn [negb reject_if bind]. unfold MIN_TRANSACTION_AMOUNT.
    split; intros Hamount.
    - rewrite (proj2 (Z.ltb_lt _ _)) by lia. reflexivity.
    - rewrite (proj2 (Z.ltb_ge _ _)) by lia. cbn [reject_if bind].
      unfold MAX_TRANSACTION_AMOUNT.
      replace (pr_amount request >? 10000000) with true
        by (symmetry; rewrite Z.gtb_ltb; apply Z.ltb_lt; lia).
      reflexivity. }
  assert (Hmissing :
            find (fun w => String.eqb (w_id w) (pr_wallet_id request)) (phantom_wallets db)
            = None ->
            process_payment db now utcnow new_id reference request
            = (Err WALLET_NOT_FOUND, db)).
  { intros Hw. unfold process_payment. rewrite Hw. reflexivity. }
  assert (Hinactive :
            forall wallet,
              find (fun w => String.eqb (w_id w) (pr_wallet_id request)) (phantom_wallets db)
              = Some wallet ->
              is_wallet_active (w_status wallet) = false ->
              process_payment db now utcnow new_id reference request
              = (Err WALLET_INACTIVE, db)).
  { intros wallet Hw Hactive. unfold process_payment. rewrite Hw. cbn [bind or_fail].
    rewrite Hactive. reflexivity. }
  split; [|split; [exact Hbounds | split; [exact Hmissing | exact Hinactive]]].
  intros Hout.
  destruct (find (fun w => String.eqb (w_id w) (pr_wallet_id request)) (phantom_wallets db))
    as [wallet|] eqn:Hw.
  - destruct (is_wallet_active (w_status wallet)) eqn:Hactive.
    + destruct (Hbounds wallet eq_refl Hactive) as [Hlow Hhigh].
      destruct Hout as [Hout | Hout]; eexists; [apply Hlow | apply Hhigh]; exact Hout.
    + eexists. apply (Hinactive wallet eq_refl Hactive).
  - eexists. apply Hmissing. reflexivity.
Qed.

(** *** The rolling totals after a payment *)

Lemma sum_amounts_app (p : Transaction -> bool) (ts : list Transaction) (t : Transaction) :
  sum_amounts p (ts ++ [t]) = sum_amounts p ts + (if p t then t_amount t else 0).
Proof.
  unfold sum_amounts. rewrite filter_app. simpl.
  induction (filter p ts) as [|x xs IH]; simpl.
  - destruct (p t); simpl; lia.
  - rewrite IH. lia.
Qed.

(** What an accepted payment is: its wallet, and the database after it. *)
Lemma accepted_payment_inv
    (db db' : DB) (now utcnow : datetime) (new_id reference : string)
    (request : PaymentRequest) (receipt : PaymentReceipt) :
  process_payment db now utcnow new_id reference request = (Ok receipt, db') ->
  exists wallet,
    find (fun w => String.eqb (w_id w) (pr_wallet_id request)) (phantom_wallets db)
    = Some wallet
    /\ is_wallet_active (w_status wallet) = true
    /\ payment_allowed db wallet now (pr_amount request)
    /\ transactions db'
       = (transactions db
            ++ [mkTransaction new_id (w_id wallet) (pr_amount request) CREDIT
                              (pr_method request) TXN_COMPLETED (pr_description request)
                              reference utcnow (Some utcnow)])%list
    /\ phantom_wallets db'
       = update_where (fun w => String.eqb (w_id w) (w_id wallet))
                      (credit_wallet (pr_amount request) utcnow) (phantom_wallets db).
Proof.
  unfold process_payment, payment_allowed, check_limits.
  destruct (find _ (phantom_wallets db)) as [wallet|]; [|discriminate].
  cbn [bind or_fail].
  destruct (is_wallet_active (w_status wallet)) eqn:Hactive; [|discriminate].
  cbn [negb reject_if bind].
  destruct (pr_amount request <? MIN_TRANSACTION_AMOUNT) eqn:Hmin; [discriminate|].
  cbn [reject_if bind].
  destruct (pr_amount request >? MAX_TRANSACTION_AMOUNT) eqn:Hmax; [discriminate|].
  cbn [reject_if bind].
  destruct (daily_total db wallet now + pr_amount request >? w_daily_limit wallet) eqn:Hd;
    [discriminate|].
  destruct (monthly_total db wallet now + pr_amount request >? w_monthly_limit wallet)
    eqn:Hm; [discriminate|].
  cbn [negb reject_if bind].
  destruct (find _ (businesses db)) as [business|]; [|discriminate].
  cbn [or_fail bind]. unfold add_transaction.
  destruct (existsb _ (transactions db)); [discriminate|].
  cbn [bind commit]. intros [= <- <-].
  apply Z.ltb_ge in Hmin. rewrite Z.gtb_ltb in Hmax, Hd, Hm.
  apply Z.ltb_ge in Hmax, Hd, Hm.
  exists wallet. repeat split; assumption || reflexivity.
Qed.

(** An accepted payment counts towards the limits exactly when the day of
    its UTC time stamp is the local day of the check. When the two clocks
    show the same date, the day's and the month's completed totals of the
    wallet grow by the amount and stay within the wallet's daily and
    monthly limits. When the UTC date differs from the local date, as in
    the first hours of the day east of Greenwich, the day's total is what it
    was: the payment is not counted against the daily limit. *)
Theorem accepted_payment_and_the_daily_total
    (db db' : DB) (now utcnow : datetime) (new_id reference : string)
    (request : PaymentRequest) (receipt : PaymentReceipt) :
  process_payment db now utcnow new_id reference request = (Ok receipt, db') ->
  exists wallet wallet',
    find (fun w => String.eqb (w_id w) (pr_wallet_id request)) (phantom_wallets db)
    = Some wallet
    /\ find (fun w => String.eqb (w_id w) (pr_wallet_id request)) (phantom_wallets db')
       = Some wallet'
    /\ w_daily_limit wallet' = w_daily_limit wallet
    /\ w_monthly_limit wallet' = w_monthly_limit wallet
    /\ (date utcnow = date now ->
        1 <= day now ->
        daily_total db' wallet' now = daily_total db wallet now + pr_amount request
        /\ daily_total db' wallet' now <= w_daily_limit wallet'
        /\ monthly_total db' wallet' now = monthly_total db wallet now + pr_amount request
        /\ monthly_total db' wallet' now <= w_monthly_limit wallet')
    /\ (date_eqb (date utcnow) (date now) = false ->
        daily_total db' wallet' now = daily_total db wallet now).
Proof.
  intros Hok.
  destruct (accepted_payment_inv _ _ _ _ _ _ _ _ Hok)
    as (wallet & Hw & _ & (_ & Hday & Hmonth) & Hts & Hws).
  exists wallet, (credit_wallet (pr_amount request) utcnow wallet).
  split; [exact Hw|].
  split; [rewrite Hws; apply wallet_after_credit; exact Hw|].
  split; [reflexivity|]. split; [reflexivity|].
  unfold daily_total, monthly_total in *. rewrite Hts, !sum_amounts_app.
  cbn [t_wallet_id t_timestamp t_status t_amount is_completed w_id credit_wallet
       w_daily_limit w_monthly_limit].
  rewrite String.eqb_refl, !andb_true_r. cbn [andb].
  split.
  - intros Hdate Hfirst. rewrite Hdate.
    assert (Heq : date_eqb (date now) (date now) = true).
    { unfold date_eqb, date. rewrite !Z.eqb_refl. reflexivity. }
    assert (Hge : date_geb (date now) (first_of_month now) = true).
    { unfold date_geb, date, first_of_month. rewrite !Z.eqb_refl.
      replace (day now >=? 1) with true
        by (symmetry; rewrite Z.geb_leb; apply Z.leb_le; lia).
      cbn [andb]. rewrite !orb_true_r. reflexivity. }
    rewrite Heq, Hge. repeat split; lia.
  - intros Hother. rewrite Hother. lia.
Qed.


(** *** The upgrade *)

(** The upgrade ends the wallet's life as a phantom wallet. It is accepted
    for any stored wallet, whatever its status, and keeps the balance and
    the limits; afterwards every payment to the wallet is refused as
    inactive, whatever its amount, and changes nothing. *)
Theorem upgraded_wallet_takes_no_payment
    (db : DB) (account_draw customer_draw : Z) (wid : string) (w : PhantomWallet)
    (now utcnow : datetime) (new_id reference : string) (request : PaymentRequest) :
  find (fun w' => String.eqb (w_id w') wid) (phantom_wallets db) = Some w ->
  pr_wallet_id request = wid ->
  exists db',
    upgrade_to_fnb_account db account_draw customer_draw wid
    = (Ok (create_account account_draw customer_draw), db')
    /\ find (fun w' => String.eqb (w_id w') wid) (phantom_wallets db')
       = Some (set_upgraded w)
    /\ w_balance (set_upgraded w) = w_balance w
    /\ transactions db' = transactions db
    /\ process_payment db' now utcnow new_id reference request
       = (Err WALLET_INACTIVE, db').
Proof.
  intros Hw Hreq. unfold upgrade_to_fnb_account. rewrite Hw.
  eexists. split; [reflexivity|].
  assert (Hnew : find (fun w' => String.eqb (w_id w') wid)
                      (update_where (fun w' => String.eqb (w_id w') wid) set_upgraded
                                    (phantom_wallets db))
                 = Some (set_upgraded w)).
  { rewrite find_update_where by reflexivity. rewrite Hw. simpl.
    apply find_some in Hw. destruct Hw as [_ ->]. reflexivity. }
  unfold log_action. cbn [phantom_wallets transactions].
  split; [exact Hnew|]. split; [reflexivity|]. split; [reflexivity|].
  unfold process_payment. cbn [phantom_wallets]. rewrite Hreq, Hnew. reflexivity.
Qed.

(** *** Wallet creation, inverted *)

(** What a successful [create_wallet] has done. *)
Lemma created_wallet_inv
    (db db' : DB) (utcnow : datetime) (new_id : string) (draws : list Z)
    (business_id : string) (customer_data : CustomerData) (wallet : PhantomWallet) :
  create_wallet db utcnow new_id draws business_id customer_data = Some (Ok wallet, db') ->
  (exists business,
     find (fun b => String.eqb (b_id b) business_id) (businesses db) = Some business)
  /\ w_id wallet = new_id
  /\ w_business_id wallet = business_id
  /\ w_balance wallet = 0
  /\ w_status wallet = WALLET_ACTIVE
  /\ w_monthly_limit wallet = DEFAULT_MONTHLY_LIMIT
  /\ w_daily_limit wallet
     = match cd_daily_limit customer_data with Some l => l | None => DEFAULT_DAILY_LIMIT end
  /\ phantom_wallets db' = (phantom_wallets db ++ [wallet])%list
  /\ businesses db' = businesses db
  /\ transactions db' = transactions db
  /\ existsb (fun w' => String.eqb (w_id w') (w_id wallet)
                        || String.eqb (w_ussd_code w') (w_ussd_code wallet))
             (phantom_wallets db) = false.
Proof.
  unfold create_wallet.
  destruct (find _ (businesses db)) as [business|]; [|discriminate].
  destruct (negb _); [discriminate|].
  destruct (cd_phone customer_data) as [phone|]; [|discriminate].
  destruct (find _ (phantom_wallets db)); [discriminate|].
  destruct (cd_name customer_data) as [name|]; [|discriminate].
  destruct (_generate_ussd_code _ draws) as [code|]; [|discriminate].
  unfold add_wallet. cbn [w_id w_ussd_code].
  destruct (existsb _ (phantom_wallets db)) eqn:Hnew; [discriminate|].
  cbn [bind commit]. intros [= <- <-].
  unfold log_action. cbn [phantom_wallets businesses transactions w_id w_ussd_code
                          w_business_id w_balance w_status w_monthly_limit w_daily_limit].
  repeat split; eauto.
Qed.

(** A wallet is reached by the code it was created with: after a
    successful [create_wallet], a USSD payment that dials the new wallet's
    code, of an amount within the per-transaction bounds and the wallet's
    limits, is accepted and credits the new wallet, and no other, with the
    whole amount. *)
Theorem created_wallet_is_paid_by_its_ussd_code
    (db db1 : DB) (utcnow0 now utcnow : datetime) (new_id : string) (draws : list Z)
    (business_id : string) (customer_data : CustomerData) (wallet : PhantomWallet)
    (txn_id reference amount_text : string) (amount : Z) :
  create_wallet db utcnow0 new_id draws business_id customer_data = Some (Ok wallet, db1) ->
  (forall t, In t (transactions db) -> t_wallet_id t <> new_id) ->
  MIN_TRANSACTION_AMOUNT <= amount <= MAX_TRANSACTION_AMOUNT ->
  amount <= w_daily_limit wallet ->
  amount <= DEFAULT_MONTHLY_LIMIT ->
  fresh_payment_keys db txn_id reference ->
  exists db2,
    ussd_payment db1 now utcnow txn_id reference (w_ussd_code wallet) amount amount_text
    = (Ok (mkPaymentReceipt txn_id reference amount), db2)
    /\ find (fun w => String.eqb (w_id w) new_id) (phantom_wallets db2)
       = Some (credit_wallet amount utcnow wallet)
    /\ w_balance (credit_wallet amount utcnow wallet) = amount
    /\ (forall wid, wid <> new_id ->
        find (fun w => String.eqb (w_id w) wid) (phantom_wallets db2)
        = find (fun w => String.eqb (w_id w) wid) (phantom_wallets db)).
Proof.
  intros Hcreate Hnone Hbounds Hday Hmonth Hfresh.
  destruct (created_wallet_inv _ _ _ _ _ _ _ _ Hcreate)
    as ((business & Hb) & Hid & Hbid & Hbal & Hstatus & Hmlimit & _ & Hws & Hbs & Hts & Hnew).
  assert (Hby_code : find (fun w => String.eqb (w_ussd_code w) (w_ussd_code wallet))
                          (phantom_wallets db1) = Some wallet).
  { rewrite Hws. apply ApiOperations.find_app_new; [|apply String.eqb_refl].
    apply (ApiOperations.existsb_false_find _ _ _ Hnew).
    intros r Hr. rewrite Hr. apply orb_true_r. }
  assert (Hby_id : find (fun w => String.eqb (w_id w) (w_id wallet)) (phantom_wallets db1)
                   = Some wallet).
  { rewrite Hws. apply ApiOperations.find_app_new; [|apply String.eqb_refl].
    apply (ApiOperations.existsb_false_find _ _ _ Hnew).
    intros r Hr. rewrite Hr. reflexivity. }
  assert (Hzero : forall p, sum_amounts
                              (fun t => String.eqb (t_wallet_id t) (w_id wallet) && p t
                                        && is_completed (t_status t))
                              (transactions db1) = 0).
  { intros p. rewrite Hts, Hid. unfold sum_amounts.
    replace (filter _ (transactions db)) with (@nil Transaction); [reflexivity|].
    symmetry. clear - Hnone. induction (transactions db) as [|t ts IH]; [reflexivity|].
    simpl. destruct (String.eqb_spec (t_wallet_id t) new_id) as [E|_].
    - exfalso. apply (Hnone t); [left; reflexivity | exact E].
    - cbn [andb]. apply IH. intros t' Ht'. apply Hnone. right. exact Ht'. }
  assert (Hallowed : payment_allowed db1 wallet now amount).
  { unfold payment_allowed, daily_total, monthly_total. rewrite !Hzero, Hmlimit.
    repeat split; lia. }
  assert (Hfresh1 : fresh_payment_keys db1 txn_id reference)
    by (unfold fresh_payment_keys; rewrite Hts; exact Hfresh).
  assert (Hb1 : find (fun b => String.eqb (b_id b) (w_business_id wallet)) (businesses db1)
                = Some business)
    by (rewrite Hbs, Hbid; exact Hb).
  assert (Hactive : is_wallet_active (w_status wallet) = true)
    by (rewrite Hstatus; reflexivity).
  destruct (accepted_payment_step db1 now utcnow txn_id reference
              (mkPaymentRequest (w_id wallet) amount USSD
                                ("USSD Payment - BWP " ++ amount_text)%string)
              wallet business Hby_id Hactive Hallowed Hb1 Hfresh1)
    as (db2 & Hpay & Hws2).
  cbn [pr_amount pr_wallet_id] in Hpay, Hws2.
  exists db2. unfold ussd_payment. rewrite Hby_code, Hpay, Hbal.
  split; [reflexivity|].
  rewrite Hws2, <- Hid.
  split; [apply wallet_after_credit; exact Hby_id|].
  split; [cbn [w_balance credit_wallet]; lia|].
  intros wid Hne. rewrite find_update_where by reflexivity. rewrite Hws.
  destruct (find (fun w => String.eqb (w_id w) wid) (phantom_wallets db)) as [r|] eqn:Hr.
  - rewrite (ApiInvariants.find_app_found _ _ _ _ Hr). simpl.
    apply find_some in Hr. destruct Hr as [_ Hrid]. apply String.eqb_eq in Hrid.
    rewrite Hrid. destruct (String.eqb_spec wid (w_id wallet)); [congruence | reflexivity].
  - assert (Hlast : find (fun w => String.eqb (w_id w) wid) (phantom_wallets db ++ [wallet])
                    = None).
    { clear - Hr Hne Hid. induction (phantom_wallets db) as [|x xs IH]; simpl in *.
      - rewrite Hid. destruct (String.eqb_spec new_id wid); [congruence | reflexivity].
      - destruct (String.eqb (w_id x) wid); [discriminate | exact (IH Hr)]. }
    rewrite Hlast. reflexivity.
Qed.


(** *** The keys of the enterprise tables *)

Lemma snoc_unique {K : Type} (ks : list K) (k : K) :
  NoDup ks -> ~ In k ks -> NoDup (ks ++ [k]).
Proof.
  intros Hks Hk. apply NoDup_app; [exact Hks | repeat constructor; intros [] |].
  intros x Hx [<- | []]. exact (Hk Hx).
Qed.

Lemma not_stored {R : Type} (p : R -> bool) (g : R -> string) (k : string) (rows : list R) :
  existsb p rows = false ->
  (forall r, g r = k -> p r = true) ->
  ~ In k (map g rows).
Proof.
  intros Hex Hp Hin. apply in_map_iff in Hin. destruct Hin as (r & Hr & Hin).
  assert (existsb p rows = true) by (apply existsb_exists; eauto).
  congruence.
Qed.

(** The keys of the enterprise tables stay unique: when no wallet id and no
    USSD code is stored twice, none is after a wallet creation, whatever
    its answer, after a payment, accepted or refused, and after an
    upgrade. *)
Theorem enterprise_wallet_keys_stay_unique (db : DB) :
  NoDup (map w_id (phantom_wallets db)) ->
  NoDup (map w_ussd_code (phantom_wallets db)) ->
  (forall utcnow new_id draws business_id customer_data answer db',
      create_wallet db utcnow new_id draws business_id customer_data = Some (answer, db') ->
      NoDup (map w_id (phantom_wallets db'))
      /\ NoDup (map w_ussd_code (phantom_wallets db')))
  /\ (forall now utcnow new_id reference request,
        let db' := snd (process_payment db now utcnow new_id reference request) in
        NoDup (map w_id (phantom_wallets db'))
        /\ NoDup (map w_ussd_code (phantom_wallets db')))
  /\ (forall account_draw customer_draw wid,
        let db' := snd (upgrade_to_fnb_account db account_draw customer_draw wid) in
        NoDup (map w_id (phantom_wallets db'))
        /\ NoDup (map w_ussd_code (phantom_wallets db'))).
Proof.
  intros Hids Hcodes. split; [|split].
  - intros utcnow new_id draws business_id customer_data answer db' Hcreate.
    destruct answer as [wallet|e].
    + destruct (created_wallet_inv _ _ _ _ _ _ _ _ Hcreate)
        as (_ & _ & _ & _ & _ & _ & _ & -> & _ & _ & Hnew).
      rewrite !map_app. split; apply snoc_unique; try assumption.
      * apply (not_stored _ _ _ _ Hnew). intros r ->. rewrite String.eqb_refl. reflexivity.
      * apply (not_stored _ _ _ _ Hnew). intros r ->. rewrite String.eqb_refl.
        apply orb_true_r.
    + assert (db' = db); [|subst db'; split; assumption].
      revert Hcreate. unfold create_wallet.
      destruct (find _ (businesses db)); [|intros [= _ <-]; reflexivity].
      destruct (negb _); [intros [= _ <-]; reflexivity|].
      destruct (cd_phone customer_data); [|intros [= _ <-]; reflexivity].
      destruct (find _ (phantom_wallets db)); [intros [= _ <-]; reflexivity|].
      destruct (cd_name customer_data); [|intros [= _ <-]; reflexivity].
      destruct (_generate_ussd_code _ draws); [|discriminate].
      unfold add_wallet. destruct (existsb _ (phantom_wallets db)); cbn [bind commit].
      * intros [= _ <-]. reflexivity.
      * discriminate.
  - intros now utcnow new_id reference request. cbv zeta.
    unfold process_payment.
    repeat match goal with
           | |- context [bind (or_fail ?o _) _] =>
               destruct o; cbn [or_fail bind commit snd]
           | |- context [bind (reject_if ?c _) _] =>
               destruct c; cbn [reject_if bind commit snd]
           | |- context [check_limits ?d ?w ?n ?a] =>
               destruct (check_limits d w n a) as [? ?]
           | |- context [bind (add_transaction ?e ?t ?ts) _] =>
               unfold add_transaction; destruct (existsb _ ts); cbn [bind commit snd]
           end;
      try (split; assumption).
    unfold log_action. cbn [phantom_wallets].
    rewrite !ApiInvariants.map_update_where by reflexivity. split; assumption.
  - intros account_draw customer_draw wid. cbv zeta. unfold upgrade_to_fnb_account.
    destruct (find _ (phantom_wallets db)); cbn [snd]; [|split; assumption].
    unfold log_action. cbn [phantom_wallets].
    rewrite !ApiInvariants.map_update_where by reflexivity. split; assumption.
Qed.


End EnterpriseOperations.

(** ** The properties above at concrete requests *)
Module ExtraRuns.
Import Api Requests Observations ApiViews Scenario MoreScenario.

Lemma ex_and_left {T : Type} (P : Prop) (Q : T -> Prop) :
  P -> (exists x, Q x) -> exists x, P /\ Q x.
Proof. intros HP [x HQ]. exists x. split; assumption. Defined.

(** A list of distinct string literals has no duplicate. *)
Ltac distinct_strings :=
  repeat (constructor; [simpl; intuition discriminate|]); constructor.

(** A holds P500 and B nothing; A sends P150 to B on the phantom channel. *)
Lemma send_payment_keeps_balances_nonneg_witness :
  balances_nonneg
    (snd (customer_send_payment A_and_B noon "00000001" (customer_headers "tok")
            (send_from_A 15000 "phantom_wallet" wallet_B))) = true.
Proof.
  apply ApiFacts.send_payment_keeps_balances_nonneg.
  - distinct_strings.
  - reflexivity.
  - intros amt [= <-]. lia.
Defined.

(** The owner of wallet A tops it up by P100. *)
Lemma merchant_topup_keeps_balances_nonneg_witness :
  balances_nonneg
    (snd (merchant_topup_wallet A_and_B noon "00000001" wallet_A
            (merchant_headers "merchant_001") topup_100)) = true.
Proof. apply ApiFacts.merchant_topup_keeps_balances_nonneg. reflexivity. Defined.

(** A bank transfer is charged the default P2.50. *)
Lemma fee_for_other_channel_witness : fee_for "bank_transfer" = 250.
Proof. apply ApiFacts.fee_for_other_channel. simpl. intuition discriminate. Defined.

(** Wallet A is inactive; its customer tries to send P100 by Orange Money. *)
Lemma send_payment_requires_active_sender_witness :
  customer_send_payment inactive_A noon "00000001" (customer_headers "tok")
    (send_from_A 10000 "orange_money" "+26775550000")
  = (Err WalletNotFoundOrInactive, inactive_A).
Proof.
  apply (ApiFacts.send_payment_requires_active_sender
           inactive_A noon "00000001" (customer_headers "tok")
           (send_from_A 10000 "orange_money" "+26775550000")
           10000 "orange_money" "+26775550000" phone_A wallet_A);
    try reflexivity.
  - discriminate.
  - intros w [<- | []] _. reflexivity.
Defined.

(** The customer of wallet A, which holds P500, tops it up by P100. *)
Lemma customer_topup_credits_full_amount_witness :
  exists amt wallet row,
    ct_amount (topup_A 10000) = Some amt
    /\ find (fun w => sql_eq (customer_phone w) (ct_customer_phone (topup_A 10000)))
            (wallets A_and_B) = Some wallet
    /\ transactions (snd (customer_topup A_and_B noon "00000001" (customer_headers "tok")
                            (topup_A 10000)))
       = (transactions A_and_B ++ [row])%list
    /\ from_wallet row = None
    /\ to_wallet row = Some (wallet_id wallet)
    /\ amount row = amt
    /\ fee row = 0
    /\ 10000 = amt
    /\ 50000 = balance wallet
    /\ 60000 = balance wallet + amt
    /\ (find (has_id (wallet_id wallet)) (wallets A_and_B) = Some wallet ->
        balance_of (snd (customer_topup A_and_B noon "00000001" (customer_headers "tok")
                           (topup_A 10000))) (wallet_id wallet)
        = Some (balance wallet + amt)).
Proof.
  exact (ApiFacts.customer_topup_credits_full_amount
           A_and_B noon "00000001" (customer_headers "tok") (topup_A 10000)
           (mkCustomerTopupReceipt "txn_bw_2025_00000001" 10000 "orange_money" 50000 60000
                                   "OM-TEST-12345")
           (snd (customer_topup A_and_B noon "00000001" (customer_headers "tok")
                   (topup_A 10000)))
           eq_refl).
Defined.

(** A QR payment of P6,000 to a wallet whose daily limit is P5,000. *)
Lemma process_payment_rejects_over_limit_witness :
  exists msg,
    Enterprise.process_payment enterprise_db noon noon "t-1" "PB1" (qr_payment 600000)
    = (Err (Enterprise.LIMIT_EXCEEDED msg), enterprise_db).
Proof.
  apply (EnterpriseFacts.process_payment_rejects_over_limit
           enterprise_db noon noon "t-1" "PB1" (qr_payment 600000) enterprise_wallet).
  - reflexivity.
  - reflexivity.
  - split; discriminate.
  - left. reflexivity.
Defined.

(** Two wallets are created and one pays the other. *)
Lemma keys_stay_unique_witness :
  keys_unique
    (run two_merchants
         [ create_A 50000; create_B;
           SendPayment noon "00000001" (customer_headers "tok")
                       (send_from_A 15000 "phantom_wallet" wallet_B) ]).
Proof.
  apply ApiInvariants.keys_stay_unique.
  unfold keys_unique. repeat split; constructor.
Defined.

(** Wallet B is deactivated and activated again; wallet A still holds P500. *)
Lemma balance_changes_are_logged_witness :
  balance_of
    (run A_and_B [ Deactivate wallet_B (merchant_headers "merchant_001");
                   Activate wallet_B (merchant_headers "merchant_001") ])
    wallet_A = Some 50000.
Proof. apply ApiInvariants.balance_changes_are_logged; reflexivity. Defined.

(** Wallet A belongs to merchant_001: merchant_002 is refused, merchant_001
    tops it up by P100. *)
Lemma merchant_topup_by_owner_only_witness :
  merchant_topup_wallet A_and_B noon "00000001" wallet_A (merchant_headers "merchant_002")
                        topup_100
  = (Err Unauthorized, A_and_B)
  /\ exists receipt db',
       merchant_topup_wallet A_and_B noon "00000001" wallet_A
                             (merchant_headers "merchant_001") topup_100
       = (Ok receipt, db')
       /\ tr_previous_balance receipt = 50000
       /\ tr_new_balance receipt = 50000 + 10000
       /\ balance_of db' wallet_A = Some (50000 + 10000)
       /\ merchants db' = merchants A_and_B
       /\ transactions db'
          = (transactions A_and_B
               ++ [mkTransaction (generate_transaction_id "00000001") wallet_A None
                                 (Some wallet_A) 10000 0 "merchant_topup" "completed"
                                 "cash" None noon])%list.
Proof.
  split.
  - apply (proj1 (ApiOperations.merchant_topup_by_owner_only
                    A_and_B noon "00000001" wallet_A (merchant_headers "merchant_002")
                    topup_100 "merchant_002" "cash" 10000 (row_A 50000)
                    eq_refl eq_refl eq_refl eq_refl eq_refl)).
    discriminate.
  - apply (proj2 (ApiOperations.merchant_topup_by_owner_only
                    A_and_B noon "00000001" wallet_A (merchant_headers "merchant_001")
                    topup_100 "merchant_001" "cash" 10000 (row_A 50000)
                    eq_refl eq_refl eq_refl eq_refl eq_refl));
      reflexivity.
Defined.

(** Wallet B belongs to merchant_001: merchant_002 may change nothing,
    merchant_001 deactivates it and activates it. *)
Lemma status_change_by_owner_only_witness :
  (deactivate_wallet A_and_B wallet_B (merchant_headers "merchant_002")
   = (Err Unauthorized, A_and_B)
   /\ activate_wallet A_and_B wallet_B (merchant_headers "merchant_002")
      = (Err Unauthorized, A_and_B))
  /\ (exists db',
        deactivate_wallet A_and_B wallet_B (merchant_headers "merchant_001") = (Ok tt, db')
        /\ status_of db' wallet_B = Some "inactive"
        /\ balance_of db' wallet_B = Some 0
        /\ merchants db' = merchants A_and_B
        /\ transactions db' = transactions A_and_B)
  /\ (exists db',
        activate_wallet A_and_inactive_B wallet_B (merchant_headers "merchant_001")
        = (Ok tt, db')
        /\ status_of db' wallet_B = Some "active"
        /\ balance_of db' wallet_B = Some 0
        /\ merchants db' = merchants A_and_inactive_B
        /\ transactions db' = transactions A_and_inactive_B).
Proof.
  split; [|split].
  - apply (proj1 (ApiOperations.status_change_by_owner_only
                    A_and_B wallet_B (merchant_headers "merchant_002") "merchant_002" row_B
                    eq_refl eq_refl)).
    discriminate.
  - apply (proj2 (ApiOperations.status_change_by_owner_only
                    A_and_B wallet_B (merchant_headers "merchant_001") "merchant_001" row_B
                    eq_refl eq_refl)).
    reflexivity.
  - apply (proj2 (ApiOperations.status_change_by_owner_only
                    A_and_inactive_B wallet_B (merchant_headers "merchant_001")
                    "merchant_001" (set_status "inactive" row_B) eq_refl eq_refl)).
    reflexivity.
Defined.

(** Wallet A is deactivated by its merchant and then asked to send P100. *)
Lemma deactivated_wallet_cannot_send_witness :
  exists db',
    deactivate_wallet A_and_B wallet_A (merchant_headers "merchant_001") = (Ok tt, db')
    /\ customer_send_payment db' noon "00000001" (customer_headers "tok")
         (send_from_A 10000 "phantom_wallet" wallet_B)
       = (Err WalletNotFoundOrInactive, db').
Proof.
  apply (ApiOperations.deactivated_wallet_cannot_send
           A_and_B wallet_A (merchant_headers "merchant_001") "merchant_001" (row_A 50000)
           noon "00000001" (customer_headers "tok")
           (send_from_A 10000 "phantom_wallet" wallet_B)
           10000 "phantom_wallet" wallet_B phone_A);
    first [ reflexivity | discriminate ].
Defined.

(** Wallet B, active, is deactivated and activated by its merchant. *)
Lemma deactivate_then_activate_restores_witness :
  exists db1 db2,
    deactivate_wallet A_and_B wallet_B (merchant_headers "merchant_001") = (Ok tt, db1)
    /\ activate_wallet db1 wallet_B (merchant_headers "merchant_001") = (Ok tt, db2)
    /\ wallets db2 = wallets A_and_B
    /\ transactions db2 = transactions A_and_B
    /\ merchants db2 = merchants A_and_B.
Proof.
  apply (ApiOperations.deactivate_then_activate_restores
           A_and_B wallet_B (merchant_headers "merchant_001") "merchant_001" row_B);
    try reflexivity.
  intros r [<- | [<- | []]] _; reflexivity.
Defined.




(** The customer of wallet A logs in with the PIN 0000 while 1234 is stored;
    with wallet A inactive the stored PIN is refused. *)
Lemma customer_login_accepts_any_four_digits_witness :
  option_map customer_pin
             (find (fun w => String.eqb (customer_phone w) phone_A) (wallets A_and_B))
  = Some (Some "1234")
  /\ customer_login A_and_B (mkLoginBody (Some phone_A) (Some "0000"))
     = Ok (mkCustomerSession wallet_A "Sender Test" 50000 phone_A "customer")
  /\ customer_login inactive_A (mkLoginBody (Some phone_A) (Some "1234"))
     = Err LoginWalletNotFoundOrInactive.
Proof.
  split; [reflexivity|]. split.
  - apply (proj1 (ApiOperations.customer_login_accepts_any_four_digits
                    A_and_B phone_A "0000" (row_A 50000)
                    ltac:(discriminate) eq_refl));
      reflexivity.
  - apply (proj2 (ApiOperations.customer_login_accepts_any_four_digits
                    inactive_A phone_A "1234" (set_status "inactive" (row_A 50000))
                    ltac:(discriminate) eq_refl));
      first [ reflexivity | discriminate ].
Defined.

(** Wallet A is created at merchant_001 with P500 and read back. *)
Lemma created_wallet_is_readable_witness :
  exists db',
    create_wallet two_merchants noon "aaaaaaaa" "A1A1" "1234"
                  (merchant_headers "merchant_001") create_A_body
    = (Ok (row_A 50000), db')
    /\ wallets db' = (wallets two_merchants ++ [row_A 50000])%list
    /\ transactions db' = transactions two_merchants
    /\ merchants db' = merchants two_merchants
    /\ get_wallet_balance db' wallet_A
       = Some (mkWalletView wallet_A "Sender Test" phone_A 50000 500000 "*167*A1A1#"
                            "active" (Some "Kgalagadi General Store") noon)
    /\ customer_login db' (mkLoginBody (Some phone_A) (Some "9876"))
       = Ok (mkCustomerSession wallet_A "Sender Test" 50000 phone_A "customer").
Proof.
  apply (ApiOperations.created_wallet_is_readable
           two_merchants noon "aaaaaaaa" "A1A1" "1234" (merchant_headers "merchant_001")
           create_A_body "merchant_001" phone_A "Sender Test" "9876");
    first [ reflexivity | discriminate ].
Defined.

(** The history of wallet A after an Orange Money send. *)
Lemma history_entries_witness :
  In (history_entry (txn_tuple wallet_A orange_money_row))
     (fst (get_transactions A_and_B_with_history wallet_A None None))
  /\ (exists t,
        In t (transactions A_and_B_with_history)
        /\ he_transaction_id (history_entry (txn_tuple wallet_A orange_money_row))
           = Text (transaction_id t)
        /\ he_amount (history_entry (txn_tuple wallet_A orange_money_row))
           = Real (amount t)
        /\ he_fee (history_entry (txn_tuple wallet_A orange_money_row)) = Real (fee t)
        /\ he_channel (history_entry (txn_tuple wallet_A orange_money_row))
           = Text (channel t)
        /\ (from_wallet t = Some wallet_A
            /\ he_type (history_entry (txn_tuple wallet_A orange_money_row)) = Text "sent"
            \/ from_wallet t <> Some wallet_A /\ to_wallet t = Some wallet_A
               /\ he_type (history_entry (txn_tuple wallet_A orange_money_row))
                  = Text "received")
        /\ (0 <= amount t ->
            he_fee_saved (history_entry (txn_tuple wallet_A orange_money_row)) = None
            /\ he_cost_savings (history_entry (txn_tuple wallet_A orange_money_row))
               = false)
        /\ (amount t < 0 ->
            he_fee_saved (history_entry (txn_tuple wallet_A orange_money_row))
            = Some (- amount t)))
  /\ (List.length (fst (get_transactions A_and_B_with_history wallet_A (Some 1%Z) None))
      <= Z.to_nat 1)%nat.
Proof.
  assert (Hin : In (history_entry (txn_tuple wallet_A orange_money_row))
                   (fst (get_transactions A_and_B_with_history wallet_A None None)))
    by (right; left; reflexivity).
  split; [exact Hin|]. split.
  - exact (proj1 (ApiOperations.history_entries A_and_B_with_history wallet_A None None)
                 _ Hin).
  - exact (proj2 (ApiOperations.history_entries A_and_B_with_history wallet_A (Some 1)
                                                None)).
Defined.

(** The token merchant_001 with no User-Type header; a header of another
    scheme and a bare token name nobody. *)
Lemma bearer_token_is_the_user_witness :
  get_current_user (mkHeaders (Some "Bearer merchant_001") None None)
  = Some (mkUser "merchant_001" "merchant")
  /\ get_current_user (mkHeaders (Some "Basic abc") None None) = None
  /\ get_current_user (mkHeaders (Some "merchant_001") None None) = None
  /\ get_current_user (mkHeaders None None None) = None.
Proof.
  destruct (ApiOperations.bearer_token_is_the_user None None)
    as (Htoken & Hother & Hnone).
  split; [exact (Htoken "merchant_001" eq_refl)|].
  split; [exact (Hother "Basic abc" eq_refl)|].
  split; [exact (Hother "merchant_001" eq_refl) | exact Hnone].
Defined.

(** The two tables agree on USSD and differ on a bank transfer. *)
Lemma configured_fee_agrees_on_listed_channels_witness :
  Config.get_fee "ussd" = fee_for "ussd"
  /\ Config.get_fee "bank_transfer" <> fee_for "bank_transfer".
Proof.
  split.
  - apply ApiOperations.configured_fee_agrees_on_listed_channels.
    simpl. tauto.
  - intros H. apply ApiOperations.configured_fee_agrees_on_listed_channels in H.
    simpl in H. intuition discriminate.
Defined.

(** The merchant of wallet A suggests its upgrade. *)
Lemma upgrade_suggestion_changes_no_wallet_witness :
  let '(answer, db', suggestions') :=
    suggest_account_upgrade A_and_B [] noon "5e5e5e5e" wallet_A
                            (merchant_headers "merchant_001") (mkSuggestBody None None) in
  wallets db' = wallets A_and_B
  /\ merchants db' = merchants A_and_B
  /\ transactions db' = transactions A_and_B
  /\ answer = Ok ("upgrade_5e5e5e5e", "Sender Test")
  /\ List.length suggestions' = 1%nat.
Proof.
  pose proof (ApiOperations.upgrade_suggestion_changes_no_wallet
                A_and_B [] noon "5e5e5e5e" wallet_A (merchant_headers "merchant_001")
                (mkSuggestBody None None)) as H.
  destruct (suggest_account_upgrade A_and_B [] noon "5e5e5e5e" wallet_A
              (merchant_headers "merchant_001") (mkSuggestBody None None))
    as [[answer db'] suggestions'] eqn:Hrun.
  destruct H as (Hw & Hm & Ht & _).
  repeat (split; [assumption|]).
  vm_compute in Hrun. injection Hrun as <- _ <-. split; reflexivity.
Defined.



(** Payments of nothing and of P100,000.01 to the stored wallet, and a
    payment of nothing to a wallet that is not stored. *)
Lemma payment_amount_bounds_witness :
  Enterprise.process_payment enterprise_db noon noon "t-1" "PB1" (qr_payment 0)
  = (Err Enterprise.AMOUNT_TOO_LOW, enterprise_db)
  /\ Enterprise.process_payment enterprise_db noon noon "t-1" "PB1" (qr_payment 10000001)
     = (Err Enterprise.AMOUNT_TOO_HIGH, enterprise_db)
  /\ Enterprise.process_payment enterprise_db noon noon "t-1" "PB1"
       (Enterprise.mkPaymentRequest "w-9" 0 Enterprise.QR "QR Payment")
     = (Err Enterprise.WALLET_NOT_FOUND, enterprise_db).
Proof.
  split; [|split].
  - destruct (EnterpriseOperations.payment_amount_bounds
                enterprise_db noon noon "t-1" "PB1" (qr_payment 0))
      as (_ & Hbounds & _).
    apply (proj1 (Hbounds enterprise_wallet eq_refl eq_refl)). reflexivity.
  - destruct (EnterpriseOperations.payment_amount_bounds
                enterprise_db noon noon "t-1" "PB1" (qr_payment 10000001))
      as (_ & Hbounds & _).
    apply (proj2 (Hbounds enterprise_wallet eq_refl eq_refl)). reflexivity.
  - destruct (EnterpriseOperations.payment_amount_bounds
                enterprise_db noon noon "t-1" "PB1"
                (Enterprise.mkPaymentRequest "w-9" 0 Enterprise.QR "QR Payment"))
      as (_ & _ & Hmissing & _).
    apply Hmissing. reflexivity.
Defined.

(** A payment at noon on both clocks, and one at 01:00 local time, which is
    23:00 of the day before in UTC. *)
Lemma accepted_payment_and_the_daily_total_witness :
  Enterprise.daily_total
    (snd (Enterprise.process_payment enterprise_db noon noon "t-1" "PB1"
            (qr_payment 20000)))
    (Enterprise.credit_wallet 20000 noon enterprise_wallet) noon
  = Enterprise.daily_total enterprise_db enterprise_wallet noon + 20000
  /\ Enterprise.daily_total
       (snd (Enterprise.process_payment enterprise_db early_local early_utc "t-1" "PB1"
               (qr_payment 20000)))
       (Enterprise.credit_wallet 20000 early_utc enterprise_wallet) early_local
     = Enterprise.daily_total enterprise_db enterprise_wallet early_local.
Proof.
  split.
  - destruct (EnterpriseOperations.accepted_payment_and_the_daily_total
                enterprise_db
                (snd (Enterprise.process_payment enterprise_db noon noon "t-1" "PB1"
                        (qr_payment 20000)))
                noon noon "t-1" "PB1" (qr_payment 20000)
                (Enterprise.mkPaymentReceipt "t-1" "PB1" 20000) eq_refl)
      as (w & w' & Hw & Hw' & _ & _ & Hsame & _).
    injection Hw as <-. injection Hw' as <-.
    apply Hsame; [reflexivity | discriminate].
  - destruct (EnterpriseOperations.accepted_payment_and_the_daily_total
                enterprise_db
                (snd (Enterprise.process_payment enterprise_db early_local early_utc
                        "t-1" "PB1" (qr_payment 20000)))
                early_local early_utc "t-1" "PB1" (qr_payment 20000)
                (Enterprise.mkPaymentReceipt "t-1" "PB1" 20000) eq_refl)
      as (w & w' & Hw & Hw' & _ & _ & _ & Hother).
    injection Hw as <-. injection Hw' as <-.
    apply Hother. reflexivity.
Defined.

(** The wallet of the first business is upgraded and then paid P200. *)
Lemma upgraded_wallet_takes_no_payment_witness :
  exists db',
    EnterpriseApi.upgrade_to_fnb_account enterprise_db 1234567 42 "w-1"
    = (Ok (EnterpriseApi.mkFNBAccount "6201234567" "FNBC000042"), db')
    /\ find (fun w' => String.eqb (Enterprise.w_id w') "w-1") (Enterprise.phantom_wallets db')
       = Some (EnterpriseApi.set_upgraded enterprise_wallet)
    /\ Enterprise.w_balance (EnterpriseApi.set_upgraded enterprise_wallet)
       = Enterprise.w_balance enterprise_wallet
    /\ Enterprise.transactions db' = Enterprise.transactions enterprise_db
    /\ Enterprise.process_payment db' noon noon "t-1" "PB1" (qr_payment 20000)
       = (Err Enterprise.WALLET_INACTIVE, db').
Proof.
  apply (EnterpriseOperations.upgraded_wallet_takes_no_payment
           enterprise_db 1234567 42 "w-1" enterprise_wallet noon noon "t-1" "PB1"
           (qr_payment 20000));
    reflexivity.
Defined.

(** The second business creates a wallet, which is then paid P200 over its
    USSD code. *)
Lemma created_wallet_is_paid_by_its_ussd_code_witness :
  exists db1 db2,
    Enterprise.create_wallet enterprise_db noon "w-2" [42; 43] "biz-2" customer_A
    = Some (Ok new_wallet_of_second_business, db1)
    /\ EnterpriseApi.ussd_payment db1 noon noon "t-1" "PB1" "*0043#" 20000 "200"
       = (Ok (Enterprise.mkPaymentReceipt "t-1" "PB1" 20000), db2)
    /\ find (fun w => String.eqb (Enterprise.w_id w) "w-2") (Enterprise.phantom_wallets db2)
       = Some (Enterprise.credit_wallet 20000 noon new_wallet_of_second_business)
    /\ Enterprise.w_balance (Enterprise.credit_wallet 20000 noon
                               new_wallet_of_second_business) = 20000
    /\ (forall wid, wid <> "w-2" ->
        find (fun w => String.eqb (Enterprise.w_id w) wid) (Enterprise.phantom_wallets db2)
        = find (fun w => String.eqb (Enterprise.w_id w) wid)
               (Enterprise.phantom_wallets enterprise_db)).
Proof.
  eexists. apply ex_and_left; [reflexivity|].
  apply (EnterpriseOperations.created_wallet_is_paid_by_its_ussd_code
           enterprise_db _ noon noon noon "w-2" [42; 43] "biz-2" customer_A
           new_wallet_of_second_business "t-1" "PB1" "200" 20000);
    first [ reflexivity | intros t [] | split; discriminate | discriminate ].
Defined.

(** The keys of the store after a QR payment of P200. *)
Lemma enterprise_wallet_keys_stay_unique_witness :
  NoDup (map Enterprise.w_id
             (Enterprise.phantom_wallets
                (snd (Enterprise.process_payment enterprise_db noon noon "t-1" "PB1"
                        (qr_payment 20000)))))
  /\ NoDup (map Enterprise.w_ussd_code
                (Enterprise.phantom_wallets
                   (snd (Enterprise.process_payment enterprise_db noon noon "t-1" "PB1"
                           (qr_payment 20000))))).
Proof.
  apply (EnterpriseOperations.enterprise_wallet_keys_stay_unique enterprise_db);
    distinct_strings.
Defined.


End ExtraRuns.

(** ** The balance test of the send handler on binary64 amounts *)
Module Api64Facts.
Import Float64 Api64.











End Api64Facts.
